(** * ssmcp: the protocol translation core of [lib.mjs]

    A shallow embedding of [src/lib.mjs], of the server construction of
    [src/main.mjs] and of the argument parser of the [ssmcp] executable.
    JavaScript values are a small
    universal type, objects are property lists in own-key order, the HTTP
    collaborator is an oracle over the requests issued so far, and every
    [async] function is a computation in a monad that threads the request log
    and may throw.

    Strings are sequences of bytes (the UTF-8 form of the JavaScript string):
    the string operations the program uses (concatenation, comparison,
    [includes], [startsWith], stripping of slashes, percent-encoding) act the
    same way on that form. *)

From Stdlib Require Import String Ascii List Bool Arith NArith ZArith Lia.
From Stdlib Require Import DecimalString.
Import ListNotations.
Local Open Scope list_scope.
Local Open Scope string_scope.

#[local] Set Warnings "-register-all".

(** ** Numbers

    JSON numbers are IEEE doubles.  The program only asks three things of a
    number: whether it is truthy, its [String(n)] form and its
    [JSON.stringify(n)] form.  Those three observations are an interface. *)

Class JsNumber (number : Type) : Type := {
  num_truthy : number -> bool;
  num_to_string : number -> string;
  num_to_json : number -> string
}.

(** Integers of small magnitude, printed in decimal: the instance used by the
    concrete examples. *)
Definition Z_to_string (z : Z) : string :=
  NilZero.string_of_int (Z.to_int z).

#[export] Instance Z_JsNumber : JsNumber Z := {
  num_truthy z := negb (Z.eqb z 0);
  num_to_string := Z_to_string;
  num_to_json := Z_to_string
}.

(** ** Strings *)

Definition slash : ascii := "/"%char.

(** The double quote, for error messages and JSON text. *)
Definition dquote : string := String (ascii_of_nat 34) EmptyString.

Definition nat_to_string (n : nat) : string :=
  NilZero.string_of_uint (Nat.to_uint n).

Definition string_is_empty (s : string) : bool :=
  match s with EmptyString => true | String _ _ => false end.

(** [s.startsWith(p)] *)
Fixpoint startsWith (s p : string) : bool :=
  match p, s with
  | EmptyString, _ => true
  | String _ _, EmptyString => false
  | String a p', String b s' => Ascii.eqb a b && startsWith s' p'
  end.

(** [s.includes(p)] *)
Fixpoint includes (s p : string) : bool :=
  startsWith s p ||
  match s with
  | EmptyString => false
  | String _ s' => includes s' p
  end.

(** [s.replace(/^\/+/, EMPTY)]: drops the leading run of slashes. *)
Fixpoint strip_leading_slashes (s : string) : string :=
  match s with
  | String c s' => if Ascii.eqb c slash then strip_leading_slashes s' else s
  | EmptyString => EmptyString
  end.

(** [s.replace(/\/+$/, EMPTY)]: the leftmost match of the pattern is the whole
    trailing run of slashes, which is dropped. *)
Fixpoint strip_trailing_slashes (s : string) : string :=
  match s with
  | EmptyString => EmptyString
  | String c s' =>
      let r := strip_trailing_slashes s' in
      if Ascii.eqb c slash && string_is_empty r then EmptyString
      else String c r
  end.

(** [n] slashes. *)
Fixpoint slashes (n : nat) : string :=
  match n with
  | O => EmptyString
  | S n' => String slash (slashes n')
  end.

(** The last character of a string, if any. *)
Fixpoint last_char (s : string) : option ascii :=
  match s with
  | EmptyString => None
  | String c EmptyString => Some c
  | String _ s' => last_char s'
  end.

Definition first_char (s : string) : option ascii :=
  match s with
  | EmptyString => None
  | String c _ => Some c
  end.

Fixpoint join (sep : string) (l : list string) : string :=
  match l with
  | [] => EmptyString
  | [x] => x
  | x :: l' => x ++ sep ++ join sep l'
  end.

(** ** Errors *)

(** What a JavaScript [throw] carries.  The first group are the errors
    [lib.mjs] raises itself, [TypeError] is the runtime's (a property read on
    [undefined] or [null], a call of something that is no function), and
    [CollaboratorError] is a rejection of the HTTP client or of a response
    accessor such as [res.json()]. *)
Inductive error : Type :=
| Unauthorized
| Forbidden
| UnknownTool (name : string)
| UnknownPrompt (name : string)
| UnknownResource (uri : string)
| ManifestFetchFailed (status : nat) (statusText : string)
| SectionFetchFailed (section : string) (status : nat) (statusText : string)
| PromptFetchFailed (name : string) (status : nat) (statusText : string)
| ResourceFetchFailed (uri : string) (status : nat) (statusText : string)
| UnsupportedContentType (contentType : string)
| UnsupportedPromptContentType (contentType : string)
| TypeError
| CollaboratorError (msg : string).

(** The message of the [Error] object, as [lib.mjs] builds it. *)
Definition error_message (e : error) : string :=
  match e with
  | Unauthorized => "Unauthorized"
  | Forbidden => "Forbidden"
  | UnknownTool n => "Unknown tool " ++ dquote ++ n ++ dquote
  | UnknownPrompt n => "Unknown prompt " ++ dquote ++ n ++ dquote
  | UnknownResource u => "Unknown resource " ++ dquote ++ u ++ dquote
  | ManifestFetchFailed st txt =>
      "Failed to fetch manifest: " ++ nat_to_string st ++ " " ++ txt
  | SectionFetchFailed sec st txt =>
      "Failed to fetch " ++ sec ++ ": " ++ nat_to_string st ++ " " ++ txt
  | PromptFetchFailed n st txt =>
      "Failed to get prompt " ++ dquote ++ n ++ dquote ++ ": "
        ++ nat_to_string st ++ " " ++ txt
  | ResourceFetchFailed u st txt =>
      "Failed to read resource " ++ dquote ++ u ++ dquote ++ ": "
        ++ nat_to_string st ++ " " ++ txt
  | UnsupportedContentType ct =>
      "Unsupported or unknown content type " ++ dquote ++ ct ++ dquote ++ "."
  | UnsupportedPromptContentType ct =>
      "Unsupported content type " ++ dquote ++ ct ++ dquote
        ++ " for prompt response."
  | TypeError => "TypeError"
  | CollaboratorError m => m
  end.

(** The outcome of an evaluation: a value, or a thrown error. *)
Inductive result (A : Type) : Type :=
| OK (a : A)
| Throw (e : error).
Arguments OK {A} a.
Arguments Throw {A} e.

(** ** Values *)

Section Ssmcp.

Context {number : Type} `{JsNumber number}.

(** A JavaScript value as this program meets them: [undefined], and what
    [JSON.parse] produces.  An object is its list of own properties in
    own-key order. *)
Inductive value : Type :=
| VUndefined
| VNull
| VBool (b : bool)
| VNum (n : number)
| VStr (s : string)
| VArr (l : list value)
| VObj (o : list (string * value)).

Definition obj : Type := list (string * value).

(** JavaScript truthiness. *)
Definition truthy (v : value) : bool :=
  match v with
  | VUndefined | VNull => false
  | VBool b => b
  | VNum n => num_truthy n
  | VStr s => negb (string_is_empty s)
  | VArr _ | VObj _ => true
  end.

(** [a ?? b] *)
Definition nullish (v : value) : bool :=
  match v with
  | VUndefined | VNull => true
  | _ => false
  end.

(** [baseURL.replace(...)] and [relativeURL.replace(...)]: only a string has
    that method. *)
Definition as_string (v : value) : result string :=
  match v with
  | VStr s => OK s
  | _ => Throw TypeError
  end.

(** [combineURLs] (lib.mjs, lines 110-113). *)
Definition combineURLs (baseURL relativeURL : value) : result value :=
  if truthy relativeURL then
    match as_string baseURL with
    | Throw e => Throw e
    | OK b =>
        match as_string relativeURL with
        | Throw e => Throw e
        | OK r =>
            OK (VStr (strip_trailing_slashes b ++ "/" ++ strip_leading_slashes r))
        end
    end
  else OK baseURL.

(** ** Objects

    The own properties of an object are ordered: the keys that are array
    indices first, in ascending numeric order, then the other keys in the
    order they were created.  An array index is the canonical decimal form
    of an integer below [2^32 - 1]. *)

Definition array_index (k : string) : option N :=
  match NilZero.uint_of_string k with
  | None => None
  | Some u =>
      let n := N.of_uint u in
      if String.eqb (NilZero.string_of_uint (N.to_uint n)) k
         && N.ltb n 4294967295
      then Some n else None
  end.

Fixpoint lookup (k : string) (o : obj) : option value :=
  match o with
  | [] => None
  | (k', v) :: o' => if String.eqb k' k then Some v else lookup k o'
  end.

Definition has_key (k : string) (o : obj) : bool :=
  match lookup k o with Some _ => true | None => false end.

Fixpoint replace_prop (k : string) (v : value) (o : obj) : obj :=
  match o with
  | [] => []
  | (k', v') :: o' =>
      if String.eqb k' k then (k', v) :: o'
      else (k', v') :: replace_prop k v o'
  end.

Fixpoint insert_index (n : N) (k : string) (v : value) (o : obj) : obj :=
  match o with
  | [] => [(k, v)]
  | (k', v') :: o' =>
      match array_index k' with
      | Some m =>
          if N.ltb n m then (k, v) :: o
          else (k', v') :: insert_index n k v o'
      | None => (k, v) :: o
      end
  end.

(** [o[k] = v] on an ordinary object: an existing property keeps its place
    and takes the new value, a new one is created. *)
Definition js_set (k : string) (v : value) (o : obj) : obj :=
  if has_key k o then replace_prop k v o
  else
    match array_index k with
    | Some n => insert_index n k v o
    | None => (o ++ [(k, v)])%list
    end.

(** [Object.assign(target, src)], and the spread of [src] into an object
    literal whose earlier properties are [target]. *)
Definition assign (target src : obj) : obj :=
  fold_left (fun t kv => js_set (fst kv) (snd kv) t) src target.

(** [v.k], for the property names this program reads ([tools], [headers],
    [name], [href], [uri], [messages], ...): none of them is defined on a
    built-in prototype, so the read finds an own property of an object or
    nothing.  Reading a property of [undefined] or [null] throws. *)
Definition getProp (v : value) (k : string) : result value :=
  match v with
  | VUndefined | VNull => Throw TypeError
  | VObj o =>
      match lookup k o with
      | Some x => OK x
      | None => OK VUndefined
      end
  | _ => OK VUndefined
  end.

(** [v === s] for a string [s]. *)
Definition strict_eq_string (v : value) (s : string) : bool :=
  match v with
  | VStr s' => String.eqb s' s
  | _ => false
  end.

(** [typeof v === OBJECT] *)
Definition typeof_object (v : value) : bool :=
  match v with VNull | VArr _ | VObj _ => true | _ => false end.

(** The index keys [i], [i+1], ... paired with the elements of an array. *)
Fixpoint indexed (i : nat) (l : list value) : obj :=
  match l with
  | [] => []
  | v :: l' => (nat_to_string i, v) :: indexed (S i) l'
  end.

Definition chars (s : string) : list value :=
  map (fun c => VStr (String c EmptyString)) (list_ascii_of_string s).

(** The own enumerable properties that [Object.entries(v)] and a spread
    [...v] visit.  (For a string they are its characters; the byte form
    agrees with JavaScript on ASCII strings.) *)
Definition own_entries (v : value) : obj :=
  match v with
  | VObj o => o
  | VArr l => indexed 0 l
  | VStr s => indexed 0 (chars s)
  | _ => []
  end.

(** ** Conversions to strings *)

(** [String(v)], the conversion behind template literals and
    [URLSearchParams].  An array joins its elements with commas; an object
    prints as [[object Object]] through [Object.prototype.toString], unless an
    own property [toString] hides that method: a parsed property is no
    function, and the conversion throws. *)
Fixpoint ToString (v : value) : result string :=
  match v with
  | VUndefined => OK "undefined"
  | VNull => OK "null"
  | VBool true => OK "true"
  | VBool false => OK "false"
  | VNum n => OK (num_to_string n)
  | VStr s => OK s
  | VArr l =>
      let elements :=
        (fix elements (l : list value) : result (list string) :=
           match l with
           | [] => OK []
           | x :: l' =>
               match (if nullish x then OK EmptyString else ToString x) with
               | Throw e => Throw e
               | OK s =>
                   match elements l' with
                   | Throw e => Throw e
                   | OK ss => OK (s :: ss)
                   end
               end
           end) in
      match elements l with
      | OK ss => OK (join "," ss)
      | Throw e => Throw e
      end
  | VObj o =>
      if has_key "toString" o then Throw TypeError else OK "[object Object]"
  end.

(** [JSON.stringify]: the quoting of a string (QuoteJSONString). *)
Definition hex_digit (upper : bool) (n : nat) : ascii :=
  if (n <? 10)%nat then ascii_of_nat (48 + n)
  else ascii_of_nat ((if upper then 55 else 87) + n).

Definition hex2 (upper : bool) (n : nat) : string :=
  String (hex_digit upper (n / 16))
    (String (hex_digit upper (n mod 16)) EmptyString).

Definition backslash : string := String (ascii_of_nat 92) EmptyString.

Definition json_escape_char (c : ascii) : string :=
  let n := nat_of_ascii c in
  if (n =? 8)%nat then backslash ++ "b"
  else if (n =? 9)%nat then backslash ++ "t"
  else if (n =? 10)%nat then backslash ++ "n"
  else if (n =? 12)%nat then backslash ++ "f"
  else if (n =? 13)%nat then backslash ++ "r"
  else if (n =? 34)%nat then backslash ++ dquote
  else if (n =? 92)%nat then backslash ++ backslash
  else if (n <? 32)%nat then backslash ++ "u00" ++ hex2 false n
  else String c EmptyString.

Fixpoint json_quote_body (s : string) : string :=
  match s with
  | EmptyString => EmptyString
  | String c s' => json_escape_char c ++ json_quote_body s'
  end.

Definition json_quote (s : string) : string :=
  dquote ++ json_quote_body s ++ dquote.

(** [JSON.stringify(v)] with no replacer and no indentation; [None] is the
    [undefined] it returns for [undefined].  A parsed property named
    [toJSON] is no function and is ignored. *)
Fixpoint JSON_stringify (v : value) : option string :=
  match v with
  | VUndefined => None
  | VNull => Some "null"
  | VBool true => Some "true"
  | VBool false => Some "false"
  | VNum n => Some (num_to_json n)
  | VStr s => Some (json_quote s)
  | VArr l =>
      let elements :=
        (fix elements (l : list value) : list string :=
           match l with
           | [] => []
           | x :: l' =>
               match JSON_stringify x with
               | Some s => s
               | None => "null"
               end :: elements l'
           end) in
      Some ("[" ++ join "," (elements l) ++ "]")
  | VObj o =>
      let members :=
        (fix members (o : list (string * value)) : list string :=
           match o with
           | [] => []
           | (k, x) :: o' =>
               match JSON_stringify x with
               | Some s => (json_quote k ++ ":" ++ s) :: members o'
               | None => members o'
               end
           end) in
      Some ("{" ++ join "," (members o) ++ "}")
  end.

(** The string, or [undefined], as a value. *)
Definition string_or_undefined (s : option string) : value :=
  match s with Some s => VStr s | None => VUndefined end.

(** ** URLSearchParams

    The [application/x-www-form-urlencoded] serializer: a space becomes [+],
    the ASCII letters and digits and [* - . _] stay, every other byte is
    percent-encoded in upper-case hexadecimal. *)
Definition urlencoded_safe (n : nat) : bool :=
  (n =? 42)%nat || ((n =? 45)%nat) || ((n =? 46)%nat) || ((n =? 95)%nat)
  || ((48 <=? n)%nat && (n <=? 57)%nat)
  || ((65 <=? n)%nat && (n <=? 90)%nat)
  || ((97 <=? n)%nat && (n <=? 122)%nat).

Definition urlencode_byte (c : ascii) : string :=
  let n := nat_of_ascii c in
  if (n =? 32)%nat then "+"
  else if urlencoded_safe n then String c EmptyString
  else "%" ++ hex2 true n.

Fixpoint urlencode (s : string) : string :=
  match s with
  | EmptyString => EmptyString
  | String c s' => urlencode_byte c ++ urlencode s'
  end.

Definition urlencode_pair (kv : string * string) : string :=
  urlencode (fst kv) ++ "=" ++ urlencode (snd kv).

(** [params.toString()] *)
Definition URLSearchParams_toString (params : list (string * string)) : string :=
  join "&" (map urlencode_pair params).

(** [new URLSearchParams(record)]: every value is converted with [String]. *)
Fixpoint URLSearchParams_of (o : obj) : result (list (string * string)) :=
  match o with
  | [] => OK []
  | (k, v) :: o' =>
      match ToString v with
      | Throw e => Throw e
      | OK s =>
          match URLSearchParams_of o' with
          | Throw e => Throw e
          | OK ps => OK ((k, s) :: ps)
          end
      end
  end.

(** ** Base64

    [Buffer.from(arrayBuffer).toString(BASE64)]: the standard alphabet, with
    padding. *)
Definition base64_alphabet : string :=
  "ABCDEFGHIJKLMNOPQRSTUVWXYZabcdefghijklmnopqrstuvwxyz0123456789+/".

Definition base64_char (n : nat) : ascii :=
  match String.get n base64_alphabet with
  | Some c => c
  | None => "="%char
  end.

Fixpoint base64 (l : list Byte.byte) : string :=
  match l with
  | [] => EmptyString
  | [a] =>
      let a := Byte.to_nat a in
      String (base64_char (a / 4))
        (String (base64_char ((a mod 4) * 16)) "==")
  | [a; b] =>
      let a := Byte.to_nat a in
      let b := Byte.to_nat b in
      String (base64_char (a / 4))
        (String (base64_char ((a mod 4) * 16 + b / 16))
           (String (base64_char ((b mod 16) * 4)) "="))
  | a :: b :: c :: l' =>
      let a := Byte.to_nat a in
      let b := Byte.to_nat b in
      let c := Byte.to_nat c in
      String (base64_char (a / 4))
        (String (base64_char ((a mod 4) * 16 + b / 16))
           (String (base64_char ((b mod 16) * 4 + c / 64))
              (String (base64_char (c mod 64)) (base64 l'))))
  end.

(** ** The HTTP collaborator

    A response as the program observes it: the status line, the value of the
    [Content-Type] header ([None] when [headers.get] returns [null]), and the
    results of the three body accessors.  [res.json()] rejects on a body that
    is no JSON: [None].  [single_use] tells whether the body can be read once
    only, as the body of a [Response] of [fetch] (the client of [main.mjs]):
    an accessor called after another one then rejects with a [TypeError].  A
    response whose accessors answer every call (the mocks of the tests) has
    [single_use] false. *)
Record Response : Type := {
  status : nat;
  statusText : string;
  contentType_header : option string;
  res_text : string;
  res_json : option value;
  res_bytes : list Byte.byte;
  single_use : bool
}.

(** What a body accessor gives when [bodyUsed] tells whether the body was
    read before: [read], or a [TypeError] on the used body of a single-use
    response. *)
Definition body_read {A : Type} (bodyUsed : bool) (res : Response) (read : A)
  : result A :=
  if bodyUsed && single_use res then Throw TypeError else OK read.

(** [res.ok]: the status is in the range 200-299 (Fetch standard). *)
Definition ok (res : Response) : bool :=
  (200 <=? status res)%nat && (status res <=? 299)%nat.

(** [res.headers.get(CONTENT_TYPE) ?? EMPTY] *)
Definition contentType_of (res : Response) : string :=
  match contentType_header res with
  | Some ct => ct
  | None => EmptyString
  end.

Inductive method : Type := GET | POST.

(** A call of [httpClient.getUrl(url, headers)] or
    [httpClient.postUrl(url, data, headers)], with the arguments as passed. *)
Record Request : Type := {
  req_method : method;
  req_url : value;
  req_data : option value;
  req_headers : value
}.

Definition mkGET (url headers : value) : Request :=
  {| req_method := GET; req_url := url; req_data := None;
     req_headers := headers |}.

Definition mkPOST (url data headers : value) : Request :=
  {| req_method := POST; req_url := url; req_data := Some data;
     req_headers := headers |}.

(** The promise the client returns settles with a response or rejects. *)
Inductive HttpResult : Type :=
| Resolved (res : Response)
| Rejected (msg : string).

(** The collaborator: what it answers to a request, given the requests issued
    before it (oldest first). *)
Definition HttpClient : Type := list Request -> Request -> HttpResult.

(** ** Computations

    An [async] function of [lib.mjs] is a function of the request log: it
    returns or throws, and leaves the log extended by the requests it
    issued. *)
Definition M (A : Type) : Type := list Request -> result A * list Request.

Definition ret {A : Type} (a : A) : M A := fun log => (OK a, log).

Definition throw {A : Type} (e : error) : M A := fun log => (Throw e, log).

Definition bind {A B : Type} (m : M A) (k : A -> M B) : M B :=
  fun log =>
    match m log with
    | (OK a, log') => k a log'
    | (Throw e, log') => (Throw e, log')
    end.

(** A synchronous evaluation inside an [async] function. *)
Definition lift {A : Type} (r : result A) : M A := fun log => (r, log).

(** The promise of a computation: its outcome, kept for whoever awaits it. *)
Definition promise {A : Type} (m : M A) : M (result A) :=
  fun log => let (r, log') := m log in (OK r, log').

Notation "x <- m ;; k" := (bind m (fun x => k))
  (at level 61, m at next level, right associativity).

(** [Array.prototype.find]: the first element the callback accepts, or
    [undefined]; a callback that throws ends the search. *)
Fixpoint js_find (p : value -> result bool) (l : list value) : result value :=
  match l with
  | [] => OK VUndefined
  | x :: l' =>
      match p x with
      | Throw e => Throw e
      | OK true => OK x
      | OK false => js_find p l'
      end
  end.

(** [arr.find(p)]: only an array has that method. *)
Definition array_find (arr : value) (p : value -> result bool) : result value :=
  match arr with
  | VArr l => js_find p l
  | _ => Throw TypeError
  end.

(** The callback [(t) => t.key === target]. *)
Definition prop_is (key target : string) (t : value) : result bool :=
  match getProp t key with
  | Throw e => Throw e
  | OK v => OK (strict_eq_string v target)
  end.

(** [Promise.all]: rejects with the rejection that settles first, resolves
    with all the values otherwise.  The order in which the promises settle is
    the network's: [order] lists their indices in that order (promises it
    leaves out settle afterwards, in array order). *)
Fixpoint first_throw {A : Type} (l : list (result A)) : option error :=
  match l with
  | [] => None
  | Throw e :: _ => Some e
  | OK _ :: l' => first_throw l'
  end.

Fixpoint values_of {A : Type} (l : list (result A)) : list A :=
  match l with
  | [] => []
  | OK a :: l' => a :: values_of l'
  | Throw _ :: l' => values_of l'
  end.

Fixpoint settled {A : Type} (order : list nat) (l : list (result A))
  : list (result A) :=
  match order with
  | [] => []
  | i :: order' =>
      match nth_error l i with
      | Some r => r :: settled order' l
      | None => settled order' l
      end
  end.

Definition Promise_all {A : Type} (order : list nat) (l : list (result A))
  : result (list A) :=
  match first_throw (settled order l ++ l)%list with
  | Some e => Throw e
  | None => OK (values_of l)
  end.

(** ** lib.mjs *)

Section Lib.

Variable http : HttpClient.

(** [await httpClient.getUrl(url, headers)] *)
Definition getUrl (url headers : value) : M Response :=
  fun log =>
    let req := mkGET url headers in
    match http log req with
    | Resolved res => (OK res, (log ++ [req])%list)
    | Rejected msg => (Throw (CollaboratorError msg), (log ++ [req])%list)
    end.

(** [await httpClient.postUrl(url, data, headers)] *)
Definition postUrl (url data headers : value) : M Response :=
  fun log =>
    let req := mkPOST url data headers in
    match http log req with
    | Resolved res => (OK res, (log ++ [req])%list)
    | Rejected msg => (Throw (CollaboratorError msg), (log ++ [req])%list)
    end.

(** [await res.json()] *)
Definition json_of (res : Response) : result value :=
  match res_json res with
  | Some j => OK j
  | None => Throw (CollaboratorError "Response is not JSON")
  end.

(** [makeTextContent] (line 120) *)
Definition makeTextContent (text : value) : obj :=
  [("content", VArr [VObj [("type", VStr "text"); ("text", text)]])].

(** [handleHttpError] (lines 127-130) *)
Definition handleHttpError (res : Response) : result unit :=
  if (status res =? 401)%nat then Throw Unauthorized
  else if (status res =? 403)%nat then Throw Forbidden
  else OK tt.

(** [isTextContent] (lines 137-140) *)
Definition isTextContent (contentType : string) : bool :=
  includes contentType "text/"
  || includes contentType "application/json"
  || includes contentType "application/xml".

(** [toMCPContent] (lines 142-179) *)
Definition toMCPContent (res : Response) : result obj :=
  let contentType := contentType_of res in
  if includes contentType "text/plain" then
    OK (makeTextContent (VStr (res_text res)))
  else if includes contentType "application/json" then
    match json_of res with
    | Throw e => Throw e
    | OK json =>
        match json with
        | VArr _ => OK [("content", json)]
        | VObj o => OK o
        | VStr s => OK (makeTextContent (VStr s))
        | _ => OK (makeTextContent (string_or_undefined (JSON_stringify json)))
        end
    end
  else if startsWith contentType "image/" then
    OK [("content",
         VArr [VObj [("type", VStr "image");
                     ("mimeType", VStr contentType);
                     ("data", VStr (base64 (res_bytes res)))]])]
  else Throw (UnsupportedContentType contentType).

(** [toMCPResourceContent] (lines 181-194) *)
Definition toMCPResourceContent (res : Response) (uri : string) : obj :=
  let contentType := contentType_of res in
  if isTextContent contentType then
    [("uri", VStr uri); ("mimeType", VStr contentType);
     ("text", VStr (res_text res))]
  else
    [("uri", VStr uri);
     ("mimeType",
      VStr (if string_is_empty contentType then "application/octet-stream"
            else contentType));
     ("blob", VStr (base64 (res_bytes res)))].

(** The relative path of a declared section (lines 215-220). *)
Definition section_path (sectionName : string) (manifestValue : value) : value :=
  match manifestValue with
  | VStr s => VStr s
  | _ =>
      if String.eqb sectionName "resourceTemplates"
      then VStr "resource_templates"
      else VStr sectionName
  end.

(** [fetchManifestSection] (lines 206-234) *)
Definition fetchManifestSection (baseUrl headers : value)
    (sectionName : string) (manifestValue : value) : M obj :=
  if negb (truthy manifestValue) then ret []
  else
    let path := section_path sectionName manifestValue in
    url <- lift (combineURLs baseUrl path) ;;
    res <- getUrl url headers ;;
    if negb (ok res) then
      throw (SectionFetchFailed sectionName (status res) (statusText res))
    else
      json <- lift (json_of res) ;;
      ret [(sectionName, json); (sectionName ++ "Url", url)].

(** The call [fetchManifestSection(..., name, manifest.name)] as an element of
    the array given to [Promise.all]: the property read happens first, the
    function then runs as far as its request and hands back a promise. *)
Definition section_promise (baseUrl headers manifest : value)
    (sectionName : string) : M (result obj) :=
  manifestValue <- lift (getProp manifest sectionName) ;;
  promise (fetchManifestSection baseUrl headers sectionName manifestValue).

(** [initializeServerState] (lines 243-281).  [order] is the order in which
    the four section promises settle. *)
Definition initializeServerState (order : list nat) (config : value) : M obj :=
  baseUrl <- lift (getProp config "baseUrl") ;;
  headers <- lift (getProp config "headers") ;;
  manifestRes <- getUrl baseUrl headers ;;
  if negb (ok manifestRes) then
    throw (ManifestFetchFailed (status manifestRes) (statusText manifestRes))
  else
    manifest <- lift (json_of manifestRes) ;;
    p1 <- section_promise baseUrl headers manifest "tools" ;;
    p2 <- section_promise baseUrl headers manifest "prompts" ;;
    p3 <- section_promise baseUrl headers manifest "resources" ;;
    p4 <- section_promise baseUrl headers manifest "resourceTemplates" ;;
    sections <- lift (Promise_all order [p1; p2; p3; p4]) ;;
    ret (assign [("config", config); ("manifest", manifest)]
           (fold_left assign sections [])).

(** The destructuring callback [({k1, k2, ...}) => ({k1, k2, ...})] of the
    list operations: it throws on [null] and [undefined]. *)
Definition pick (keys : list string) (t : value) : result value :=
  if nullish t then Throw TypeError
  else
    OK (VObj (map (fun k =>
                     (k, match getProp t k with
                         | OK v => v
                         | Throw _ => VUndefined
                         end)) keys)).

(** [arr.map(f)] *)
Fixpoint map_result (f : value -> result value) (l : list value)
  : result (list value) :=
  match l with
  | [] => OK []
  | x :: l' =>
      match f x with
      | Throw e => Throw e
      | OK y =>
          match map_result f l' with
          | Throw e => Throw e
          | OK ys => OK (y :: ys)
          end
      end
  end.

Definition list_section (section : string) (keys : list string)
    (state : value) : result obj :=
  match getProp state section with
  | Throw e => Throw e
  | OK (VArr l) =>
      match map_result (pick keys) l with
      | Throw e => Throw e
      | OK l' => OK [(section, VArr l')]
      end
  | OK _ => Throw TypeError
  end.

(** [mcpListTools], [mcpListPrompts], [mcpListResources],
    [mcpListResourceTemplates] (lines 288-337) *)
Definition mcpListTools : value -> result obj :=
  list_section "tools" ["name"; "description"; "inputSchema"].

Definition mcpListPrompts : value -> result obj :=
  list_section "prompts" ["name"; "description"; "arguments"].

Definition mcpListResources : value -> result obj :=
  list_section "resources" ["uri"; "name"; "description"; "mimeType"].

Definition mcpListResourceTemplates : value -> result obj :=
  list_section "resourceTemplates"
    ["uriTemplate"; "name"; "description"; "mimeType"].

(** [mcpCallTool] (lines 348-370) *)
Definition mcpCallTool (state : value) (toolName : string)
    (toolArguments : value) : M obj :=
  tools <- lift (getProp state "tools") ;;
  tool <- lift (array_find tools (prop_is "name" toolName)) ;;
  if negb (truthy tool) then throw (UnknownTool toolName)
  else
    href <- lift (getProp tool "href") ;;
    toolPath <- lift (if nullish href then getProp tool "name" else OK href) ;;
    toolsUrl <- lift (getProp state "toolsUrl") ;;
    resolvedToolUrl <- lift (combineURLs toolsUrl toolPath) ;;
    headers <- lift (getProp state "headers") ;;
    res <- postUrl resolvedToolUrl toolArguments headers ;;
    _ <- lift (handleHttpError res) ;;
    content <- lift (toMCPContent res) ;;
    ret (if negb (ok res) then js_set "isError" (VBool true) content
         else content).

(** The query parameters of [mcpGetPrompt] (lines 393-398): the entries of
    the arguments, each value converted with [String], when the arguments are
    a non-null object. *)
Definition prompt_params (promptArguments : value)
  : result (list (string * string)) :=
  if truthy promptArguments && typeof_object promptArguments
  then URLSearchParams_of (own_entries promptArguments)
  else OK [].

(** The template literal [`${url}?${queryParams}`]. *)
Definition with_query (url : value) (query : string) : result value :=
  match ToString url with
  | Throw e => Throw e
  | OK u => OK (VStr (u ++ "?" ++ query))
  end.

Definition text_message (role : string) (text : value) : obj :=
  [("messages",
    VArr [VObj [("role", VStr role);
                ("content", VObj [("type", VStr "text"); ("text", text)])]])].

(** The test [json && typeof json === OBJECT && Array.isArray(json.field)];
    when it holds the body is an object, which is returned as it is. *)
Definition object_with_array (json : value) (field : string) : option obj :=
  match json with
  | VObj o =>
      match lookup field o with
      | Some (VArr _) => Some o
      | _ => None
      end
  | _ => None
  end.

(** [mcpGetPrompt] (lines 381-439) *)
Definition mcpGetPrompt (state : value) (promptName : string)
    (promptArguments : value) : M obj :=
  prompts <- lift (getProp state "prompts") ;;
  prompt <- lift (array_find prompts (prop_is "name" promptName)) ;;
  if negb (truthy prompt) then throw (UnknownPrompt promptName)
  else
    href <- lift (getProp prompt "href") ;;
    promptPath <- lift (if nullish href then getProp prompt "name" else OK href) ;;
    promptsUrl <- lift (getProp state "promptsUrl") ;;
    basePromptUrl <- lift (combineURLs promptsUrl promptPath) ;;
    queryParams <- lift (prompt_params promptArguments) ;;
    let query := URLSearchParams_toString queryParams in
    resolvedPromptUrl <-
      lift (if string_is_empty query then OK basePromptUrl
            else with_query basePromptUrl query) ;;
    headers <- lift (getProp state "headers") ;;
    res <- getUrl resolvedPromptUrl headers ;;
    _ <- lift (handleHttpError res) ;;
    if negb (ok res) then
      throw (PromptFetchFailed promptName (status res) (statusText res))
    else
      let contentType := contentType_of res in
      if includes contentType "application/json" then
        json <- lift (json_of res) ;;
        match object_with_array json "messages" with
        | Some o => ret o
        | None =>
            ret (text_message "assistant"
                   (string_or_undefined (JSON_stringify json)))
        end
      else if includes contentType "text/plain" then
        ret (text_message "user" (VStr (res_text res)))
      else throw (UnsupportedPromptContentType contentType).

(** The object literal [{ uri: resourceUri, ...resourceArguments }] of
    [mcpReadResource] (lines 459-462); the parameter defaults to an empty
    object when the argument is [undefined]. *)
Definition resource_query_object (resourceUri : string)
    (resourceArguments : value) : obj :=
  let resourceArguments :=
    match resourceArguments with
    | VUndefined => VObj []
    | v => v
    end in
  assign [("uri", VStr resourceUri)] (own_entries resourceArguments).

(** [mcpReadResource] (lines 450-486) *)
Definition mcpReadResource (state : value) (resourceUri : string)
    (resourceArguments : value) : M obj :=
  resources <- lift (getProp state "resources") ;;
  resource <- lift (array_find resources (prop_is "uri" resourceUri)) ;;
  if negb (truthy resource) then throw (UnknownResource resourceUri)
  else
    queryParams <-
      lift (URLSearchParams_of
              (resource_query_object resourceUri resourceArguments)) ;;
    let query := URLSearchParams_toString queryParams in
    href <- lift (getProp resource "href") ;;
    resourcesUrl <- lift (getProp state "resourcesUrl") ;;
    resolvedResourceUrl <-
      lift (if truthy href then
              match combineURLs resourcesUrl href with
              | Throw e => Throw e
              | OK u => with_query u query
              end
            else with_query resourcesUrl query) ;;
    headers <- lift (getProp state "headers") ;;
    res <- getUrl resolvedResourceUrl headers ;;
    _ <- lift (handleHttpError res) ;;
    if negb (ok res) then
      throw (ResourceFetchFailed resourceUri (status res) (statusText res))
    else
      let contentType := contentType_of res in
      passthrough <-
        (if includes contentType "application/json" then
           json <- lift (json_of res) ;;
           ret (object_with_array json "contents")
         else ret None) ;;
      match passthrough with
      | Some o => ret o
      | None =>
          (* [res.json()] was called if and only if the Content-Type has
             [application/json]; [toMCPResourceContent] calls one accessor. *)
          content <-
            lift (body_read (includes contentType "application/json") res
                    (toMCPResourceContent res resourceUri)) ;;
          ret [("contents", VArr [VObj content])]
      end.

End Lib.

(** ** Requests and responses of the dispatchers

    Each dispatcher computes one request, awaits the collaborator once, and
    then works on the response alone.  The two halves are restated here as
    functions; the factorisation lemmas below show the dispatchers equal to
    their composition. *)

Definition rbind {A B : Type} (r : result A) (k : A -> result B) : result B :=
  match r with
  | OK a => k a
  | Throw e => Throw e
  end.

Notation "x <-- r ;; k" := (rbind r (fun x => k))
  (at level 61, r at next level, right associativity).

(** Issue the request, if there is one, and hand the response to [k]. *)
Definition exchange (http : HttpClient) (r : result Request)
    (k : Response -> result obj) : M obj :=
  fun log =>
    match r with
    | Throw e => (Throw e, log)
    | OK req =>
        match http log req with
        | Resolved res => (k res, (log ++ [req])%list)
        | Rejected msg => (Throw (CollaboratorError msg), (log ++ [req])%list)
        end
    end.

Definition callTool_request (state : value) (toolName : string)
    (toolArguments : value) : result Request :=
  tools <-- getProp state "tools" ;;
  tool <-- array_find tools (prop_is "name" toolName) ;;
  if negb (truthy tool) then Throw (UnknownTool toolName)
  else
    href <-- getProp tool "href" ;;
    toolPath <-- (if nullish href then getProp tool "name" else OK href) ;;
    toolsUrl <-- getProp state "toolsUrl" ;;
    resolvedToolUrl <-- combineURLs toolsUrl toolPath ;;
    headers <-- getProp state "headers" ;;
    OK (mkPOST resolvedToolUrl toolArguments headers).

Definition callTool_response (res : Response) : result obj :=
  _ <-- handleHttpError res ;;
  content <-- toMCPContent res ;;
  OK (if negb (ok res) then js_set "isError" (VBool true) content
      else content).

Definition getPrompt_request (state : value) (promptName : string)
    (promptArguments : value) : result Request :=
  prompts <-- getProp state "prompts" ;;
  prompt <-- array_find prompts (prop_is "name" promptName) ;;
  if negb (truthy prompt) then Throw (UnknownPrompt promptName)
  else
    href <-- getProp prompt "href" ;;
    promptPath <-- (if nullish href then getProp prompt "name" else OK href) ;;
    promptsUrl <-- getProp state "promptsUrl" ;;
    basePromptUrl <-- combineURLs promptsUrl promptPath ;;
    queryParams <-- prompt_params promptArguments ;;
    resolvedPromptUrl <--
      (if string_is_empty (URLSearchParams_toString queryParams)
       then OK basePromptUrl
       else with_query basePromptUrl (URLSearchParams_toString queryParams)) ;;
    headers <-- getProp state "headers" ;;
    OK (mkGET resolvedPromptUrl headers).

Definition getPrompt_response (promptName : string) (res : Response)
  : result obj :=
  _ <-- handleHttpError res ;;
  if negb (ok res) then
    Throw (PromptFetchFailed promptName (status res) (statusText res))
  else if includes (contentType_of res) "application/json" then
    json <-- json_of res ;;
    match object_with_array json "messages" with
    | Some o => OK o
    | None =>
        OK (text_message "assistant"
              (string_or_undefined (JSON_stringify json)))
    end
  else if includes (contentType_of res) "text/plain" then
    OK (text_message "user" (VStr (res_text res)))
  else Throw (UnsupportedPromptContentType (contentType_of res)).

Definition readResource_request (state : value) (resourceUri : string)
    (resourceArguments : value) : result Request :=
  resources <-- getProp state "resources" ;;
  resource <-- array_find resources (prop_is "uri" resourceUri) ;;
  if negb (truthy resource) then Throw (UnknownResource resourceUri)
  else
    queryParams <--
      URLSearchParams_of (resource_query_object resourceUri resourceArguments) ;;
    href <-- getProp resource "href" ;;
    resourcesUrl <-- getProp state "resourcesUrl" ;;
    resolvedResourceUrl <--
      (if truthy href then
         u <-- combineURLs resourcesUrl href ;;
         with_query u (URLSearchParams_toString queryParams)
       else with_query resourcesUrl (URLSearchParams_toString queryParams)) ;;
    headers <-- getProp state "headers" ;;
    OK (mkGET resolvedResourceUrl headers).

Definition readResource_response (resourceUri : string) (res : Response)
  : result obj :=
  _ <-- handleHttpError res ;;
  if negb (ok res) then
    Throw (ResourceFetchFailed resourceUri (status res) (statusText res))
  else
    passthrough <--
      (if includes (contentType_of res) "application/json" then
         json <-- json_of res ;;
         OK (object_with_array json "contents")
       else OK None) ;;
    match passthrough with
    | Some o => OK o
    | None =>
        content <--
          body_read (includes (contentType_of res) "application/json") res
            (toMCPResourceContent res resourceUri) ;;
        OK [("contents", VArr [VObj content])]
    end.

(** The request of a declared section, if its URL resolves. *)
Definition section_request (baseUrl headers : value) (sectionName : string)
    (manifestValue : value) : list Request :=
  if truthy manifestValue then
    match combineURLs baseUrl (section_path sectionName manifestValue) with
    | OK url => [mkGET url headers]
    | Throw _ => []
    end
  else [].

Definition section_names : list string :=
  ["tools"; "prompts"; "resources"; "resourceTemplates"].

(** The value of a manifest field, [undefined] when the manifest has none. *)
Definition manifest_field (manifest : value) (sectionName : string) : value :=
  match getProp manifest sectionName with
  | OK v => v
  | Throw _ => VUndefined
  end.

(** ** Vocabulary of the properties *)

(** No element of the section has the identity [target]: every element has a
    readable [key] field (it is not [null]), and that field is not the string
    [target]. *)
Definition no_entry_matches (key target : string) (entries : list value) : Prop :=
  Forall (fun t => exists v, getProp t key = OK v /\ v <> VStr target) entries.

(** A 401 is [Unauthorized] and a 403 is [Forbidden]. *)
Definition auth_failure (res : Response) (r : result obj) : Prop :=
  (status res = 401 -> r = Throw Unauthorized)
  /\ (status res = 403 -> r = Throw Forbidden).

(** A status outside 200-299 that is neither 401 nor 403. *)
Definition upstream_failure (res : Response) : Prop :=
  ok res = false /\ status res <> 401 /\ status res <> 403.

(** The typed content blocks of the host protocol. *)
Definition TextBlock (text : string) : value :=
  VObj [("type", VStr "text"); ("text", VStr text)].

Definition ImageBlock (mimeType data : string) : value :=
  VObj [("type", VStr "image"); ("mimeType", VStr mimeType);
        ("data", VStr data)].

(** The JSON primitives that are no string, with their [JSON.stringify]
    text. *)
Inductive stringified_primitive : value -> string -> Prop :=
| stringified_null : stringified_primitive VNull "null"
| stringified_true : stringified_primitive (VBool true) "true"
| stringified_false : stringified_primitive (VBool false) "false"
| stringified_number (n : number) :
    stringified_primitive (VNum n) (num_to_json n).

(** ** The section fetches of the initializer *)

(** What [fetchManifestSection] returns, given the requests issued before
    it. *)
Definition section_outcome (http : HttpClient) (log : list Request)
    (baseUrl headers : value) (sectionName : string) (manifestValue : value)
  : result obj :=
  if negb (truthy manifestValue) then OK []
  else
    url <-- combineURLs baseUrl (section_path sectionName manifestValue) ;;
    match http log (mkGET url headers) with
    | Rejected msg => Throw (CollaboratorError msg)
    | Resolved res =>
        if negb (ok res) then
          Throw (SectionFetchFailed sectionName (status res) (statusText res))
        else
          json <-- json_of res ;;
          OK [(sectionName, json); (sectionName ++ "Url", url)]
    end.

(** The section promises, created one after the other. *)
Fixpoint run_sections (http : HttpClient) (baseUrl headers manifest : value)
    (names : list string) (log : list Request)
  : list (result obj) * list Request :=
  match names with
  | [] => ([], log)
  | name :: names' =>
      let (r, log1) :=
        fetchManifestSection http baseUrl headers name
          (manifest_field manifest name) log in
      let (rs, log2) :=
        run_sections http baseUrl headers manifest names' log1 in
      (r :: rs, log2)
  end.

(** The state object the initializer assembles from the section objects. *)
Definition assemble (config manifest : value) (sections : list obj) : obj :=
  assign [("config", config); ("manifest", manifest)]
    (fold_left assign sections []).


(** What a section contributes to the state: nothing when the manifest value
    is falsy, its array and its URL otherwise. *)
Definition section_contribution (sectionName : string) (manifestValue : value)
    (section : obj) : Prop :=
  (truthy manifestValue = false /\ section = [])
  \/ (truthy manifestValue = true
      /\ exists json url,
           section = [(sectionName, json); (sectionName ++ "Url", url)]).

(** [entry] is the element of the section that a lookup of [target] finds:
    the first one whose [key] field is the string [target]. *)
Definition first_entry (key target : string) (entries : list value)
    (entry : value) : Prop :=
  exists pre post,
    entries = (pre ++ entry :: post)%list
    /\ no_entry_matches key target pre
    /\ getProp entry key = OK (VStr target).

(** ** Vocabulary of the further properties *)

(** The value of [t.k] when [t] is neither [null] nor [undefined]. *)
Definition field (t : value) (k : string) : value :=
  match getProp t k with
  | OK v => v
  | Throw _ => VUndefined
  end.

(** [p] is the listing of the entry [t]: an object with exactly the
    properties [keys], in that order, each with the value the entry has for
    it ([undefined] when the entry has none). *)
Definition listing_of (keys : list string) (t p : value) : Prop :=
  nullish t = false
  /\ exists fields,
       p = VObj fields
       /\ map fst fields = keys
       /\ forall k, In k keys -> lookup k fields = Some (field t k).

(** The errors that say a name was not found. *)
Definition is_unknown (e : error) : bool :=
  match e with
  | UnknownTool _ | UnknownPrompt _ | UnknownResource _ => true
  | _ => false
  end.

(** ** main.mjs *)

(** The arguments [defaultHttpClient] gives to [fetch] (lines 25-43): the URL
    and the init object, which is [undefined] for a GET without headers.  A
    POST always has an init object: the method, the headers (a JSON
    Content-Type, then the caller's headers spread over it) and the
    [JSON.stringify] of the data as body. *)
Definition fetch_arguments (req : Request) : value * value :=
  match req_method req with
  | GET =>
      (req_url req,
       if truthy (req_headers req)
       then VObj [("headers", req_headers req)]
       else VUndefined)
  | POST =>
      (req_url req,
       VObj [("method", VStr "POST");
             ("headers",
              VObj (assign [("Content-Type", VStr "application/json")]
                      (own_entries (req_headers req))));
             ("body",
              string_or_undefined
                (JSON_stringify
                   match req_data req with
                   | Some data => data
                   | None => VUndefined
                   end))])
  end.

(** [fetch] as an oracle over the calls made so far. *)
Definition Fetch : Type := list (value * value) -> value * value -> HttpResult.

(** [defaultHttpClient] (lines 25-43) *)
Definition defaultHttpClient (fetch : Fetch) : HttpClient :=
  fun log req => fetch (map fetch_arguments log) (fetch_arguments req).

(** The request schemas [toMCPServer] registers handlers for. *)
Inductive RequestSchema : Type :=
| ListToolsRequestSchema
| CallToolRequestSchema
| ListPromptsRequestSchema
| GetPromptRequestSchema
| ListResourcesRequestSchema
| ReadResourceRequestSchema.

(** What [toMCPServer] hands to the SDK: the two arguments of [new Server]
    and the schemas of its [setRequestHandler] calls, in order. *)
Record Server : Type := {
  serverInfo : obj;
  capabilities : obj;
  handlers : list RequestSchema
}.

(** [if (state.section) capabilities[section] = {}] *)
Definition advertise (state : value) (section : string) (capabilities : obj)
  : result obj :=
  match getProp state section with
  | Throw e => Throw e
  | OK listing =>
      OK (if truthy listing then js_set section (VObj []) capabilities
          else capabilities)
  end.

(** [if (state.section && state.sectionUrl) { setRequestHandler(...) ... }] *)
Definition register (state : value) (section : string)
    (schemas registered : list RequestSchema) : result (list RequestSchema) :=
  match getProp state section with
  | Throw e => Throw e
  | OK listing =>
      if truthy listing then
        match getProp state (section ++ "Url") with
        | Throw e => Throw e
        | OK url =>
            OK (if truthy url then (registered ++ schemas)%list
                else registered)
        end
      else OK registered
  end.

(** [toMCPServer] (lines 49-123) *)
Definition toMCPServer (fetch : Fetch) (order : list nat)
    (serverConfig : value) : M Server :=
  st <- initializeServerState (defaultHttpClient fetch) order serverConfig ;;
  let state := VObj st in
  capabilities <- lift (advertise state "tools" []) ;;
  capabilities <- lift (advertise state "prompts" capabilities) ;;
  capabilities <- lift (advertise state "resources" capabilities) ;;
  manifest <- lift (getProp state "manifest") ;;
  name <- lift (getProp manifest "name") ;;
  version <- lift (getProp manifest "version") ;;
  registered <-
    lift (register state "tools"
            [ListToolsRequestSchema; CallToolRequestSchema] []) ;;
  registered <-
    lift (register state "prompts"
            [ListPromptsRequestSchema; GetPromptRequestSchema] registered) ;;
  registered <-
    lift (register state "resources"
            [ListResourcesRequestSchema; ReadResourceRequestSchema]
            registered) ;;
  ret {| serverInfo := [("name", name); ("version", version)];
         capabilities := capabilities;
         handlers := registered |}.

(** A section of the state with its array, or nothing, and with a URL that
    is a non-empty string. *)
Definition section_contribution_url (sectionName : string)
    (manifestValue : value) (section : obj) : Prop :=
  (truthy manifestValue = false /\ section = [])
  \/ (truthy manifestValue = true
      /\ exists json u,
           u <> EmptyString
           /\ section = [(sectionName, json); (sectionName ++ "Url", VStr u)]).

(** ** The command line (the [ssmcp] executable)

    White space as [String.prototype.trim] and the [\s] of a regular
    expression know it, on the UTF-8 form: the ASCII blanks (tab, line feed,
    vertical tab, form feed, carriage return, space), U+00A0, U+1680, U+2000
    to U+200A, U+2028, U+2029, U+202F, U+205F, U+3000 and U+FEFF. *)
Definition ascii_space (a : ascii) : bool :=
  let n := nat_of_ascii a in
  ((9 <=? n)%nat && (n <=? 13)%nat) || (n =? 32)%nat.

Definition space2 (a b : ascii) : bool :=
  (nat_of_ascii a =? 194)%nat && (nat_of_ascii b =? 160)%nat.

Definition space3 (a b c : ascii) : bool :=
  let x := nat_of_ascii a in
  let y := nat_of_ascii b in
  let z := nat_of_ascii c in
  ((x =? 225)%nat && (y =? 154)%nat && (z =? 128)%nat)
  || ((x =? 226)%nat && (y =? 128)%nat
      && (((128 <=? z)%nat && (z <=? 138)%nat)
          || (z =? 168)%nat || (z =? 169)%nat || (z =? 175)%nat))
  || ((x =? 226)%nat && (y =? 129)%nat && (z =? 159)%nat)
  || ((x =? 227)%nat && (y =? 128)%nat && (z =? 128)%nat)
  || ((x =? 239)%nat && (y =? 187)%nat && (z =? 191)%nat).

(** [s.trimStart()], and what a greedy [\s*] skips. *)
Fixpoint trimStart (s : string) : string :=
  match s with
  | EmptyString => EmptyString
  | String a r1 =>
      if ascii_space a then trimStart r1
      else
        match r1 with
        | EmptyString => s
        | String b r2 =>
            if space2 a b then trimStart r2
            else
              match r2 with
              | EmptyString => s
              | String c r3 => if space3 a b c then trimStart r3 else s
              end
        end
  end.

(** The string is white space only. *)
Definition blank (s : string) : bool := string_is_empty (trimStart s).

(** [s.trimEnd()] *)
Fixpoint trimEnd (s : string) : string :=
  match s with
  | EmptyString => EmptyString
  | String a r => if blank s then EmptyString else String a (trimEnd r)
  end.

(** [s.trim()] *)
Definition trim (s : string) : string := trimEnd (trimStart s).

Definition colon : ascii := ":"%char.

(** The text before the first colon, and the text after it when there is
    one. *)
Fixpoint cut_at_colon (s : string) : string * option string :=
  match s with
  | EmptyString => (EmptyString, None)
  | String a r =>
      if Ascii.eqb a colon then (EmptyString, Some r)
      else let (piece, rest) := cut_at_colon r in (String a piece, rest)
  end.

(** [headerArg.split(/:\s*/, 2)]: the pieces between the matches of a colon
    and the white space after it, the first two of them at most. *)
Definition split_header (headerArg : string) : list string :=
  match cut_at_colon headerArg with
  | (piece, None) => [piece]
  | (piece, Some rest) => [piece; fst (cut_at_colon (trimStart rest))]
  end.

(** What [parseArguments] throws. *)
Inductive UsageError : Type :=
| UrlRequiresValue
| InvalidHeaderFormat (headerArg : string)
| HeaderRequiresValue
| AuthRequiresToken (arg : string)
| UnknownArgument (arg : string)
| HostUrlMissing.

Definition usage_message (e : UsageError) : string :=
  match e with
  | UrlRequiresValue => "--url requires a value."
  | InvalidHeaderFormat headerArg =>
      "Invalid header format: " ++ dquote ++ headerArg ++ dquote
        ++ ". Expected " ++ dquote ++ "HeaderName: HeaderValue" ++ dquote ++ "."
  | HeaderRequiresValue => "-H/--header requires a value."
  | AuthRequiresToken arg => arg ++ " requires a token value."
  | UnknownArgument arg => "Unknown argument " ++ arg
  | HostUrlMissing => "Host URL must be provided via --url."
  end.

(** [customHeaders[name] = text]: an assignment to a member of an ordinary
    object.  The name [__proto__] is the accessor of [Object.prototype],
    whose setter ignores a string: that assignment creates nothing. *)
Definition set_header (name text : string) (customHeaders : obj) : obj :=
  if String.eqb name "__proto__" then customHeaders
  else js_set name (VStr text) customHeaders.

(** The [while] loop of [parseArguments]: [url] and [customHeaders] are the
    variables of the function, [args] what is left of the arguments. *)
Fixpoint parse_loop (args : list string) (url : option string)
    (customHeaders : obj) : UsageError + (option string * obj) :=
  match args with
  | [] => inr (url, customHeaders)
  | arg :: rest =>
      if String.eqb arg "--url" then
        match rest with
        | value :: rest' => parse_loop rest' (Some value) customHeaders
        | [] => inl UrlRequiresValue
        end
      else if String.eqb arg "-H" || String.eqb arg "--header" then
        match rest with
        | headerArg :: rest' =>
            match split_header headerArg with
            | [name; text] =>
                if negb (string_is_empty name) && negb (string_is_empty text)
                then parse_loop rest' url
                       (set_header (trim name) (trim text) customHeaders)
                else inl (InvalidHeaderFormat headerArg)
            | _ => inl (InvalidHeaderFormat headerArg)
            end
        | [] => inl HeaderRequiresValue
        end
      else if String.eqb arg "-a" || String.eqb arg "--auth" then
        match rest with
        | token :: rest' =>
            if negb (string_is_empty token)
            then parse_loop rest' url
                   (set_header "Authorization" ("Bearer " ++ token)
                      customHeaders)
            else inl (AuthRequiresToken arg)
        | [] => inl (AuthRequiresToken arg)
        end
      else inl (UnknownArgument arg)
  end.

(** [parseArguments] *)
Definition parseArguments (argv : list string)
  : UsageError + (string * obj) :=
  match parse_loop (skipn 2 argv) None [] with
  | inl e => inl e
  | inr (Some url, customHeaders) =>
      if string_is_empty url then inl HostUrlMissing
      else inr (url, customHeaders)
  | inr (None, _) => inl HostUrlMissing
  end.

(** The configuration [startServer] gives to [toMCPServer]. *)
Definition server_config (url : string) (customHeaders : obj) : value :=
  VObj [("baseUrl", VStr url); ("headers", VObj customHeaders)].

(** An argument that is one of the six options. *)
Definition is_option (arg : string) : bool :=
  String.eqb arg "--url" || String.eqb arg "-H" || String.eqb arg "--header"
  || String.eqb arg "-a" || String.eqb arg "--auth".

(** The string has no colon. *)
Fixpoint colon_free (s : string) : bool :=
  match s with
  | EmptyString => true
  | String a r => negb (Ascii.eqb a colon) && colon_free r
  end.

(** [n] spaces. *)
Fixpoint spaces (n : nat) : string :=
  match n with
  | O => EmptyString
  | S n' => String " "%char (spaces n')
  end.

(** What [parseArguments] keeps in [customHeaders]: distinct names, each with
    a text that is not empty. *)
Definition well_formed_headers (customHeaders : obj) : Prop :=
  NoDup (map fst customHeaders)
  /\ Forall (fun kv => exists text, snd kv = VStr text /\ text <> EmptyString)
       customHeaders.

(** * Properties *)

(** ** Factorisation of the dispatchers *)

(** Case analysis on every scrutinee that is not itself a case analysis, in
    the order the computation meets them. *)
Ltac crunch :=
  repeat match goal with
  | |- context [match ?x with _ => _ end] =>
      lazymatch x with
      | context [match _ with _ => _ end] => fail
      | _ => destruct x eqn:?; simpl; try reflexivity
      end
  end.

Lemma mcpCallTool_exchange (http : HttpClient) state name args log :
  mcpCallTool http state name args log
  = exchange http (callTool_request state name args) callTool_response log.
Proof.
  unfold mcpCallTool, callTool_request, callTool_response, exchange,
    bind, rbind, lift, throw, ret, postUrl, mkPOST.
  crunch.
Qed.

Lemma mcpGetPrompt_exchange (http : HttpClient) state name args log :
  mcpGetPrompt http state name args log
  = exchange http (getPrompt_request state name args)
      (getPrompt_response name) log.
Proof.
  unfold mcpGetPrompt, getPrompt_request, getPrompt_response, exchange,
    bind, rbind, lift, throw, ret, getUrl, mkGET.
  crunch.
Qed.

Lemma mcpReadResource_exchange (http : HttpClient) state uri args log :
  mcpReadResource http state uri args log
  = exchange http (readResource_request state uri args)
      (readResource_response uri) log.
Proof.
  unfold mcpReadResource, readResource_request, readResource_response,
    exchange, bind, rbind, lift, throw, ret, getUrl, mkGET.
  crunch.
Qed.

(** An exchange leaves the log alone or adds the one request it issued. *)
Lemma exchange_log (http : HttpClient) r k log :
  snd (exchange http r k log)
  = match r with
    | OK req => (log ++ [req])%list
    | Throw _ => log
    end.
Proof.
  unfold exchange. destruct r as [req|e]; [|reflexivity].
  now destruct (http log req).
Qed.

Lemma exchange_resolved (http : HttpClient) req res k log :
  http log req = Resolved res ->
  exchange http (OK req) k log = (k res, (log ++ [req])%list).
Proof. intros E. unfold exchange. now rewrite E. Qed.

(** ** The URL resolver *)

Lemma strip_leading_slashes_prepend (j : nat) (r : string) :
  strip_leading_slashes (slashes j ++ r) = strip_leading_slashes r.
Proof.
  induction j as [|j IH]; simpl; [reflexivity | exact IH].
Qed.

Lemma strip_trailing_slashes_run (i : nat) :
  strip_trailing_slashes (slashes i) = EmptyString.
Proof.
  induction i as [|i IH]; simpl; [reflexivity | now rewrite IH].
Qed.

Lemma strip_trailing_slashes_append (b : string) (i : nat) :
  strip_trailing_slashes (b ++ slashes i) = strip_trailing_slashes b.
Proof.
  induction b as [|c b IH]; simpl.
  - apply strip_trailing_slashes_run.
  - now rewrite IH.
Qed.

Lemma strip_leading_slashes_first (r : string) :
  first_char (strip_leading_slashes r) <> Some slash.
Proof.
  induction r as [|c r IH]; simpl; [discriminate|].
  destruct (Ascii.eqb c slash) eqn:E; [exact IH|].
  simpl. intros [= ->]. now rewrite Ascii.eqb_refl in E.
Qed.

Lemma strip_trailing_slashes_last (b : string) :
  last_char (strip_trailing_slashes b) <> Some slash.
Proof.
  induction b as [|c b IH]; simpl; [discriminate|].
  destruct (Ascii.eqb c slash) eqn:E; simpl.
  - destruct (strip_trailing_slashes b) as [|d r] eqn:R; simpl;
      [discriminate | exact IH].
  - destruct (strip_trailing_slashes b) as [|d r] eqn:R; simpl.
    + intros [= ->]. now rewrite Ascii.eqb_refl in E.
    + exact IH.
Qed.

Lemma strip_leading_slashes_id (r : string) :
  first_char r <> Some slash -> strip_leading_slashes r = r.
Proof.
  destruct r as [|c r]; simpl; [reflexivity|].
  destruct (Ascii.eqb c slash) eqn:E; [|reflexivity].
  apply Ascii.eqb_eq in E. subst c. intros N. now elim N.
Qed.

Lemma strip_trailing_slashes_id (b : string) :
  last_char b <> Some slash -> strip_trailing_slashes b = b.
Proof.
  induction b as [|c b IH]; simpl; [reflexivity|].
  destruct b as [|d b'].
  - simpl. destruct (Ascii.eqb c slash) eqn:E; [|reflexivity].
    apply Ascii.eqb_eq in E. subst c. intros N. now elim N.
  - intros N. rewrite (IH N). simpl. now rewrite andb_false_r.
Qed.

Lemma slashes_nonempty_append (j : nat) (r : string) :
  r <> EmptyString -> string_is_empty (slashes j ++ r) = false.
Proof.
  intros N. destruct j; simpl; [|reflexivity].
  destruct r; [now elim N | reflexivity].
Qed.

(** C7: for every base and every non-empty relative path, with any number
    of slashes appended to the base and prepended to the relative path (0 to 2
    in particular), [combineURLs] is the base without its trailing slashes, one
    slash, and the relative path without its leading slashes: the left part
    does not end with a slash and the right part does not start with one, so
    exactly one slash separates them, and both parts are the arguments
    themselves when those carry no slash at the seam. With an empty relative
    path the result is the base, unchanged. *)
Theorem combineURLs_one_separating_slash :
  (forall (base relative : string) (i j : nat),
      relative <> EmptyString ->
      exists B R : string,
        combineURLs (VStr (base ++ slashes i)) (VStr (slashes j ++ relative))
          = OK (VStr (B ++ "/" ++ R))
        /\ B = strip_trailing_slashes base
        /\ R = strip_leading_slashes relative
        /\ last_char B <> Some slash
        /\ first_char R <> Some slash
        /\ (last_char base <> Some slash -> B = base)
        /\ (first_char relative <> Some slash -> R = relative))
  /\ (forall base : string,
         combineURLs (VStr base) (VStr EmptyString) = OK (VStr base)).
Proof.
  split.
  - intros base relative i j N.
    exists (strip_trailing_slashes base), (strip_leading_slashes relative).
    repeat split.
    + unfold combineURLs; simpl.
      rewrite (slashes_nonempty_append j relative N); simpl.
      now rewrite strip_trailing_slashes_append, strip_leading_slashes_prepend.
    + apply strip_trailing_slashes_last.
    + apply strip_leading_slashes_first.
    + apply strip_trailing_slashes_id.
    + apply strip_leading_slashes_id.
  - intros base. reflexivity.
Qed.

(** ** Objects: reading after writing *)

Lemma lookup_app (k : string) (o1 o2 : obj) :
  lookup k (o1 ++ o2)%list
  = match lookup k o1 with Some v => Some v | None => lookup k o2 end.
Proof.
  induction o1 as [|[k' v'] o1 IH]; simpl; [reflexivity|].
  now destruct (String.eqb k' k).
Qed.

Lemma lookup_replace_prop (k k' : string) (v : value) (o : obj) :
  lookup k' (replace_prop k v o)
  = if String.eqb k k' then
      match lookup k o with Some _ => Some v | None => None end
    else lookup k' o.
Proof.
  induction o as [|[k0 v0] o IH]; simpl.
  - now destruct (String.eqb k k').
  - destruct (String.eqb k0 k) eqn:E0; simpl.
    + apply String.eqb_eq in E0. subst k0.
      destruct (String.eqb k k') eqn:E; [reflexivity|reflexivity].
    + destruct (String.eqb k0 k') eqn:E1.
      * apply String.eqb_eq in E1. subst k0.
        rewrite String.eqb_sym in E0. now rewrite E0.
      * exact IH.
Qed.

Lemma lookup_insert_index (n : N) (k k' : string) (v : value) (o : obj) :
  lookup k o = None ->
  lookup k' (insert_index n k v o)
  = if String.eqb k k' then Some v else lookup k' o.
Proof.
  induction o as [|[k0 v0] o IH]; simpl; intros Hk.
  - reflexivity.
  - destruct (String.eqb k0 k) eqn:E0; [discriminate|].
    destruct (array_index k0) as [m|].
    + destruct (N.ltb n m); simpl; [reflexivity|].
      rewrite (IH Hk).
      destruct (String.eqb k0 k') eqn:E1; [|reflexivity].
      apply String.eqb_eq in E1. subst k0.
      rewrite String.eqb_sym in E0. now rewrite E0.
    + simpl. reflexivity.
Qed.

(** Reading a property after an assignment. *)
Lemma lookup_js_set (k k' : string) (v : value) (o : obj) :
  lookup k' (js_set k v o) = if String.eqb k k' then Some v else lookup k' o.
Proof.
  unfold js_set, has_key.
  destruct (lookup k o) as [x|] eqn:E.
  - rewrite lookup_replace_prop, E.
    destruct (String.eqb k k'); reflexivity.
  - destruct (array_index k) as [n|].
    + now apply lookup_insert_index.
    + rewrite lookup_app. simpl.
      destruct (String.eqb k k') eqn:E1.
      * apply String.eqb_eq in E1. subst k'. now rewrite E.
      * now destruct (lookup k' o).
Qed.

Lemma lookup_assign (k : string) (src target : obj) :
  lookup k (assign target src)
  = match lookup k (rev src) with
    | Some v => Some v
    | None => lookup k target
    end.
Proof.
  unfold assign. revert target.
  induction src as [|[k0 v0] src IH]; intros target; simpl; [reflexivity|].
  rewrite IH, lookup_app, lookup_js_set. simpl.
  destruct (lookup k (rev src)); [reflexivity|].
  now destruct (String.eqb k0 k).
Qed.

(** ** Lookup misses *)

Lemma js_find_no_match (key target : string) (entries : list value) :
  no_entry_matches key target entries ->
  js_find (prop_is key target) entries = OK VUndefined.
Proof.
  induction 1 as [|t l [v [E N]] _ IH]; simpl; [reflexivity|].
  unfold prop_is. rewrite E.
  assert (strict_eq_string v target = false) as ->; [|exact IH].
  destruct v; simpl; try reflexivity.
  apply String.eqb_neq. congruence.
Qed.

(** C9: when no entry of [state.tools] (resp. [state.prompts],
    [state.resources]) has the name (resp. uri) asked for, [mcpCallTool] (resp.
    [mcpGetPrompt], [mcpReadResource]) throws [UnknownTool] (resp.
    [UnknownPrompt], [UnknownResource]) and the request log is what it was: the
    HTTP collaborator was not called. *)
Theorem unknown_name_fails_without_network
    (http : HttpClient) (state : value) (name : string) (args : value)
    (log : list Request) (entries : list value) :
  (getProp state "tools" = OK (VArr entries) ->
   no_entry_matches "name" name entries ->
   mcpCallTool http state name args log = (Throw (UnknownTool name), log))
  /\ (getProp state "prompts" = OK (VArr entries) ->
      no_entry_matches "name" name entries ->
      mcpGetPrompt http state name args log = (Throw (UnknownPrompt name), log))
  /\ (getProp state "resources" = OK (VArr entries) ->
      no_entry_matches "uri" name entries ->
      mcpReadResource http state name args log
      = (Throw (UnknownResource name), log)).
Proof.
  repeat split; intros S N; apply js_find_no_match in N.
  - rewrite mcpCallTool_exchange. unfold callTool_request.
    rewrite S. simpl. now rewrite N.
  - rewrite mcpGetPrompt_exchange. unfold getPrompt_request.
    rewrite S. simpl. now rewrite N.
  - rewrite mcpReadResource_exchange. unfold readResource_request.
    rewrite S. simpl. now rewrite N.
Qed.

(** ** Status handling *)

Lemma exchange_issued (http : HttpClient) r k log req :
  snd (exchange http r k log) = (log ++ [req])%list -> r = OK req.
Proof.
  rewrite exchange_log. destruct r as [req'|e]; intros E.
  - apply app_inj_tail in E. now destruct E as [_ ->].
  - exfalso. apply (f_equal (@length Request)) in E.
    rewrite length_app in E. simpl in E. lia.
Qed.

Lemma handleHttpError_auth (res : Response) (k : unit -> result obj) :
  auth_failure res (rbind (handleHttpError res) k).
Proof.
  unfold auth_failure, handleHttpError.
  split; intros E; rewrite E; reflexivity.
Qed.

Lemma handleHttpError_pass (res : Response) :
  status res <> 401 -> status res <> 403 -> handleHttpError res = OK tt.
Proof.
  intros A B. unfold handleHttpError.
  destruct (Nat.eqb_spec (status res) 401); [contradiction|].
  destruct (Nat.eqb_spec (status res) 403); [contradiction|reflexivity].
Qed.

(** C3, as the code has it: whenever a dispatcher has issued its request
    and the collaborator answered with a response, a 401 (resp. 403) makes it
    throw [Unauthorized] (resp. [Forbidden]) whatever the body and the content
    type; on any other status outside 200-299 [mcpGetPrompt] and
    [mcpReadResource] throw [PromptFetchFailed] and [ResourceFetchFailed],
    while [mcpCallTool] does what [toMCPContent] does on the response: it
    returns the content with [isError] set to [true] when the transcoder
    succeeds, and throws the transcoder's error when it does not. *)
Theorem upstream_status_mapping
    (http : HttpClient) (state : value) (name : string) (args : value)
    (log : list Request) (req : Request) (res : Response) :
  http log req = Resolved res ->
  (snd (mcpCallTool http state name args log) = (log ++ [req])%list ->
   let r := fst (mcpCallTool http state name args log) in
   auth_failure res r
   /\ (upstream_failure res ->
       (forall content, toMCPContent res = OK content ->
          r = OK (js_set "isError" (VBool true) content)
          /\ lookup "isError" (js_set "isError" (VBool true) content)
             = Some (VBool true))
       /\ (forall e, toMCPContent res = Throw e -> r = Throw e)))
  /\ (snd (mcpGetPrompt http state name args log) = (log ++ [req])%list ->
      let r := fst (mcpGetPrompt http state name args log) in
      auth_failure res r
      /\ (upstream_failure res ->
          r = Throw (PromptFetchFailed name (status res) (statusText res))))
  /\ (snd (mcpReadResource http state name args log) = (log ++ [req])%list ->
      let r := fst (mcpReadResource http state name args log) in
      auth_failure res r
      /\ (upstream_failure res ->
          r = Throw (ResourceFetchFailed name (status res) (statusText res)))).
Proof.
  intros R.
  assert (A : forall k : unit -> result obj,
             auth_failure res (rbind (handleHttpError res) k))
    by apply handleHttpError_auth.
  split; [|split]; intros E; cbv zeta.
  - rewrite mcpCallTool_exchange in *. apply exchange_issued in E.
    rewrite E, (exchange_resolved _ _ _ _ _ R). simpl.
    split; [apply A|]. intros [U1 [U2 U3]]. unfold callTool_response.
    rewrite (handleHttpError_pass _ U2 U3). simpl.
    split.
    + intros content T. rewrite T, U1. simpl.
      split; [reflexivity|]. rewrite lookup_js_set. now rewrite String.eqb_refl.
    + intros e T. now rewrite T.
  - rewrite mcpGetPrompt_exchange in *. apply exchange_issued in E.
    rewrite E, (exchange_resolved _ _ _ _ _ R). simpl.
    split; [apply A|]. intros [U1 [U2 U3]]. unfold getPrompt_response.
    rewrite (handleHttpError_pass _ U2 U3). simpl. now rewrite U1.
  - rewrite mcpReadResource_exchange in *. apply exchange_issued in E.
    rewrite E, (exchange_resolved _ _ _ _ _ R). simpl.
    split; [apply A|]. intros [U1 [U2 U3]]. unfold readResource_response.
    rewrite (handleHttpError_pass _ U2 U3). simpl. now rewrite U1.
Qed.

(** ** The content transcoder *)

(** C6: [toMCPContent] looks at the Content-Type in a fixed order, and the
    first test that holds decides.  A type containing [text/plain] gives one
    text block of the body.  Otherwise a type containing [application/json]
    has the body parsed: an array [j] gives an object whose [content] is [j],
    an object gives that object itself, a string gives one text block of the
    string as it is, and [null], a boolean or a number gives one text block of
    its JSON text.  Otherwise a type starting with [image/] gives one image
    block with the whole header value as [mimeType] and the base64 of the raw
    bytes as [data].  Any other type, and an absent header, throws
    [UnsupportedContentType]. *)
Theorem toMCPContent_cases (res : Response) :
  let ct := contentType_of res in
  (includes ct "text/plain" = true ->
   toMCPContent res = OK [("content", VArr [TextBlock (res_text res)])])
  /\ (includes ct "text/plain" = false ->
      includes ct "application/json" = true ->
      forall j : value, res_json res = Some j ->
        (forall l, j = VArr l -> toMCPContent res = OK [("content", j)])
        /\ (forall o, j = VObj o -> toMCPContent res = OK o)
        /\ (forall s, j = VStr s ->
              toMCPContent res = OK [("content", VArr [TextBlock s])])
        /\ (forall text (P : stringified_primitive j text),
              JSON_stringify j = Some text
              /\ toMCPContent res = OK [("content", VArr [TextBlock text])]))
  /\ (includes ct "text/plain" = false ->
      includes ct "application/json" = false ->
      startsWith ct "image/" = true ->
      toMCPContent res
      = OK [("content", VArr [ImageBlock ct (base64 (res_bytes res))])])
  /\ (includes ct "text/plain" = false ->
      includes ct "application/json" = false ->
      startsWith ct "image/" = false ->
      toMCPContent res = Throw (UnsupportedContentType ct))
  /\ (contentType_header res = None ->
      toMCPContent res = Throw (UnsupportedContentType EmptyString)).
Proof.
  cbv zeta. unfold toMCPContent, json_of, TextBlock, ImageBlock, makeTextContent.
  split; [|split; [|split; [|split]]].
  - intros ->. reflexivity.
  - intros -> -> j ->. repeat split.
    + intros l ->. reflexivity.
    + intros o ->. reflexivity.
    + intros s ->. reflexivity.
    + now destruct P.
    + now destruct P.
  - intros -> -> ->. reflexivity.
  - intros -> -> ->. reflexivity.
  - unfold contentType_of. intros ->. reflexivity.
Qed.

(** ** The initializer *)

Lemma fetchManifestSection_view (http : HttpClient) b h name mv log :
  fetchManifestSection http b h name mv log
  = (section_outcome http log b h name mv,
     (log ++ section_request b h name mv)%list).
Proof.
  unfold fetchManifestSection, section_outcome, section_request,
    bind, rbind, lift, throw, ret, getUrl, mkGET.
  destruct (truthy mv); simpl; [|now rewrite app_nil_r].
  destruct (combineURLs b (section_path name mv)) as [url|e]; simpl;
    [|now rewrite app_nil_r].
  destruct (http log _) as [res|msg]; [|reflexivity].
  destruct (ok res); simpl; [|reflexivity].
  destruct (json_of res); reflexivity.
Qed.

Lemma run_sections_log (http : HttpClient) b h m names log :
  snd (run_sections http b h m names log)
  = (log ++ flat_map (fun n => section_request b h n (manifest_field m n))
              names)%list.
Proof.
  revert log. induction names as [|n names IH]; intros log; simpl.
  - now rewrite app_nil_r.
  - rewrite fetchManifestSection_view.
    specialize (IH (log ++ section_request b h n (manifest_field m n))%list).
    destruct (run_sections http b h m names _) as [rs log2]. simpl in *.
    now rewrite IH, app_assoc.
Qed.

Lemma initialize_view (http : HttpClient) order config log b h mres manifest :
  getProp config "baseUrl" = OK b ->
  getProp config "headers" = OK h ->
  http log (mkGET b h) = Resolved mres ->
  ok mres = true ->
  res_json mres = Some manifest ->
  nullish manifest = false ->
  initializeServerState http order config log
  = (rbind (Promise_all order
              (fst (run_sections http b h manifest section_names
                      (log ++ [mkGET b h])%list)))
       (fun sections => OK (assemble config manifest sections)),
     snd (run_sections http b h manifest section_names
            (log ++ [mkGET b h])%list)).
Proof.
  intros Eb Eh Em Eok Ej En.
  assert (F : forall n, getProp manifest n = OK (manifest_field manifest n)).
  { intros n. unfold manifest_field. destruct manifest; try reflexivity;
      try discriminate. simpl. now destruct (lookup n o). }
  unfold initializeServerState, section_promise, promise, assemble,
    bind, lift, throw, ret, getUrl, json_of, section_names.
  unfold mkGET in *. rewrite Eb, Eh, Em, Eok, Ej. simpl.
  rewrite !F. simpl.
  repeat match goal with
  | |- context [fetchManifestSection ?a ?b ?c ?d ?e ?f] =>
      destruct (fetchManifestSection a b c d e f); simpl
  end.
  now destruct (Promise_all order _).
Qed.

Lemma initialize_ok_inv (http : HttpClient) order config log st log' :
  initializeServerState http order config log = (OK st, log') ->
  exists b h mres manifest,
    getProp config "baseUrl" = OK b
    /\ getProp config "headers" = OK h
    /\ http log (mkGET b h) = Resolved mres
    /\ ok mres = true
    /\ res_json mres = Some manifest
    /\ nullish manifest = false.
Proof.
  unfold initializeServerState, section_promise, bind, lift, throw, ret,
    getUrl, json_of, mkGET.
  destruct (getProp config "baseUrl") as [b|]; [|discriminate].
  destruct (getProp config "headers") as [h|]; [|discriminate].
  destruct (http log _) as [mres|] eqn:Em; [|discriminate].
  destruct (ok mres) eqn:Eok; simpl; [|discriminate].
  destruct (res_json mres) as [manifest|] eqn:Ej; [|discriminate].
  intros E. exists b, h, mres, manifest. repeat split;
    try reflexivity; try assumption.
  destruct manifest; try reflexivity; simpl in E; discriminate.
Qed.

(** *** Promise.all *)

Lemma first_throw_none {A : Type} (l : list (result A)) :
  first_throw l = None -> l = map OK (values_of l).
Proof.
  induction l as [|[a|e] l IH]; simpl; intros E;
    [reflexivity | now rewrite <- IH | discriminate].
Qed.

Lemma first_throw_app {A : Type} (l1 l2 : list (result A)) :
  first_throw (l1 ++ l2)%list
  = match first_throw l1 with Some e => Some e | None => first_throw l2 end.
Proof.
  induction l1 as [|[a|e] l1 IH]; simpl; [reflexivity | exact IH | reflexivity].
Qed.



Lemma Promise_all_ok {A : Type} (order : list nat) (l : list (result A))
    (vs : list A) :
  Promise_all order l = OK vs -> l = map OK vs.
Proof.
  unfold Promise_all. rewrite first_throw_app.
  destruct (first_throw (settled order l)); [discriminate|].
  destruct (first_throw l) eqn:E; [discriminate|].
  intros [= <-]. now apply first_throw_none.
Qed.

(** *** All or nothing *)




(** *** The state of a successful initialization *)

Lemma section_outcome_ok (http : HttpClient) log b h name mv s :
  section_outcome http log b h name mv = OK s ->
  section_contribution name mv s.
Proof.
  unfold section_outcome, section_contribution, rbind.
  destruct (truthy mv); simpl.
  - destruct (combineURLs b (section_path name mv)) as [url|]; [|discriminate].
    destruct (http log (mkGET url h)) as [res|]; [|discriminate].
    destruct (ok res); simpl; [|discriminate].
    destruct (json_of res) as [j|]; [|discriminate].
    intros [= <-]. right. split; [reflexivity|]. now exists j, url.
  - intros [= <-]. now left.
Qed.

Lemma run_sections_outcomes (http : HttpClient) b h m names log sections :
  fst (run_sections http b h m names log) = map OK sections ->
  Forall2 (fun n s => section_contribution n (manifest_field m n) s)
    names sections.
Proof.
  revert log sections.
  induction names as [|n names IH]; intros log sections; simpl.
  - destruct sections; [constructor | discriminate].
  - rewrite fetchManifestSection_view.
    specialize (IH (log ++ section_request b h n (manifest_field m n))%list).
    destruct (run_sections http b h m names _) as [rs log2]. simpl in *.
    destruct sections as [|s sections]; [discriminate|].
    simpl. intros [= E1 E2]. constructor.
    + now apply section_outcome_ok in E1.
    + now apply IH.
Qed.

Lemma initialize_ok_state_of (http : HttpClient) order config log b h mres
    manifest st log' :
  getProp config "baseUrl" = OK b ->
  getProp config "headers" = OK h ->
  http log (mkGET b h) = Resolved mres ->
  ok mres = true ->
  res_json mres = Some manifest ->
  initializeServerState http order config log = (OK st, log') ->
  exists s1 s2 s3 s4,
    st = assemble config manifest [s1; s2; s3; s4]
    /\ section_contribution "tools" (manifest_field manifest "tools") s1
    /\ section_contribution "prompts" (manifest_field manifest "prompts") s2
    /\ section_contribution "resources"
         (manifest_field manifest "resources") s3
    /\ section_contribution "resourceTemplates"
         (manifest_field manifest "resourceTemplates") s4.
Proof.
  intros Eb Eh Em Eok Ej E.
  assert (En : nullish manifest = false).
  { destruct (initialize_ok_inv http order config log st log' E)
      as [b' [h' [mres' [manifest' [Eb' [Eh' [Em' [_ [Ej' En]]]]]]]]].
    congruence. }
  rewrite (initialize_view http order config log b h mres manifest
             Eb Eh Em Eok Ej En) in E.
  apply (f_equal fst) in E. cbn [fst] in E. unfold rbind in E.
  destruct (Promise_all order _) as [sections|] eqn:P; [|discriminate].
  injection E as <-.
  apply Promise_all_ok, run_sections_outcomes in P.
  unfold section_names in P.
  inversion P as [|? s1 ? l1 C1 P1]; subst.
  inversion P1 as [|? s2 ? l2 C2 P2]; subst.
  inversion P2 as [|? s3 ? l3 C3 P3]; subst.
  inversion P3 as [|? s4 ? l4 C4 P4]; subst.
  inversion P4; subst.
  now exists s1, s2, s3, s4.
Qed.

Lemma initialize_ok_state (http : HttpClient) order config log st log' :
  initializeServerState http order config log = (OK st, log') ->
  exists manifest s1 s2 s3 s4,
    st = assemble config manifest [s1; s2; s3; s4]
    /\ section_contribution "tools" (manifest_field manifest "tools") s1
    /\ section_contribution "prompts" (manifest_field manifest "prompts") s2
    /\ section_contribution "resources"
         (manifest_field manifest "resources") s3
    /\ section_contribution "resourceTemplates"
         (manifest_field manifest "resourceTemplates") s4.
Proof.
  intros E.
  destruct (initialize_ok_inv http order config log st log' E)
    as [b [h [mres [manifest [Eb [Eh [Em [Eok [Ej En]]]]]]]]].
  exists manifest.
  exact (initialize_ok_state_of http order config log b h mres manifest
           st log' Eb Eh Em Eok Ej E).
Qed.

(** Case analysis on what each of the four sections contributed. *)
Ltac contributions :=
  repeat match goal with
  | C : section_contribution _ _ _ |- _ =>
      destruct C as [[? ->]|[? [? [? ->]]]]
  end.


(** *** Section paths *)

Lemma initialize_log (http : HttpClient) order config log b h mres manifest :
  getProp config "baseUrl" = OK b ->
  getProp config "headers" = OK h ->
  http log (mkGET b h) = Resolved mres ->
  ok mres = true ->
  res_json mres = Some manifest ->
  nullish manifest = false ->
  snd (initializeServerState http order config log)
  = (log ++ mkGET b h
       :: flat_map (fun n => section_request b h n (manifest_field manifest n))
            section_names)%list.
Proof.
  intros Eb Eh Em Eok Ej N.
  rewrite (initialize_view http order config log b h mres manifest
             Eb Eh Em Eok Ej N). cbn [fst snd].
  now rewrite run_sections_log, <- app_assoc.
Qed.

Lemma manifest_field_not_nullish (manifest : value) (name : string) :
  truthy (manifest_field manifest name) = true -> nullish manifest = false.
Proof. destruct manifest; simpl; congruence. Qed.

(** The requests of an initialization whose manifest came: the manifest's,
    then those of the four sections in order. *)
Lemma initialize_requests (http : HttpClient) order config log b h mres
    manifest :
  getProp config "baseUrl" = OK b ->
  getProp config "headers" = OK h ->
  http log (mkGET b h) = Resolved mres ->
  ok mres = true ->
  res_json mres = Some manifest ->
  snd (initializeServerState http order config log)
  = (log ++ mkGET b h
       :: flat_map (fun n => section_request b h n (manifest_field manifest n))
            section_names)%list.
Proof.
  intros Eb Eh Em Eok Ej.
  destruct (nullish manifest) eqn:N;
    [|now apply (initialize_log http order config log b h mres manifest)].
  assert (F : forall n, manifest_field manifest n = VUndefined)
    by (intros n; destruct manifest; try discriminate; reflexivity).
  unfold section_names. cbn [flat_map]. rewrite !F.
  unfold initializeServerState, section_promise, bind, lift, getUrl, json_of.
  rewrite Eb, Eh, Em, Eok, Ej. simpl.
  destruct manifest; try discriminate; reflexivity.
Qed.

(** The request of one section, by the value the manifest has for it. *)
Lemma section_request_by_value (b : string) (h : value) (name default : string)
    (mv : value) :
  section_path name (VBool true) = VStr default ->
  default <> EmptyString ->
  strip_leading_slashes default = default ->
  let get path :=
    [mkGET (VStr (strip_trailing_slashes b ++ "/" ++ path)) h] in
  (truthy mv = false -> section_request (VStr b) h name mv = [])
  /\ (mv = VBool true -> section_request (VStr b) h name mv = get default)
  /\ (forall s, mv = VStr s -> s <> EmptyString ->
        section_path name (VStr s) = VStr s
        /\ section_request (VStr b) h name mv
           = get (strip_leading_slashes s)).
Proof.
  intros P N S. cbv zeta. unfold section_request. split; [|split].
  - now intros ->.
  - intros ->. cbn [truthy]. rewrite P. unfold combineURLs.
    destruct default; [now elim N|]. cbn [truthy string_is_empty negb as_string].
    now rewrite S.
  - intros s -> Ns. split; [reflexivity|].
    destruct s; [now elim Ns | reflexivity].
Qed.

Lemma append_cancel_l (p a b : string) : p ++ a = p ++ b -> a = b.
Proof. induction p as [|c p IH]; simpl; [auto|]. intros [= E]. auto. Qed.

(** C8: with the manifest fetched from a base URL, the requests of the
    initialization are the manifest's and then, in this order, those of
    [tools], [prompts], [resources] and [resourceTemplates].  A section
    declared [true] has one request, a GET of the base URL without its
    trailing slashes, a slash and the default path: the section's own name
    for [tools], [prompts] and [resources], and [resource_templates] for
    [resourceTemplates], which is never requested under its camel-case name.
    A section declared with a non-empty string has that string, as it is, for
    its relative path, and its one request is for the base, a slash and the
    string without its leading slashes.  A section whose value is falsy has
    no request.  (A base URL that ends with no slash has no trailing slashes
    to lose.) *)
Theorem declared_sections_paths
    (http : HttpClient) (order : list nat) (config : value)
    (log : list Request) (b : string) (h : value) (mres : Response)
    (manifest : value) :
  getProp config "baseUrl" = OK (VStr b) ->
  getProp config "headers" = OK h ->
  http log (mkGET (VStr b) h) = Resolved mres ->
  ok mres = true ->
  res_json mres = Some manifest ->
  let get path :=
    [mkGET (VStr (strip_trailing_slashes b ++ "/" ++ path)) h] in
  let section name default requests :=
    (truthy (manifest_field manifest name) = false -> requests = [])
    /\ (manifest_field manifest name = VBool true -> requests = get default)
    /\ (forall s,
          manifest_field manifest name = VStr s -> s <> EmptyString ->
          section_path name (VStr s) = VStr s
          /\ requests = get (strip_leading_slashes s)) in
  exists tools prompts resources templates,
    snd (initializeServerState http order config log)
    = (log ++ mkGET (VStr b) h
         :: tools ++ prompts ++ resources ++ templates)%list
    /\ section "tools" "tools" tools
    /\ section "prompts" "prompts" prompts
    /\ section "resources" "resources" resources
    /\ section "resourceTemplates" "resource_templates" templates
    /\ (manifest_field manifest "resourceTemplates" = VBool true ->
        ~ In (mkGET (VStr (strip_trailing_slashes b ++ "/resourceTemplates")) h)
            templates)
    /\ (last_char b <> Some slash -> strip_trailing_slashes b = b).
Proof.
  intros Eb Eh Em Eok Ej. cbv zeta.
  pose (R := fun n => section_request (VStr b) h n (manifest_field manifest n)).
  exists (R "tools"), (R "prompts"), (R "resources"), (R "resourceTemplates").
  split.
  { rewrite (initialize_requests http order config log (VStr b) h mres manifest
               Eb Eh Em Eok Ej).
    unfold section_names, R. cbn [flat_map]. now rewrite app_nil_r. }
  assert (S := fun name default =>
                 section_request_by_value b h name default
                   (manifest_field manifest name)).
  cbv zeta in S. unfold R.
  split; [apply S; [reflexivity | discriminate | reflexivity]|].
  split; [apply S; [reflexivity | discriminate | reflexivity]|].
  split; [apply S; [reflexivity | discriminate | reflexivity]|].
  split; [apply S; [reflexivity | discriminate | reflexivity]|].
  split; [|apply strip_trailing_slashes_id].
  intros T.
  destruct (S "resourceTemplates" "resource_templates"
              eq_refl ltac:(discriminate) eq_refl) as [_ [Tm _]].
  rewrite (Tm T). intros [E|[]].
  injection E as E. apply append_cancel_l in E. discriminate.
Qed.

(** *** The empty string *)

(** C10: a manifest field that is the empty string counts as not declared.
    [fetchManifestSection] returns the empty object without a request, as it
    does for an absent field and for [false]; the requests of the initializer
    are the manifest's and those of the other sections; and the state of a
    successful initialization has neither the array nor the URL of that
    section. *)
Theorem empty_string_declares_nothing
    (http : HttpClient) (order : list nat) (config : value)
    (log : list Request) (b h : value) (mres : Response) (manifest : value)
    (name : string) :
  getProp config "baseUrl" = OK b ->
  getProp config "headers" = OK h ->
  http log (mkGET b h) = Resolved mres ->
  ok mres = true ->
  res_json mres = Some manifest ->
  In name section_names ->
  manifest_field manifest name = VStr EmptyString ->
  (forall log1,
      fetchManifestSection http b h name (manifest_field manifest name) log1
      = (OK [], log1)
      /\ fetchManifestSection http b h name VUndefined log1 = (OK [], log1)
      /\ fetchManifestSection http b h name (VBool false) log1 = (OK [], log1))
  /\ snd (initializeServerState http order config log)
     = (log ++ mkGET b h
          :: flat_map
               (fun n => section_request b h n (manifest_field manifest n))
               (filter (fun n => negb (String.eqb n name)) section_names))%list
  /\ (forall st log',
        initializeServerState http order config log = (OK st, log') ->
        has_key name st = false /\ has_key (name ++ "Url") st = false).
Proof.
  intros Eb Eh Em Eok Ej I E.
  assert (N : nullish manifest = false).
  { destruct manifest; try reflexivity; discriminate. }
  split; [|split].
  - intros log1. rewrite E. repeat split.
  - rewrite (initialize_log http order config log b h mres manifest
               Eb Eh Em Eok Ej N).
    do 2 f_equal. unfold section_names.
    destruct I as [<-|[<-|[<-|[<-|[]]]]];
      cbn [flat_map filter String.eqb Ascii.eqb Bool.eqb negb];
      rewrite E; cbn [section_request truthy string_is_empty negb app];
      rewrite ?app_nil_r; reflexivity.
  - intros st log' S.
    destruct (initialize_ok_state_of http order config log b h mres manifest
                st log' Eb Eh Em Eok Ej S)
      as [s1 [s2 [s3 [s4 [-> [C1 [C2 [C3 C4]]]]]]]].
    destruct I as [<-|[<-|[<-|[<-|[]]]]]; rewrite E in *;
      contributions; try discriminate; vm_compute; auto.
Qed.

(** ** Objects: keys stay distinct *)

Lemma lookup_none_keys (k : string) (o : obj) :
  lookup k o = None <-> ~ In k (map fst o).
Proof.
  induction o as [|[k' v'] o IH]; simpl; [tauto|].
  destruct (String.eqb_spec k' k) as [->|N].
  - split; [discriminate | intros X; elim X; now left].
  - rewrite IH. tauto.
Qed.

Lemma lookup_some_in (k : string) (v : value) (o : obj) :
  lookup k o = Some v -> In (k, v) o.
Proof.
  induction o as [|[k' v'] o IH]; simpl; [discriminate|].
  destruct (String.eqb_spec k' k) as [->|N].
  - intros [= ->]. now left.
  - intros E. right. now apply IH.
Qed.

Lemma replace_prop_keys (k : string) (v : value) (o : obj) :
  map fst (replace_prop k v o) = map fst o.
Proof.
  induction o as [|[k' v'] o IH]; simpl; [reflexivity|].
  destruct (String.eqb k' k); simpl; [reflexivity | now rewrite IH].
Qed.

Lemma insert_index_split (n : N) (k : string) (v : value) (o : obj) :
  exists o1 o2, o = (o1 ++ o2)%list
                /\ insert_index n k v o = (o1 ++ (k, v) :: o2)%list.
Proof.
  induction o as [|[k' v'] o [o1 [o2 [E1 E2]]]]; simpl.
  - now exists [], [].
  - destruct (array_index k') as [m|].
    + destruct (N.ltb n m).
      * now exists [], ((k', v') :: o).
      * exists ((k', v') :: o1), o2. simpl. now rewrite <- E1, E2.
    + now exists [], ((k', v') :: o).
Qed.

Lemma NoDup_insert_middle {A : Type} (a : A) (l1 l2 : list A) :
  ~ In a (l1 ++ l2)%list -> NoDup (l1 ++ l2)%list ->
  NoDup (l1 ++ a :: l2)%list.
Proof.
  induction l1 as [|x l1 IH]; simpl; intros N D.
  - now constructor.
  - inversion D as [|? ? X D']; subst. constructor.
    + rewrite in_app_iff in *. simpl. intros [I|[->|I]]; tauto.
    + apply IH; tauto.
Qed.

Lemma js_set_keys_distinct (k : string) (v : value) (o : obj) :
  NoDup (map fst o) -> NoDup (map fst (js_set k v o)).
Proof.
  intros D. unfold js_set, has_key.
  destruct (lookup k o) eqn:E.
  - now rewrite replace_prop_keys.
  - apply lookup_none_keys in E.
    destruct (array_index k) as [n|].
    + destruct (insert_index_split n k v o) as [o1 [o2 [E1 E2]]].
      rewrite E2. subst o. rewrite map_app in *. simpl.
      now apply NoDup_insert_middle.
    + rewrite map_app. simpl.
      apply NoDup_insert_middle; now rewrite app_nil_r.
Qed.

Lemma assign_keys_distinct (target src : obj) :
  NoDup (map fst target) -> NoDup (map fst (assign target src)).
Proof.
  unfold assign. revert target.
  induction src as [|[k v] src IH]; intros target D; simpl; [exact D|].
  apply IH. now apply js_set_keys_distinct.
Qed.

(** ** The query of a resource read *)

Lemma URLSearchParams_of_keys (o : obj) (params : list (string * string)) :
  URLSearchParams_of o = OK params -> map fst params = map fst o.
Proof.
  revert params. induction o as [|[k v] o IH]; simpl; intros params.
  - now intros [= <-].
  - destruct (ToString v) as [s|]; [|discriminate].
    destruct (URLSearchParams_of o) as [ps|]; [|discriminate].
    intros [= <-]. simpl. now rewrite (IH ps).
Qed.

Lemma URLSearchParams_of_in (o : obj) (params : list (string * string))
    (k : string) (v : value) :
  URLSearchParams_of o = OK params ->
  In (k, v) o ->
  exists s, ToString v = OK s /\ In (k, s) params.
Proof.
  revert params. induction o as [|[k' v'] o IH]; simpl; intros params;
    [contradiction|].
  destruct (ToString v') as [s'|] eqn:T; [|discriminate].
  destruct (URLSearchParams_of o) as [ps|]; [|discriminate].
  intros [= <-] [[= -> ->]|I].
  - exists s'. split; [exact T | now left].
  - destruct (IH ps eq_refl I) as [s [Ts Is]].
    exists s. split; [exact Ts | now right].
Qed.

(** The query object always has a [uri] property; it is the resource URI
    unless the arguments bring a [uri] of their own. *)
Lemma resource_query_object_uri (uri : string) (args : value) :
  exists x, lookup "uri" (resource_query_object uri args) = Some x
            /\ (lookup "uri" (own_entries args) = None -> x = VStr uri).
Proof.
  unfold resource_query_object.
  set (entries := own_entries match args with VUndefined => VObj [] | _ => args end).
  assert (EE : lookup "uri" (own_entries args) = None ->
               lookup "uri" entries = None).
  { subst entries. now destruct args. }
  rewrite lookup_assign. simpl.
  destruct (lookup "uri" (rev entries)) as [x|] eqn:E.
  - exists x. split; [reflexivity|]. intros N. apply EE in N.
    apply lookup_none_keys in N. apply lookup_some_in in E.
    elim N. apply in_rev in E. now apply (in_map fst) in E.
  - now exists (VStr uri).
Qed.

Lemma resource_query_object_keys (uri : string) (args : value) :
  NoDup (map fst (resource_query_object uri args)).
Proof.
  unfold resource_query_object. apply assign_keys_distinct. simpl.
  constructor; [tauto | constructor].
Qed.

Lemma resource_params_uri (uri : string) (args : value)
    (params : list (string * string)) :
  URLSearchParams_of (resource_query_object uri args) = OK params ->
  exists pre v post,
    params = (pre ++ ("uri", v) :: post)%list
    /\ ~ In "uri" (map fst (pre ++ post)%list)
    /\ (lookup "uri" (own_entries args) = None -> v = uri).
Proof.
  intros P.
  destruct (resource_query_object_uri uri args) as [x [L U]].
  destruct (URLSearchParams_of_in _ _ _ _ P (lookup_some_in _ _ _ L))
    as [v [T I]].
  destruct (in_split _ _ I) as [pre [post E]].
  exists pre, v, post. repeat split; [exact E | |].
  - pose proof (resource_query_object_keys uri args) as D.
    rewrite <- (URLSearchParams_of_keys _ _ P), E, map_app in D.
    simpl in D. apply NoDup_remove_2 in D. now rewrite map_app.
  - intros N. rewrite (U N) in T. simpl in T. congruence.
Qed.

Lemma js_find_first_entry (key target : string) (entries : list value)
    (entry : value) :
  first_entry key target entries entry ->
  js_find (prop_is key target) entries = OK entry /\ truthy entry = true.
Proof.
  intros [pre [post [-> [N E]]]]. split.
  - induction N as [|t l [v [Ev Nv]] _ IH]; simpl.
    + unfold prop_is. rewrite E. simpl. now rewrite String.eqb_refl.
    + unfold prop_is at 1. rewrite Ev.
      assert (strict_eq_string v target = false) as ->; [|exact IH].
      destruct v; simpl; try reflexivity.
      apply String.eqb_neq. congruence.
  - destruct entry; simpl in *; try discriminate; reflexivity.
Qed.

Lemma getProp_total (state : value) (k k' : string) (v : value) :
  getProp state k = OK v -> exists v', getProp state k' = OK v'.
Proof.
  destruct state; simpl; try discriminate; intros _; try (now eexists).
  destruct (lookup k' o); now eexists.
Qed.

(** C2, as the code has it: for a state whose resources hold an entry with
    the URI asked for, whose [resourcesUrl] is a string and with arguments
    whose values convert to strings, [mcpReadResource] issues exactly one
    request, a GET with the headers of the state.  Its URL is
    [resolve(resourcesUrl, href)], a question mark and the query when the entry
    has a string [href], and [resourcesUrl], a question mark and the query
    when it has none (or a falsy one).  The query has exactly one [uri]
    parameter, serialized as [uri=] and the encoded value; the value is the
    URI asked for whenever the arguments have no property named [uri]. *)
Theorem readResource_request_shape
    (http : HttpClient) (state : value) (uri : string) (args : value)
    (log : list Request) (entries : list value) (resource : value)
    (R : string) (params : list (string * string)) :
  getProp state "resources" = OK (VArr entries) ->
  first_entry "uri" uri entries resource ->
  getProp state "resourcesUrl" = OK (VStr R) ->
  URLSearchParams_of (resource_query_object uri args) = OK params ->
  let query := URLSearchParams_toString params in
  let requests := snd (mcpReadResource http state uri args log) in
  (exists headers,
      getProp state "headers" = OK headers
      /\ (forall h, getProp resource "href" = OK (VStr h) ->
            exists U, combineURLs (VStr R) (VStr h) = OK (VStr U)
                      /\ requests
                         = (log ++ [mkGET (VStr (U ++ "?" ++ query)%string)
                                         headers])%list)
      /\ (forall v, getProp resource "href" = OK v -> truthy v = false ->
          requests
          = (log ++ [mkGET (VStr (R ++ "?" ++ query)%string) headers])%list))
  /\ (exists pre v post,
         params = (pre ++ ("uri", v) :: post)%list
         /\ ~ In "uri" (map fst (pre ++ post)%list)
         /\ query = join "&" (map urlencode_pair pre
                                ++ ("uri=" ++ urlencode v)%string
                                     :: map urlencode_pair post)%list
         /\ (lookup "uri" (own_entries args) = None -> v = uri)).
Proof.
  intros Es F Eu P. cbv zeta.
  destruct (js_find_first_entry _ _ _ _ F) as [Ff Ft].
  destruct (getProp_total state "resources" "headers" _ Es) as [headers Eh].
  split.
  - exists headers. split; [exact Eh|].
    rewrite mcpReadResource_exchange, exchange_log.
    unfold readResource_request.
    rewrite Es. simpl. rewrite Ff. simpl. rewrite Ft. simpl.
    rewrite P. simpl. rewrite Eu. simpl.
    split.
    + intros h Ehref. rewrite Ehref. simpl.
      destruct h as [|c h]; simpl.
      * exists R. rewrite Eh. simpl. now split.
      * eexists. rewrite Eh. simpl. split; reflexivity.
    + intros v Ehref Fv. rewrite Ehref. simpl. rewrite Fv, Eh. reflexivity.
  - destruct (resource_params_uri uri args params P)
      as [pre [v [post [E [N V]]]]].
    exists pre, v, post. repeat split; try assumption.
    unfold URLSearchParams_toString. now rewrite E, map_app.
Qed.

(** ** Headers *)

(** Case analysis along a chain of [rbind]s in a hypothesis. *)
Ltac unbind E :=
  repeat match type of E with
  | context [match ?x with _ => _ end] =>
      lazymatch x with
      | context [match _ with _ => _ end] => fail
      | _ => destruct x eqn:?; simpl in E; try discriminate E
      end
  end.

Lemma callTool_request_headers (state : value) name args req :
  callTool_request state name args = OK req ->
  getProp state "headers" = OK (req_headers req).
Proof.
  unfold callTool_request, rbind. intros E. unbind E.
  all: now injection E as <-.
Qed.

Lemma getPrompt_request_headers (state : value) name args req :
  getPrompt_request state name args = OK req ->
  getProp state "headers" = OK (req_headers req).
Proof.
  unfold getPrompt_request, rbind. intros E. unbind E.
  all: now injection E as <-.
Qed.

Lemma readResource_request_headers (state : value) uri args req :
  readResource_request state uri args = OK req ->
  getProp state "headers" = OK (req_headers req).
Proof.
  unfold readResource_request, rbind. intros E. unbind E.
  all: now injection E as <-.
Qed.

Lemma section_request_headers (b h : value) name mv :
  Forall (fun req => req_headers req = h) (section_request b h name mv).
Proof.
  unfold section_request.
  destruct (truthy mv); [|constructor].
  destruct (combineURLs b (section_path name mv)); repeat constructor.
Qed.

(** C1, what the code does: the state of a successful initialization keeps
    the configuration, and every request of the initialization carried the
    headers of that configuration; but the state has no [headers] property of
    its own, which is the one the dispatchers read: every request that
    [mcpCallTool], [mcpGetPrompt] or [mcpReadResource] issues from that state
    carries [undefined] for headers. *)
Theorem initialized_state_sends_no_headers
    (http : HttpClient) (order : list nat) (config : value)
    (log : list Request) (st : obj) (log' : list Request) :
  initializeServerState http order config log = (OK st, log') ->
  lookup "config" st = Some config
  /\ (exists h issued,
         getProp config "headers" = OK h
         /\ log' = (log ++ issued)%list
         /\ Forall (fun req => req_headers req = h) issued)
  /\ getProp (VObj st) "headers" = OK VUndefined
  /\ forall name args log1 req,
       (snd (mcpCallTool http (VObj st) name args log1) = (log1 ++ [req])%list
        -> req_headers req = VUndefined)
       /\ (snd (mcpGetPrompt http (VObj st) name args log1)
           = (log1 ++ [req])%list -> req_headers req = VUndefined)
       /\ (snd (mcpReadResource http (VObj st) name args log1)
           = (log1 ++ [req])%list -> req_headers req = VUndefined).
Proof.
  intros E.
  destruct (initialize_ok_inv http order config log st log' E)
    as [b [h [mres [manifest [Eb [Eh [Em [Eok [Ej En]]]]]]]]].
  destruct (initialize_ok_state_of http order config log b h mres manifest
              st log' Eb Eh Em Eok Ej E)
    as [s1 [s2 [s3 [s4 [S [C1 [C2 [C3 C4]]]]]]]].
  assert (Hd : getProp (VObj st) "headers" = OK VUndefined).
  { subst st. contributions; reflexivity. }
  split; [|split; [|split; [exact Hd|]]].
  - subst st. contributions; reflexivity.
  - exists h. eexists. split; [exact Eh|]. split.
    + apply (f_equal snd) in E. cbn [snd] in E. rewrite <- E.
      apply (initialize_log http order config log b h mres manifest
               Eb Eh Em Eok Ej En).
    + constructor; [reflexivity|].
      unfold section_names. simpl. rewrite !Forall_app.
      repeat split; try apply section_request_headers. constructor.
  - intros name args log1 req. repeat split; intros X.
    + rewrite mcpCallTool_exchange in X. apply exchange_issued in X.
      apply callTool_request_headers in X. congruence.
    + rewrite mcpGetPrompt_exchange in X. apply exchange_issued in X.
      apply getPrompt_request_headers in X. congruence.
    + rewrite mcpReadResource_exchange in X. apply exchange_issued in X.
      apply readResource_request_headers in X. congruence.
Qed.

(** * Further properties of lib.mjs *)

(** ** The resource transcoder *)

Lemma isTextContent_nonempty (contentType : string) :
  isTextContent contentType = true -> contentType <> EmptyString.
Proof. intros T ->. discriminate T. Qed.

(** X1: [toMCPResourceContent] always produces a resource content of the host
    protocol: the URI asked for, a [mimeType] that is never the empty string
    (the Content-Type when there is one), and either the text of the body or
    the base64 of its bytes, never both and never neither; which one is
    decided by [isTextContent]. *)
Theorem toMCPResourceContent_shape (res : Response) (uri : string) :
  let content := toMCPResourceContent res uri in
  lookup "uri" content = Some (VStr uri)
  /\ (exists mimeType,
         lookup "mimeType" content = Some (VStr mimeType)
         /\ mimeType <> EmptyString
         /\ (contentType_of res <> EmptyString ->
             mimeType = contentType_of res))
  /\ (if isTextContent (contentType_of res)
      then lookup "text" content = Some (VStr (res_text res))
           /\ lookup "blob" content = None
      else lookup "blob" content = Some (VStr (base64 (res_bytes res)))
           /\ lookup "text" content = None).
Proof.
  cbv zeta. unfold toMCPResourceContent.
  destruct (isTextContent (contentType_of res)) eqn:T.
  - split; [reflexivity|]. split; [|now split].
    exists (contentType_of res). split; [reflexivity|]. split; [|reflexivity].
    now apply isTextContent_nonempty.
  - split; [reflexivity|]. split; [|now split].
    eexists. split; [reflexivity|].
    destruct (contentType_of res); simpl; split; try discriminate; try reflexivity.
    intros N. now elim N.
Qed.

(** ** What the dispatchers return *)

Lemma object_with_array_some (json : value) (field : string) (o : obj) :
  object_with_array json field = Some o ->
  json = VObj o /\ exists l, lookup field o = Some (VArr l).
Proof.
  unfold object_with_array. destruct json; try discriminate.
  destruct (lookup field o0) as [[]|] eqn:L; try discriminate.
  intros [= <-]. split; [reflexivity|]. now exists l.
Qed.

Lemma exchange_ok (http : HttpClient) r k log (o : obj) log' :
  exchange http r k log = (OK o, log') ->
  exists req res,
    r = OK req /\ http log req = Resolved res /\ k res = OK o
    /\ log' = (log ++ [req])%list.
Proof.
  unfold exchange. destruct r as [req|e]; [|discriminate].
  destruct (http log req) as [res|msg] eqn:E; [|discriminate].
  intros [= K <-]. now exists req, res.
Qed.

(** X2: whatever the collaborator answers, a resource read that returns has
    issued exactly one request, got a response with a status in 200-299, and
    returns an object whose [contents] is an array. *)
Theorem readResource_returns_contents
    (http : HttpClient) (state : value) (uri : string) (args : value)
    (log : list Request) (o : obj) (log' : list Request) :
  mcpReadResource http state uri args log = (OK o, log') ->
  (exists l, lookup "contents" o = Some (VArr l))
  /\ exists req res,
       log' = (log ++ [req])%list
       /\ req_method req = GET
       /\ http log req = Resolved res
       /\ ok res = true.
Proof.
  rewrite mcpReadResource_exchange. intros E.
  destruct (exchange_ok _ _ _ _ _ _ E) as [req [res [Er [Eh [Ek ->]]]]].
  unfold readResource_response, rbind in Ek.
  destruct (handleHttpError res); [|discriminate].
  destruct (ok res) eqn:Ok; simpl in Ek; [|discriminate].
  split.
  - unfold body_read in Ek.
    destruct (includes (contentType_of res) "application/json");
      cbn [andb] in Ek.
    + destruct (json_of res) as [j|]; [|discriminate].
      destruct (object_with_array j "contents") as [o'|] eqn:P.
      * injection Ek as <-.
        now destruct (object_with_array_some _ _ _ P) as [_ L].
      * destruct (single_use res); [discriminate|].
        injection Ek as <-. now eexists.
    + injection Ek as <-. now eexists.
  - exists req, res. repeat split; try assumption.
    unfold readResource_request, rbind in Er. unbind Er.
    all: now injection Er as <-.
Qed.

(** X3: on a status in 200-299 a resource read looks at the Content-Type
    only to find [application/json].  Without it the response is transcoded
    by [toMCPResourceContent], whatever its type.  With it the body is read
    as JSON: a body that is no JSON makes the read fail, an object with an
    array under [contents] is returned as it is, and any other JSON value is
    handed to [toMCPResourceContent], which reads the body a second time: on
    a body that can be read once only, as that of a [Response] of [fetch],
    the read fails with a [TypeError]; on a response that answers the second
    call the whole body becomes one text content. *)
Theorem readResource_on_success_status
    (http : HttpClient) (state : value) (uri : string) (args : value)
    (log : list Request) (req : Request) (res : Response) :
  snd (mcpReadResource http state uri args log) = (log ++ [req])%list ->
  http log req = Resolved res ->
  ok res = true ->
  let result := fst (mcpReadResource http state uri args log) in
  let transcoded :=
    OK [("contents", VArr [VObj (toMCPResourceContent res uri)])] in
  (includes (contentType_of res) "application/json" = false ->
   result = transcoded)
  /\ (includes (contentType_of res) "application/json" = true ->
      (res_json res = None -> exists e, result = Throw e)
      /\ (forall o l,
            res_json res = Some (VObj o) ->
            lookup "contents" o = Some (VArr l) ->
            result = OK o)
      /\ (forall j,
            res_json res = Some j ->
            object_with_array j "contents" = None ->
            (single_use res = true -> result = Throw TypeError)
            /\ (single_use res = false ->
                result = transcoded
                /\ lookup "text" (toMCPResourceContent res uri)
                   = Some (VStr (res_text res))))).
Proof.
  intros L R Ok. cbv zeta. rewrite mcpReadResource_exchange in *.
  apply exchange_issued in L. rewrite L, (exchange_resolved _ _ _ _ _ R).
  cbn [fst]. unfold readResource_response, rbind, body_read.
  assert (A : handleHttpError res = OK tt).
  { unfold ok in Ok. apply andb_prop in Ok. destruct Ok as [O1 O2].
    apply Nat.leb_le in O1, O2.
    apply handleHttpError_pass; lia. }
  rewrite A, Ok. cbn [negb].
  split.
  - intros ->. reflexivity.
  - intros J. rewrite J. cbn [andb]. unfold json_of.
    split; [|split].
    + intros ->. now eexists.
    + intros o l -> C. unfold object_with_array. now rewrite C.
    + intros j -> N. rewrite N. split; intros ->; [reflexivity|].
      split; [reflexivity|].
      unfold toMCPResourceContent, isTextContent. rewrite J.
      now rewrite orb_true_r.
Qed.

(** X4: a prompt read that returns has issued exactly one GET, got a status in
    200-299, and returns an object whose [messages] is an array. *)
Theorem getPrompt_returns_messages
    (http : HttpClient) (state : value) (name : string) (args : value)
    (log : list Request) (o : obj) (log' : list Request) :
  mcpGetPrompt http state name args log = (OK o, log') ->
  (exists l, lookup "messages" o = Some (VArr l))
  /\ exists req res,
       log' = (log ++ [req])%list
       /\ req_method req = GET
       /\ http log req = Resolved res
       /\ ok res = true.
Proof.
  rewrite mcpGetPrompt_exchange. intros E.
  destruct (exchange_ok _ _ _ _ _ _ E) as [req [res [Er [Eh [Ek ->]]]]].
  unfold getPrompt_response, rbind in Ek.
  destruct (handleHttpError res); [|discriminate].
  destruct (ok res) eqn:Ok; simpl in Ek; [|discriminate].
  split.
  - destruct (includes (contentType_of res) "application/json").
    + destruct (json_of res) as [j|]; [|discriminate].
      destruct (object_with_array j "messages") as [o'|] eqn:P.
      * injection Ek as <-.
        now destruct (object_with_array_some _ _ _ P) as [_ L].
      * injection Ek as <-. now eexists.
    + destruct (includes (contentType_of res) "text/plain"); [|discriminate].
      injection Ek as <-. now eexists.
  - exists req, res. repeat split; try assumption.
    unfold getPrompt_request, rbind in Er. unbind Er.
    all: now injection Er as <-.
Qed.

(** ** The list operations *)

Lemma lookup_map_keys (keys : list string) (f : string -> value) (k : string) :
  In k keys -> lookup k (map (fun k => (k, f k)) keys) = Some (f k).
Proof.
  induction keys as [|k' keys IH]; simpl; [contradiction|].
  destruct (String.eqb_spec k' k) as [->|N]; [reflexivity|].
  intros [E|I]; [contradiction | now apply IH].
Qed.

Lemma pick_listing (keys : list string) (t p : value) :
  pick keys t = OK p -> listing_of keys t p.
Proof.
  unfold pick, listing_of. destruct (nullish t) eqn:N; [discriminate|].
  intros [= <-]. split; [reflexivity|].
  eexists. split; [reflexivity|]. split.
  - rewrite map_map. simpl. apply map_id.
  - intros k I. apply (lookup_map_keys keys (field t) k I).
Qed.

Lemma map_result_pick (keys : list string) (entries listed : list value) :
  map_result (pick keys) entries = OK listed ->
  Forall2 (listing_of keys) entries listed.
Proof.
  revert listed. induction entries as [|t entries IH]; simpl; intros listed.
  - intros [= <-]. constructor.
  - destruct (pick keys t) as [p|] eqn:P; [|discriminate].
    destruct (map_result (pick keys) entries) as [ps|]; [|discriminate].
    intros [= <-]. constructor; [now apply pick_listing | now apply IH].
Qed.

Lemma map_result_pick_total (keys : list string) (entries : list value) :
  Forall (fun t => nullish t = false) entries ->
  exists listed, map_result (pick keys) entries = OK listed.
Proof.
  induction 1 as [|t entries N _ [listed IH]]; simpl; [now eexists|].
  unfold pick at 1. rewrite N, IH. now eexists.
Qed.

Lemma list_section_listing (section : string) (keys : list string)
    (state : value) (o : obj) :
  list_section section keys state = OK o ->
  exists entries listed,
    getProp state section = OK (VArr entries)
    /\ o = [(section, VArr listed)]
    /\ Forall2 (listing_of keys) entries listed.
Proof.
  unfold list_section.
  destruct (getProp state section) as [[]|]; try discriminate.
  destruct (map_result (pick keys) l) as [listed|] eqn:M; [|discriminate].
  intros [= <-]. exists l, listed.
  split; [reflexivity|]. split; [reflexivity|]. now apply map_result_pick.
Qed.

Lemma listing_hides (keys : list string) (t p : value) (k : string) :
  listing_of keys t p -> ~ In k keys -> getProp p k = OK VUndefined.
Proof.
  intros [_ [fields [-> [K _]]]] N. simpl.
  destruct (lookup k fields) eqn:L; [|reflexivity].
  apply lookup_some_in, (in_map fst) in L. simpl in L. now rewrite K in L.
Qed.

(** X5: the four list operations return one object with one property, the
    section's name, holding an array with one element per entry of the state,
    in the same order.  Each element has exactly the wire fields of its kind,
    with the entry's values; whatever else the entry holds, [href] included,
    is not in the listing. *)
Theorem listings_hold_wire_fields_only (state : value) (o : obj) :
  let listed_as section keys :=
    exists entries listed,
      getProp state section = OK (VArr entries)
      /\ o = [(section, VArr listed)]
      /\ Forall2 (listing_of keys) entries listed
      /\ Forall (fun p => getProp p "href" = OK VUndefined) listed in
  (mcpListTools state = OK o ->
   listed_as "tools" ["name"; "description"; "inputSchema"])
  /\ (mcpListPrompts state = OK o ->
      listed_as "prompts" ["name"; "description"; "arguments"])
  /\ (mcpListResources state = OK o ->
      listed_as "resources" ["uri"; "name"; "description"; "mimeType"])
  /\ (mcpListResourceTemplates state = OK o ->
      listed_as "resourceTemplates"
        ["uriTemplate"; "name"; "description"; "mimeType"]).
Proof.
  cbv zeta.
  assert (G : forall section keys,
             ~ In "href" keys ->
             list_section section keys state = OK o ->
             exists entries listed,
               getProp state section = OK (VArr entries)
               /\ o = [(section, VArr listed)]
               /\ Forall2 (listing_of keys) entries listed
               /\ Forall (fun p => getProp p "href" = OK VUndefined) listed).
  { intros section keys N L.
    destruct (list_section_listing _ _ _ _ L) as [entries [listed [S [E F]]]].
    exists entries, listed. repeat split; try assumption.
    clear S E. induction F as [|t p ts ps P _ IH]; constructor; [|exact IH].
    now apply (listing_hides keys t p). }
  repeat split; apply G; simpl; intuition discriminate.
Qed.

Lemma map_result_pick_null (keys : list string) (entries : list value) :
  Exists (fun t => nullish t = true) entries ->
  map_result (pick keys) entries = Throw TypeError.
Proof.
  induction 1 as [t ts N|t ts _ IH].
  - simpl. unfold pick. rewrite N. reflexivity.
  - simpl. rewrite IH. unfold pick. destruct (nullish t); reflexivity.
Qed.

(** X6: a list operation returns exactly when the section of the state is an
    array without [null] entries: it throws a [TypeError] on a state without
    the section (or with something else than an array there) and on an array
    with a [null] entry. *)
Theorem listings_fail_on_null_entries (state : value) (section : string)
    (keys : list string) :
  (forall entries,
      getProp state section = OK (VArr entries) ->
      (Forall (fun t => nullish t = false) entries ->
       exists o, list_section section keys state = OK o)
      /\ (Exists (fun t => nullish t = true) entries ->
          list_section section keys state = Throw TypeError))
  /\ (forall v,
        getProp state section = OK v ->
        (forall entries, v <> VArr entries) ->
        list_section section keys state = Throw TypeError).
Proof.
  unfold list_section. split.
  - intros entries ->. split.
    + intros F.
      destruct (map_result_pick_total keys entries F) as [listed ->].
      now eexists.
    + intros X. now rewrite (map_result_pick_null keys entries X).
  - intros v -> N. destruct v; try reflexivity. now elim (N l).
Qed.

(** ** Which errors come from where *)

Lemma getProp_throw (v : value) (k : string) (e : error) :
  getProp v k = Throw e -> e = TypeError.
Proof.
  destruct v; simpl; try discriminate; try congruence.
  destruct (lookup k o); discriminate.
Qed.

Lemma combineURLs_throw (b r : value) (e : error) :
  combineURLs b r = Throw e -> e = TypeError.
Proof.
  unfold combineURLs, as_string.
  destruct (truthy r); [|discriminate].
  destruct b; try congruence. destruct r; congruence.
Qed.

Lemma ToString_throw : forall (v : value) (e : error),
  ToString v = Throw e -> e = TypeError.
Proof.
  fix IH 1. intros v e. destruct v as [| |b|n|s|l|o]; simpl.
  - discriminate.
  - discriminate.
  - destruct b; discriminate.
  - discriminate.
  - discriminate.
  - match goal with
    | |- match ?f l with _ => _ end = _ -> _ =>
        assert (E : forall e', f l = Throw e' -> e' = TypeError)
    end.
    { induction l as [|x l IHl]; intros e'; [discriminate|].
      destruct (nullish x).
      - destruct ((fix elements (l0 : list value) : result (list string) := _) l)
          as [ss|e1] eqn:El; [discriminate|].
        intros [= <-]. now apply IHl.
      - destruct (ToString x) as [sx|ex] eqn:Ex.
        + destruct ((fix elements (l0 : list value) : result (list string) := _) l)
            as [ss|e1] eqn:El; [discriminate|].
          intros [= <-]. now apply IHl.
        + intros [= <-]. now apply (IH x). }
    destruct ((fix elements (l0 : list value) : result (list string) := _) l)
      as [ss|e1]; [discriminate|].
    intros [= <-]. now apply E.
  - destruct (has_key "toString" o); congruence.
Qed.

Lemma URLSearchParams_of_throw (o : obj) (e : error) :
  URLSearchParams_of o = Throw e -> e = TypeError.
Proof.
  induction o as [|[k v] o IH]; simpl; [discriminate|].
  destruct (ToString v) as [s|e1] eqn:T.
  - destruct (URLSearchParams_of o) as [ps|e2]; [discriminate|].
    intros [= <-]. now apply IH.
  - intros [= <-]. now apply (ToString_throw v).
Qed.

Lemma with_query_throw (url : value) (query : string) (e : error) :
  with_query url query = Throw e -> e = TypeError.
Proof.
  unfold with_query. destruct (ToString url) eqn:T; [discriminate|].
  intros [= <-]. now apply (ToString_throw url).
Qed.

Lemma js_find_throw (key target : string) (l : list value) (e : error) :
  js_find (prop_is key target) l = Throw e -> e = TypeError.
Proof.
  induction l as [|x l IH]; simpl; [discriminate|].
  unfold prop_is at 1. destruct (getProp x key) as [v|e1] eqn:G.
  - destruct (strict_eq_string v target); [discriminate | exact IH].
  - intros [= <-]. now apply (getProp_throw x key).
Qed.

Lemma array_find_throw (arr : value) (key target : string) (e : error) :
  array_find arr (prop_is key target) = Throw e -> e = TypeError.
Proof.
  destruct arr; simpl; try congruence. apply js_find_throw.
Qed.

(** An entry with the identity asked for, in an array without [null]
    entries, is enough for the lookup to find an entry. *)
Lemma js_find_finds (key target : string) (entries : list value) (t : value) :
  Forall (fun t => nullish t = false) entries ->
  In t entries ->
  getProp t key = OK (VStr target) ->
  exists x, js_find (prop_is key target) entries = OK x /\ truthy x = true.
Proof.
  induction 1 as [|y entries N _ IH]; simpl; [contradiction|].
  intros I G. unfold prop_is at 1.
  destruct (getProp y key) as [v|e] eqn:Gy.
  - destruct (strict_eq_string v target) eqn:S.
    + exists y. split; [reflexivity|].
      destruct y; simpl in *; try reflexivity; try discriminate Gy;
        injection Gy as <-; discriminate S.
    + destruct I as [->|I]; [|now apply IH].
      rewrite G in Gy. injection Gy as <-. simpl in S.
      now rewrite String.eqb_refl in S.
  - destruct y; simpl in *; try discriminate.
    destruct (lookup key o); discriminate.
Qed.

Ltac not_unknown :=
  repeat match goal with
  | E : getProp _ _ = Throw _ |- _ => apply getProp_throw in E; subst
  | E : combineURLs _ _ = Throw _ |- _ => apply combineURLs_throw in E; subst
  | E : array_find _ _ = Throw _ |- _ => apply array_find_throw in E; subst
  | E : URLSearchParams_of _ = Throw _ |- _ =>
      apply URLSearchParams_of_throw in E; subst
  | E : with_query _ _ = Throw _ |- _ => apply with_query_throw in E; subst
  | E : (if _ then _ else _) = Throw _ |- _ =>
      match type of E with
      | (if ?c then _ else _) = _ => destruct c
      end
  | E : OK _ = Throw _ |- _ => discriminate E
  | E : Throw _ = Throw _ |- _ => injection E as <-
  end; try reflexivity.

Lemma response_throws_are_not_unknown (res : Response) (name : string)
    (e : error) :
  (callTool_response res = Throw e -> is_unknown e = false)
  /\ (getPrompt_response name res = Throw e -> is_unknown e = false)
  /\ (readResource_response name res = Throw e -> is_unknown e = false).
Proof.
  unfold callTool_response, getPrompt_response, readResource_response,
    handleHttpError, toMCPContent, json_of, body_read, rbind.
  repeat split; intros E; unbind E; try discriminate;
    injection E as <-; reflexivity.
Qed.

Lemma callTool_request_unknown (state : value) (name : string) (args : value)
    (e : error) :
  callTool_request state name args = Throw e ->
  is_unknown e = true ->
  exists tools tool,
    getProp state "tools" = OK tools
    /\ array_find tools (prop_is "name" name) = OK tool
    /\ truthy tool = false.
Proof.
  unfold callTool_request, rbind. intros E U. unbind E;
    try (not_unknown; discriminate U).
  injection E as <-. eexists _, _. repeat split; try eassumption.
  now destruct (truthy a0).
Qed.

Lemma getPrompt_request_unknown (state : value) (name : string) (args : value)
    (e : error) :
  getPrompt_request state name args = Throw e ->
  is_unknown e = true ->
  exists prompts prompt,
    getProp state "prompts" = OK prompts
    /\ array_find prompts (prop_is "name" name) = OK prompt
    /\ truthy prompt = false.
Proof.
  unfold getPrompt_request, prompt_params, rbind. intros E U. unbind E;
    try (not_unknown; discriminate U).
  injection E as <-. eexists _, _. repeat split; try eassumption.
  now destruct (truthy a0).
Qed.

Lemma readResource_request_unknown (state : value) (uri : string)
    (args : value) (e : error) :
  readResource_request state uri args = Throw e ->
  is_unknown e = true ->
  exists resources resource,
    getProp state "resources" = OK resources
    /\ array_find resources (prop_is "uri" uri) = OK resource
    /\ truthy resource = false.
Proof.
  unfold readResource_request, rbind. intros E U. unbind E;
    try (not_unknown; discriminate U).
  injection E as <-. eexists _, _. repeat split; try eassumption.
  now destruct (truthy a0).
Qed.

Lemma exchange_throw_inv (http : HttpClient) r k log (e : error) log' :
  exchange http r k log = (Throw e, log') ->
  r = Throw e
  \/ (exists msg, e = CollaboratorError msg)
  \/ (exists res, k res = Throw e).
Proof.
  unfold exchange. destruct r as [req|e']; [|intros [= <- _]; now left].
  destruct (http log req) as [res|msg]; intros [= E _].
  - right. right. now exists res.
  - right. left. now exists msg.
Qed.

Lemma listed_entry (keys : list string) (entries listed : list value)
    (p : value) (key target : string) :
  Forall2 (listing_of keys) entries listed ->
  In key keys ->
  In p listed ->
  getProp p key = OK (VStr target) ->
  Forall (fun t => nullish t = false) entries
  /\ exists t, In t entries /\ getProp t key = OK (VStr target).
Proof.
  intros F K I G. split.
  - clear I G. induction F as [|t q ts qs [N _] _ IH]; constructor; assumption.
  - induction F as [|t q ts qs L _ IH]; [contradiction|].
    destruct I as [->|I].
    + exists t. split; [now left|].
      destruct L as [N [fields [-> [_ V]]]].
      simpl in G. rewrite (V key K) in G. injection G as G.
      unfold field in G.
      destruct (getProp t key) as [v|e] eqn:Gt; congruence.
    + destruct (IH I) as [t' [I' G']]. exists t'. split; [now right|exact G'].
Qed.

(** X7: listing and lookup agree: a name (or URI) that a list operation shows is
    never answered with [UnknownTool], [UnknownPrompt] or [UnknownResource] by
    the dispatcher of its section, whatever the collaborator does. *)
Theorem listed_names_are_known
    (http : HttpClient) (state : value) (o : obj) (listed : list value)
    (p : value) (id : string) (args : value) (log : list Request)
    (e : error) :
  In p listed ->
  (mcpListTools state = OK o ->
   lookup "tools" o = Some (VArr listed) ->
   getProp p "name" = OK (VStr id) ->
   fst (mcpCallTool http state id args log) = Throw e ->
   is_unknown e = false)
  /\ (mcpListPrompts state = OK o ->
      lookup "prompts" o = Some (VArr listed) ->
      getProp p "name" = OK (VStr id) ->
      fst (mcpGetPrompt http state id args log) = Throw e ->
      is_unknown e = false)
  /\ (mcpListResources state = OK o ->
      lookup "resources" o = Some (VArr listed) ->
      getProp p "uri" = OK (VStr id) ->
      fst (mcpReadResource http state id args log) = Throw e ->
      is_unknown e = false).
Proof.
  intros I.
  split; [|split]; intros L Lo G T;
    apply list_section_listing in L;
    destruct L as [entries [listed' [S [-> F]]]];
    simpl in Lo; injection Lo as <-;
    (destruct (listed_entry _ _ _ p _ id F ltac:(simpl; tauto) I G)
      as [N [t [It Gt]]]);
    destruct (js_find_finds _ id entries t N It Gt) as [x [Fx Tx]];
    destruct (is_unknown e) eqn:U; try reflexivity; exfalso.
  - rewrite mcpCallTool_exchange in T.
    destruct (exchange http _ _ log) as [r log'] eqn:X. simpl in T. subst r.
    destruct (exchange_throw_inv _ _ _ _ _ _ X) as [R|[[msg ->]|[res K]]].
    + destruct (callTool_request_unknown _ _ _ _ R U)
        as [tools [tool [St [Ft Tt]]]].
      rewrite S in St. injection St as <-. simpl in Ft. congruence.
    + discriminate U.
    + apply (proj1 (response_throws_are_not_unknown res id e)) in K.
      congruence.
  - rewrite mcpGetPrompt_exchange in T.
    destruct (exchange http _ _ log) as [r log'] eqn:X. simpl in T. subst r.
    destruct (exchange_throw_inv _ _ _ _ _ _ X) as [R|[[msg ->]|[res K]]].
    + destruct (getPrompt_request_unknown _ _ _ _ R U)
        as [tools [tool [St [Ft Tt]]]].
      rewrite S in St. injection St as <-. simpl in Ft. congruence.
    + discriminate U.
    + apply (proj1 (proj2 (response_throws_are_not_unknown res id e))) in K.
      congruence.
  - rewrite mcpReadResource_exchange in T.
    destruct (exchange http _ _ log) as [r log'] eqn:X. simpl in T. subst r.
    destruct (exchange_throw_inv _ _ _ _ _ _ X) as [R|[[msg ->]|[res K]]].
    + destruct (readResource_request_unknown _ _ _ _ R U)
        as [tools [tool [St [Ft Tt]]]].
      rewrite S in St. injection St as <-. simpl in Ft. congruence.
    + discriminate U.
    + apply (proj2 (proj2 (response_throws_are_not_unknown res id e))) in K.
      congruence.
Qed.

(** ** The requests of the tool and prompt dispatchers *)

Lemma ok_passes_auth (res : Response) :
  ok res = true -> handleHttpError res = OK tt.
Proof.
  unfold ok. intros O. apply andb_prop in O. destruct O as [O1 O2].
  apply Nat.leb_le in O1, O2. apply handleHttpError_pass; lia.
Qed.

(** X8: for a state whose tools hold an entry with the name asked for and whose
    [toolsUrl] is a string, [mcpCallTool] issues exactly one request: a POST
    of the arguments, as they are, with the headers of the state.  The URL is
    [toolsUrl] resolved against the [href] of the entry when it has one, and
    against its name when [href] is absent or [null].  An empty [href] is
    still an [href]: the POST then goes to [toolsUrl] itself.  An [href] that
    is truthy and no string makes the call throw before any request. *)
Theorem callTool_request_shape
    (http : HttpClient) (state : value) (name : string) (args : value)
    (log : list Request) (entries : list value) (tool : value) (T : string) :
  getProp state "tools" = OK (VArr entries) ->
  first_entry "name" name entries tool ->
  getProp state "toolsUrl" = OK (VStr T) ->
  let requests := snd (mcpCallTool http state name args log) in
  exists headers,
    getProp state "headers" = OK headers
    /\ (forall href, getProp tool "href" = OK href -> nullish href = true ->
          exists U, combineURLs (VStr T) (VStr name) = OK U
                    /\ requests = (log ++ [mkPOST U args headers])%list)
    /\ (forall h, getProp tool "href" = OK (VStr h) ->
          exists U, combineURLs (VStr T) (VStr h) = OK U
                    /\ requests = (log ++ [mkPOST U args headers])%list)
    /\ (getProp tool "href" = OK (VStr EmptyString) ->
        requests = (log ++ [mkPOST (VStr T) args headers])%list)
    /\ (forall href, getProp tool "href" = OK href ->
          truthy href = true -> (forall s, href <> VStr s) ->
          mcpCallTool http state name args log = (Throw TypeError, log)).
Proof.
  intros Es F Eu. cbv zeta.
  destruct (js_find_first_entry _ _ _ _ F) as [Ff Ft].
  destruct (getProp_total state "tools" "headers" _ Es) as [headers Eh].
  destruct F as [pre [post [_ [_ En]]]].
  exists headers. split; [exact Eh|].
  rewrite mcpCallTool_exchange, exchange_log.
  unfold callTool_request.
  rewrite Es. simpl. rewrite Ff. simpl. rewrite Ft. simpl.
  repeat split.
  - intros href Ehref N. rewrite Ehref. simpl. rewrite N, En. simpl.
    rewrite Eu. simpl.
    destruct name as [|c name']; simpl; rewrite Eh; simpl; now eexists.
  - intros h Ehref. rewrite Ehref. simpl. rewrite Eu. simpl.
    destruct h as [|c h']; simpl; rewrite Eh; simpl; now eexists.
  - intros Ehref. rewrite Ehref. simpl. rewrite Eu. simpl. now rewrite Eh.
  - intros href Ehref Th Ns. rewrite Ehref. simpl.
    assert (N : nullish href = false) by (destruct href; simpl in *; congruence).
    rewrite N. simpl. rewrite Eu. simpl.
    unfold combineURLs. rewrite Th. simpl.
    destruct href; try reflexivity. now elim (Ns s).
Qed.

(** *** The query of a prompt read *)

Lemma urlencode_pair_nonempty (kv : string * string) :
  string_is_empty (urlencode_pair kv) = false.
Proof.
  unfold urlencode_pair. destruct (urlencode (fst kv)); reflexivity.
Qed.

Lemma join_nonempty (sep x : string) (l : list string) :
  string_is_empty x = false -> string_is_empty (join sep (x :: l)) = false.
Proof.
  intros N. simpl. destruct l; [exact N|]. now destruct x.
Qed.

(** The serialized query is empty exactly when there is no parameter. *)
Lemma URLSearchParams_toString_empty (params : list (string * string)) :
  string_is_empty (URLSearchParams_toString params)
  = match params with [] => true | _ => false end.
Proof.
  destruct params as [|p ps]; [reflexivity|].
  unfold URLSearchParams_toString. simpl map.
  apply join_nonempty, urlencode_pair_nonempty.
Qed.

(** X9: for a state whose prompts hold an entry with the name asked for and
    whose [promptsUrl] is a string, [mcpGetPrompt] issues exactly one GET with
    the headers of the state.  Its URL is the prompt's URL alone when the
    arguments have no entry (an empty object, or anything that is no object:
    [undefined], [null], a string, a number), and the prompt's URL, a
    question mark and the query otherwise; the query has one parameter per
    property of the arguments, in their order. *)
Theorem getPrompt_request_shape
    (http : HttpClient) (state : value) (name : string) (args : value)
    (log : list Request) (entries : list value) (prompt href : value)
    (P B : string) (params : list (string * string)) :
  getProp state "prompts" = OK (VArr entries) ->
  first_entry "name" name entries prompt ->
  getProp state "promptsUrl" = OK (VStr P) ->
  getProp prompt "href" = OK href ->
  combineURLs (VStr P) (if nullish href then VStr name else href)
  = OK (VStr B) ->
  prompt_params args = OK params ->
  (exists headers,
      getProp state "headers" = OK headers
      /\ snd (mcpGetPrompt http state name args log)
         = (log ++ [mkGET (VStr match params with
                                 | [] => B
                                 | _ => B ++ "?" ++ URLSearchParams_toString params
                                 end) headers])%list)
  /\ (truthy args && typeof_object args = false -> params = [])
  /\ (forall o, args = VObj o -> map fst params = map fst o).
Proof.
  intros Es F Eu Ehref Eb Ep.
  destruct (js_find_first_entry _ _ _ _ F) as [Ff Ft].
  destruct (getProp_total state "prompts" "headers" _ Es) as [headers Eh].
  destruct F as [pre [post [_ [_ En]]]].
  split; [|split].
  - exists headers. split; [exact Eh|].
    rewrite mcpGetPrompt_exchange, exchange_log.
    unfold getPrompt_request.
    rewrite Es. simpl. rewrite Ff. simpl. rewrite Ft. simpl.
    rewrite Ehref. simpl.
    assert (Epath : (if nullish href then getProp prompt "name" else OK href)
                    = OK (if nullish href then VStr name else href)).
    { destruct (nullish href); [exact En | reflexivity]. }
    rewrite Epath. simpl. rewrite Eu. simpl. rewrite Eb. simpl.
    rewrite Ep. simpl. rewrite URLSearchParams_toString_empty.
    destruct params; simpl; rewrite Eh; reflexivity.
  - intros N. unfold prompt_params in Ep. rewrite N in Ep. congruence.
  - intros o ->. unfold prompt_params in Ep. simpl in Ep.
    now apply URLSearchParams_of_keys.
Qed.

(** ** The result of a tool call *)

Lemma js_set_new_key (k : string) (v : value) (o : obj) :
  has_key k o = false -> array_index k = None ->
  js_set k v o = (o ++ [(k, v)])%list.
Proof. intros K A. unfold js_set. now rewrite K, A. Qed.

(** X10: when the transcoder succeeds on the response of a tool call, a status in
    200-299 gives its content as it is, and any other status (401 and 403
    apart) gives that content with [isError] set to [true], whatever the
    upstream object had there, and nothing else changed: every other property
    keeps its value and its place, [isError] keeps its place when the
    upstream object had one and is appended when it had none. *)
Theorem callTool_result_frame
    (http : HttpClient) (state : value) (name : string) (args : value)
    (log : list Request) (req : Request) (res : Response) (content : obj) :
  snd (mcpCallTool http state name args log) = (log ++ [req])%list ->
  http log req = Resolved res ->
  toMCPContent res = OK content ->
  (ok res = true -> fst (mcpCallTool http state name args log) = OK content)
  /\ (upstream_failure res ->
      exists r,
        fst (mcpCallTool http state name args log) = OK r
        /\ lookup "isError" r = Some (VBool true)
        /\ (forall k, k <> "isError" -> lookup k r = lookup k content)
        /\ (has_key "isError" content = true ->
            map fst r = map fst content)
        /\ (has_key "isError" content = false ->
            r = (content ++ [("isError", VBool true)])%list)).
Proof.
  intros L R T. rewrite mcpCallTool_exchange in *.
  apply exchange_issued in L. rewrite L, (exchange_resolved _ _ _ _ _ R).
  cbn [fst]. unfold callTool_response, rbind. split.
  - intros O. now rewrite (ok_passes_auth res O), T, O.
  - intros [U1 [U2 U3]]. rewrite (handleHttpError_pass _ U2 U3), T, U1. simpl.
    eexists. split; [reflexivity|]. repeat split.
    + rewrite lookup_js_set. now rewrite String.eqb_refl.
    + intros k N. rewrite lookup_js_set.
      destruct (String.eqb_spec "isError" k); [congruence | reflexivity].
    + intros K. unfold js_set. rewrite K. apply replace_prop_keys.
    + intros K. now apply js_set_new_key.
Qed.

(** ** More on the initializer *)

Lemma section_request_length (b h : value) (name : string) (mv : value) :
  length (section_request b h name mv) <= 1
  /\ Forall (fun r => req_method r = GET) (section_request b h name mv).
Proof.
  unfold section_request. destruct (truthy mv); [|split; [simpl; lia|constructor]].
  destruct (combineURLs b (section_path name mv)); simpl; split;
    try lia; repeat constructor.
Qed.

(** X11: whatever the configuration and the collaborator, [initializeServerState]
    issues at most five requests, all of them GETs, and it issues a second
    one only after the first, the manifest's, was answered with a status in
    200-299 and a body that is a JSON value other than [null]; a state is
    returned only after at least one request. *)
Theorem initialize_request_budget
    (http : HttpClient) (order : list nat) (config : value)
    (log : list Request) :
  exists issued,
    snd (initializeServerState http order config log) = (log ++ issued)%list
    /\ length issued <= 5
    /\ Forall (fun r => req_method r = GET) issued
    /\ (forall r rest, issued = r :: rest -> rest <> [] ->
          exists res manifest,
            http log r = Resolved res /\ ok res = true
            /\ res_json res = Some manifest /\ nullish manifest = false)
    /\ (forall st, fst (initializeServerState http order config log) = OK st ->
          issued <> []).
Proof.
  destruct (getProp config "baseUrl") as [b|e] eqn:Eb.
  2: { exists []. unfold initializeServerState, bind, lift. rewrite Eb. simpl.
       rewrite app_nil_r. repeat split; try constructor; try discriminate.
       simpl; lia. }
  destruct (getProp config "headers") as [h|e] eqn:Eh.
  2: { exists []. unfold initializeServerState, bind, lift.
       rewrite Eb, Eh. simpl.
       rewrite app_nil_r. repeat split; try constructor; try discriminate.
       simpl; lia. }
  assert (One : forall e,
            initializeServerState http order config log
            = (Throw e, (log ++ [mkGET b h])%list) ->
            exists issued,
              snd (initializeServerState http order config log)
              = (log ++ issued)%list
              /\ length issued <= 5
              /\ Forall (fun r => req_method r = GET) issued
              /\ (forall r rest, issued = r :: rest -> rest <> [] ->
                    exists res manifest,
                      http log r = Resolved res /\ ok res = true
                      /\ res_json res = Some manifest
                      /\ nullish manifest = false)
              /\ (forall st,
                    fst (initializeServerState http order config log) = OK st ->
                    issued <> [])).
  { intros e E. exists [mkGET b h]. rewrite E. simpl.
    repeat split; try lia; try (repeat constructor); try discriminate.
    intros r rest [= _ <-] N. now elim N. }
  destruct (http log (mkGET b h)) as [mres|msg] eqn:Em.
  2: { apply (One (CollaboratorError msg)).
       unfold initializeServerState, bind, lift, getUrl.
       now rewrite Eb, Eh, Em. }
  destruct (ok mres) eqn:Eok.
  2: { apply (One (ManifestFetchFailed (status mres) (statusText mres))).
       unfold initializeServerState, bind, lift, getUrl, throw.
       now rewrite Eb, Eh, Em, Eok. }
  destruct (res_json mres) as [manifest|] eqn:Ej.
  2: { apply (One (CollaboratorError "Response is not JSON")).
       unfold initializeServerState, bind, lift, getUrl, json_of.
       now rewrite Eb, Eh, Em, Eok, Ej. }
  destruct (nullish manifest) eqn:En.
  { apply (One TypeError).
    unfold initializeServerState, section_promise, bind, lift, getUrl, json_of.
    rewrite Eb, Eh, Em, Eok, Ej. simpl.
    destruct manifest; try discriminate; reflexivity. }
  eexists. split.
  - apply (initialize_log http order config log b h mres manifest
             Eb Eh Em Eok Ej En).
  - unfold section_names. cbn [flat_map]. rewrite app_nil_r.
    repeat split.
    + simpl. rewrite !length_app.
      pose proof (proj1 (section_request_length b h "tools"
                           (manifest_field manifest "tools"))).
      pose proof (proj1 (section_request_length b h "prompts"
                           (manifest_field manifest "prompts"))).
      pose proof (proj1 (section_request_length b h "resources"
                           (manifest_field manifest "resources"))).
      pose proof (proj1 (section_request_length b h "resourceTemplates"
                           (manifest_field manifest "resourceTemplates"))).
      lia.
    + constructor; [reflexivity|]. rewrite !Forall_app.
      repeat split; apply section_request_length.
    + intros r rest [= <- _] _. now exists mres, manifest.
    + discriminate.
Qed.

(** *** What the state keeps of each section *)

Lemma combineURLs_nonempty (b r u : value) :
  truthy r = true -> combineURLs b r = OK u ->
  exists s, u = VStr s /\ s <> EmptyString.
Proof.
  unfold combineURLs, as_string. intros ->.
  destruct b; try discriminate. destruct r; try discriminate.
  intros [= <-]. eexists. split; [reflexivity|].
  destruct (strip_trailing_slashes s); discriminate.
Qed.

Lemma section_path_truthy (name : string) (mv : value) :
  In name section_names -> truthy mv = true ->
  truthy (section_path name mv) = true.
Proof.
  intros I T. destruct mv; simpl in *; try exact T;
    destruct I as [<-|[<-|[<-|[<-|[]]]]]; reflexivity.
Qed.

Lemma section_outcome_ok_detail (http : HttpClient) log b h name mv s :
  section_outcome http log b h name mv = OK s ->
  truthy mv = true ->
  exists url res json,
    combineURLs b (section_path name mv) = OK url
    /\ section_request b h name mv = [mkGET url h]
    /\ http log (mkGET url h) = Resolved res
    /\ ok res = true
    /\ res_json res = Some json
    /\ s = [(name, json); (name ++ "Url", url)].
Proof.
  unfold section_outcome, section_request, rbind, json_of. intros E T.
  rewrite T in *. simpl in E.
  destruct (combineURLs b (section_path name mv)) as [url|]; [|discriminate].
  destruct (http log (mkGET url h)) as [res|] eqn:R; [|discriminate].
  destruct (ok res) eqn:O; simpl in E; [|discriminate].
  destruct (res_json res) as [j|] eqn:J; [|discriminate].
  injection E as <-. now exists url, res, j.
Qed.

(** The four section promises, one after the other. *)
Lemma run_sections_four (http : HttpClient) b h m log :
  let f n := manifest_field m n in
  let L1 := (log ++ section_request b h "tools" (f "tools"))%list in
  let L2 := (L1 ++ section_request b h "prompts" (f "prompts"))%list in
  let L3 := (L2 ++ section_request b h "resources" (f "resources"))%list in
  let L4 := (L3 ++ section_request b h "resourceTemplates"
                     (f "resourceTemplates"))%list in
  run_sections http b h m section_names log
  = ([section_outcome http log b h "tools" (f "tools");
      section_outcome http L1 b h "prompts" (f "prompts");
      section_outcome http L2 b h "resources" (f "resources");
      section_outcome http L3 b h "resourceTemplates" (f "resourceTemplates")],
     L4).
Proof.
  cbv zeta. unfold section_names. simpl.
  now rewrite !fetchManifestSection_view.
Qed.

Lemma initialize_section_kept
    (http : HttpClient) (order : list nat) (config : value)
    (log : list Request) (b h : value) (mres : Response) (manifest : value)
    (st : obj) (log' : list Request) (name : string) :
  getProp config "baseUrl" = OK b ->
  getProp config "headers" = OK h ->
  http log (mkGET b h) = Resolved mres ->
  ok mres = true ->
  res_json mres = Some manifest ->
  initializeServerState http order config log = (OK st, log') ->
  In name section_names ->
  truthy (manifest_field manifest name) = true ->
  exists url u json pre post res,
    combineURLs b (section_path name (manifest_field manifest name)) = OK url
    /\ url = VStr u /\ u <> EmptyString
    /\ log' = (log ++ pre ++ mkGET url h :: post)%list
    /\ http (log ++ pre)%list (mkGET url h) = Resolved res
    /\ ok res = true
    /\ res_json res = Some json
    /\ lookup name st = Some json
    /\ lookup (name ++ "Url") st = Some url.
Proof.
  intros Eb Eh Em Eok Ej E I T.
  pose proof (manifest_field_not_nullish _ _ T) as En.
  rewrite (initialize_view http order config log b h mres manifest
             Eb Eh Em Eok Ej En) in E.
  rewrite run_sections_four in E. cbv zeta in E. cbn [fst snd] in E.
  injection E as E <-. unfold rbind in E.
  destruct (Promise_all order _) as [sections|] eqn:P; [|discriminate].
  injection E as <-.
  apply Promise_all_ok in P.
  destruct sections as [|s1 [|s2 [|s3 [|s4 [|]]]]]; try discriminate P.
  injection P as O1 O2 O3 O4.
  pose proof (section_outcome_ok _ _ _ _ _ _ _ O1) as C1.
  pose proof (section_outcome_ok _ _ _ _ _ _ _ O2) as C2.
  pose proof (section_outcome_ok _ _ _ _ _ _ _ O3) as C3.
  pose proof (section_outcome_ok _ _ _ _ _ _ _ O4) as C4.
  pose proof (section_path_truthy name _ I T) as Tp.
  destruct I as [<-|[<-|[<-|[<-|[]]]]].
  - destruct (section_outcome_ok_detail _ _ _ _ _ _ _ O1 T)
      as [url [res [json [U [Rq [R [O [J ->]]]]]]]].
    destruct (combineURLs_nonempty _ _ _ Tp U) as [u [-> Nu]].
    exists (VStr u), u, json, [mkGET b h].
    eexists. exists res.
    rewrite Rq. clear C1.
    repeat split; try assumption.
    + repeat rewrite <- app_assoc. simpl. reflexivity.
    + contributions; reflexivity.
    + contributions; reflexivity.
  - destruct (section_outcome_ok_detail _ _ _ _ _ _ _ O2 T)
      as [url [res [json [U [Rq [R [O [J ->]]]]]]]].
    destruct (combineURLs_nonempty _ _ _ Tp U) as [u [-> Nu]].
    exists (VStr u), u, json,
      (mkGET b h :: section_request b h "tools" (manifest_field manifest "tools")).
    eexists. exists res.
    rewrite Rq. clear C2.
    repeat split; try assumption.
    + repeat rewrite <- app_assoc. simpl. repeat rewrite <- app_assoc. reflexivity.
    + rewrite <- R. f_equal. now rewrite <- app_assoc.
    + contributions; reflexivity.
    + contributions; reflexivity.
  - destruct (section_outcome_ok_detail _ _ _ _ _ _ _ O3 T)
      as [url [res [json [U [Rq [R [O [J ->]]]]]]]].
    destruct (combineURLs_nonempty _ _ _ Tp U) as [u [-> Nu]].
    exists (VStr u), u, json,
      (mkGET b h :: section_request b h "tools" (manifest_field manifest "tools")
         ++ section_request b h "prompts" (manifest_field manifest "prompts"))%list.
    eexists. exists res.
    rewrite Rq. clear C3.
    repeat split; try assumption.
    + repeat rewrite <- app_assoc. simpl. repeat rewrite <- app_assoc. reflexivity.
    + rewrite <- R. f_equal. repeat rewrite <- app_assoc. reflexivity.
    + contributions; reflexivity.
    + contributions; reflexivity.
  - destruct (section_outcome_ok_detail _ _ _ _ _ _ _ O4 T)
      as [url [res [json [U [Rq [R [O [J ->]]]]]]]].
    destruct (combineURLs_nonempty _ _ _ Tp U) as [u [-> Nu]].
    exists (VStr u), u, json,
      (mkGET b h :: section_request b h "tools" (manifest_field manifest "tools")
         ++ section_request b h "prompts" (manifest_field manifest "prompts")
         ++ section_request b h "resources"
              (manifest_field manifest "resources"))%list.
    exists []. exists res.
    rewrite Rq. clear C4.
    repeat split; try assumption.
    + repeat rewrite <- app_assoc. simpl. repeat rewrite <- app_assoc. reflexivity.
    + rewrite <- R. f_equal. repeat rewrite <- app_assoc. reflexivity.
    + contributions; reflexivity.
    + contributions; reflexivity.
Qed.


(** *** From the initialization to a tool call *)

Lemma string_app_assoc (a b c : string) : (a ++ b) ++ c = a ++ b ++ c.
Proof. induction a as [|x a IH]; simpl; [reflexivity | now rewrite IH]. Qed.

Lemma strip_trailing_slashes_app (s t : string) :
  t <> EmptyString -> last_char t <> Some slash ->
  strip_trailing_slashes (s ++ t) = s ++ t.
Proof.
  intros N L. induction s as [|c s IH]; simpl.
  - now apply strip_trailing_slashes_id.
  - rewrite IH. destruct (s ++ t) eqn:E.
    + destruct s; simpl in E; [now elim N | discriminate].
    + simpl. now rewrite andb_false_r.
Qed.

Lemma initialized_state_headers (http : HttpClient) order config log st log' :
  initializeServerState http order config log = (OK st, log') ->
  getProp (VObj st) "headers" = OK VUndefined.
Proof.
  intros E.
  destruct (initialize_ok_state http order config log st log' E)
    as [manifest [s1 [s2 [s3 [s4 [-> [C1 [C2 [C3 C4]]]]]]]]].
  contributions; reflexivity.
Qed.

(** X13: a tool listed by the upstream server is called below the tools URL of
    the initialization: after a successful [initializeServerState], the POST of
    [mcpCallTool] goes to the base URL resolved against the tools path and then
    against the [href] of the tool, or its name when it has no [href].  With
    the default path that is [<base>/tools/<name>]. *)
Theorem initialized_tool_call_url
    (http : HttpClient) (order : list nat) (config : value)
    (log : list Request) (b h : value) (mres : Response) (manifest : value)
    (st : obj) (log' : list Request) (entries : list value)
    (tool href : value) (name : string) (args : value)
    (log1 : list Request) :
  getProp config "baseUrl" = OK b ->
  getProp config "headers" = OK h ->
  http log (mkGET b h) = Resolved mres ->
  ok mres = true ->
  res_json mres = Some manifest ->
  initializeServerState http order config log = (OK st, log') ->
  truthy (manifest_field manifest "tools") = true ->
  lookup "tools" st = Some (VArr entries) ->
  first_entry "name" name entries tool ->
  getProp tool "href" = OK href ->
  exists toolsUrl,
    combineURLs b (section_path "tools" (manifest_field manifest "tools"))
    = OK toolsUrl
    /\ (forall U,
          combineURLs toolsUrl (if nullish href then VStr name else href)
          = OK U ->
          snd (mcpCallTool http (VObj st) name args log1)
          = (log1 ++ [mkPOST U args VUndefined])%list)
    /\ (forall base,
          b = VStr base ->
          manifest_field manifest "tools" = VBool true ->
          nullish href = true ->
          name <> EmptyString ->
          snd (mcpCallTool http (VObj st) name args log1)
          = (log1 ++ [mkPOST (VStr (strip_trailing_slashes base ++ "/tools/"
                                      ++ strip_leading_slashes name))
                        args VUndefined])%list).
Proof.
  intros Eb Eh Em Eok Ej E T Lt F Ehref.
  destruct (initialize_section_kept http order config log b h mres manifest
              st log' "tools" Eb Eh Em Eok Ej E ltac:(simpl; tauto) T)
    as [url [u [json [pre [post [res [U [-> [Nu [_ [_ [_ [_ [_ Lu]]]]]]]]]]]]]].
  pose proof (initialized_state_headers http order config log st log' E) as Hd.
  destruct (js_find_first_entry _ _ _ _ F) as [Ff Ft].
  destruct F as [pre' [post' [_ [_ En]]]].
  assert (R : forall V,
            combineURLs (VStr u) (if nullish href then VStr name else href)
            = OK V ->
            snd (mcpCallTool http (VObj st) name args log1)
            = (log1 ++ [mkPOST V args VUndefined])%list).
  { intros V EV. rewrite mcpCallTool_exchange, exchange_log.
    unfold callTool_request. simpl getProp. simpl in Lu.
    rewrite Lt, Lu. simpl. rewrite Ff. simpl. rewrite Ft. simpl.
    rewrite Ehref. simpl.
    assert (Epath : (if nullish href then getProp tool "name" else OK href)
                    = OK (if nullish href then VStr name else href)).
    { destruct (nullish href); [exact En | reflexivity]. }
    rewrite Epath. simpl. rewrite EV. simpl.
    simpl in Hd. now rewrite Hd. }
  exists (VStr u). split; [exact U|]. split; [exact R|].
  intros base -> Mt N Nn. apply R. rewrite N.
  rewrite Mt in U. simpl in U. injection U as <-.
  unfold combineURLs. simpl.
  destruct name as [|c name']; [now elim Nn|]. simpl string_is_empty. simpl negb.
  cbn iota. do 2 f_equal.
  change (strip_trailing_slashes base ++ "/" ++ "tools")
    with (strip_trailing_slashes base ++ "/tools").
  rewrite strip_trailing_slashes_app; [|discriminate|discriminate].
  rewrite string_app_assoc. reflexivity.
Qed.

(** * Properties of main.mjs *)

Lemma section_outcome_ok_url (http : HttpClient) log b h name mv s :
  In name section_names ->
  section_outcome http log b h name mv = OK s ->
  section_contribution_url name mv s.
Proof.
  intros I O. destruct (truthy mv) eqn:T.
  - right. split; [exact T|].
    destruct (section_outcome_ok_detail _ _ _ _ _ _ _ O T)
      as [url [res [json [U [_ [_ [_ [_ ->]]]]]]]].
    destruct (combineURLs_nonempty _ _ _ (section_path_truthy name mv I T) U)
      as [u [-> Nu]].
    now exists json, u.
  - left. split; [exact T|].
    unfold section_outcome in O. rewrite T in O. simpl in O. congruence.
Qed.

Lemma initialize_ok_state_urls (http : HttpClient) order config log st log' :
  initializeServerState http order config log = (OK st, log') ->
  exists manifest s1 s2 s3 s4,
    st = assemble config manifest [s1; s2; s3; s4]
    /\ nullish manifest = false
    /\ section_contribution_url "tools" (manifest_field manifest "tools") s1
    /\ section_contribution_url "prompts"
         (manifest_field manifest "prompts") s2
    /\ section_contribution_url "resources"
         (manifest_field manifest "resources") s3
    /\ section_contribution_url "resourceTemplates"
         (manifest_field manifest "resourceTemplates") s4.
Proof.
  intros E.
  destruct (initialize_ok_inv http order config log st log' E)
    as [b [h [mres [manifest [Eb [Eh [Em [Eok [Ej En]]]]]]]]].
  rewrite (initialize_view http order config log b h mres manifest
             Eb Eh Em Eok Ej En) in E.
  rewrite run_sections_four in E. cbv zeta in E. cbn [fst snd] in E.
  injection E as E _. unfold rbind in E.
  destruct (Promise_all order _) as [sections|] eqn:P; [|discriminate].
  injection E as <-.
  apply Promise_all_ok in P.
  destruct sections as [|s1 [|s2 [|s3 [|s4 [|]]]]]; try discriminate P.
  injection P as O1 O2 O3 O4.
  exists manifest, s1, s2, s3, s4. split; [reflexivity|].
  split; [exact En|].
  split; [|split; [|split]].
  - apply (section_outcome_ok_url _ _ _ _ _ _ _ (or_introl eq_refl) O1).
  - apply (section_outcome_ok_url _ _ _ _ _ _ _
             (or_intror (or_introl eq_refl)) O2).
  - apply (section_outcome_ok_url _ _ _ _ _ _ _
             (or_intror (or_intror (or_introl eq_refl))) O3).
  - apply (section_outcome_ok_url _ _ _ _ _ _ _
             (or_intror (or_intror (or_intror (or_introl eq_refl)))) O4).
Qed.

Ltac contributions_url :=
  repeat match goal with
  | C : section_contribution_url _ _ _ |- _ =>
      destruct C as [[? ->]|[? [? [[|? ?] [? ->]]]]]; [| congruence |]
  end.

(** X14: the server that [toMCPServer] builds advertises a capability exactly for
    the sections it registers handlers for: of [tools], [prompts] and
    [resources], those whose listing the initialization fetched and found
    truthy.  Resource templates are never advertised and get no handler, even
    when the manifest declares them; the server takes its name and version
    from the manifest; and building it issues no request beyond those of the
    initialization. *)
Theorem server_advertises_what_it_serves
    (fetch : Fetch) (order : list nat) (config : value)
    (log : list Request) (server : Server) (log' : list Request) :
  toMCPServer fetch order config log = (OK server, log') ->
  exists st manifest,
    initializeServerState (defaultHttpClient fetch) order config log
    = (OK st, log')
    /\ lookup "manifest" st = Some manifest
    /\ serverInfo server
       = [("name", field manifest "name"); ("version", field manifest "version")]
    /\ (forall section list call,
          In (section, list, call)
            [("tools", ListToolsRequestSchema, CallToolRequestSchema);
             ("prompts", ListPromptsRequestSchema, GetPromptRequestSchema);
             ("resources", ListResourcesRequestSchema,
              ReadResourceRequestSchema)] ->
          (has_key section (capabilities server) = true
           <-> truthy (field (VObj st) section) = true)
          /\ (In list (handlers server)
              <-> has_key section (capabilities server) = true)
          /\ (In call (handlers server)
              <-> has_key section (capabilities server) = true))
    /\ has_key "resourceTemplates" (capabilities server) = false.
Proof.
  unfold toMCPServer, bind. intros E.
  destruct (initializeServerState (defaultHttpClient fetch) order config log)
    as [[st|e] log1] eqn:I; [|discriminate].
  destruct (initialize_ok_state_urls _ _ _ _ _ _ I)
    as [manifest [s1 [s2 [s3 [s4 [-> [En [C1 [C2 [C3 C4]]]]]]]]]].
  exists (assemble config manifest [s1; s2; s3; s4]), manifest.
  assert (Fm : forall k, getProp manifest k = OK (field manifest k)).
  { intros k. unfold field. destruct manifest; try discriminate; try reflexivity.
    simpl. now destruct (lookup k o). }
  contributions_url.
  all: unfold advertise, register, lift, ret in E; cbn in E.
  all: rewrite ?Fm in E; cbn in E.
  all: repeat match type of E with
       | context [truthy ?x] => destruct (truthy x) eqn:?
       end.
  all: injection E as <- <-.
  all: split; [reflexivity|];
       split; [reflexivity|];
       split; [reflexivity|];
       split; [|reflexivity].
  all: intros section list call [X|[X|[X|[]]]]; injection X as <- <- <-; cbn;
       repeat match goal with
       | T : truthy ?x = _ |- context [truthy ?x] => rewrite T
       end;
       intuition (try discriminate; try congruence).
Qed.

(** * Properties of the command line *)

Lemma list_pair_ind {A : Type} (P : list A -> Prop) :
  P [] -> (forall x, P [x]) -> (forall x y l, P l -> P (x :: y :: l)) ->
  forall l, P l.
Proof.
  intros P0 P1 P2.
  assert (B : forall l, P l /\ forall x, P (x :: l)).
  { induction l as [|y l [IH1 IH2]]; split; auto. }
  intros l. apply B.
Qed.

(** One turn of the loop: an option and its value. *)
Lemma parse_loop_step (arg value : string) (rest : list string) url hs :
  (exists e, forall rest', parse_loop (arg :: value :: rest') url hs = inl e)
  \/ (exists url' hs',
         forall rest',
           parse_loop (arg :: value :: rest') url hs
           = parse_loop rest' url' hs').
Proof.
  simpl.
  destruct (String.eqb arg "--url"); [right; now eexists _, _|].
  destruct (String.eqb arg "-H" || String.eqb arg "--header").
  { destruct (split_header value) as [|name [|text [|]]];
      try (left; now eexists).
    destruct (negb (string_is_empty name) && negb (string_is_empty text));
      [right; now eexists _, _ | left; now eexists]. }
  destruct (String.eqb arg "-a" || String.eqb arg "--auth");
    [|left; now eexists].
  destruct (negb (string_is_empty value));
    [right; now eexists _, _ | left; now eexists].
Qed.

Lemma parse_loop_app (a b : list string) url hs url' hs' :
  parse_loop a url hs = inr (url', hs') ->
  parse_loop (a ++ b) url hs = parse_loop b url' hs'.
Proof.
  revert url hs. induction a as [| x | x y a IH] using list_pair_ind;
    intros url hs E.
  - simpl in E. now injection E as <- <-.
  - exfalso. simpl in E.
    destruct (String.eqb x "--url"); [discriminate|].
    destruct (String.eqb x "-H" || String.eqb x "--header"); [discriminate|].
    destruct (String.eqb x "-a" || String.eqb x "--auth"); discriminate.
  - destruct (parse_loop_step x y a url hs) as [[e S]|[u1 [h1 S]]].
    + rewrite S in E. discriminate.
    + change ((x :: y :: a) ++ b)%list with (x :: y :: (a ++ b))%list.
      rewrite S in *. now apply IH.
Qed.

Lemma parse_loop_even (a : list string) url hs r :
  parse_loop a url hs = inr r -> Nat.even (length a) = true.
Proof.
  revert url hs. induction a as [| x | x y a IH] using list_pair_ind;
    intros url hs E.
  - reflexivity.
  - exfalso. simpl in E.
    destruct (String.eqb x "--url"); [discriminate|].
    destruct (String.eqb x "-H" || String.eqb x "--header"); [discriminate|].
    destruct (String.eqb x "-a" || String.eqb x "--auth"); discriminate.
  - destruct (parse_loop_step x y a url hs) as [[e S]|[u1 [h1 S]]].
    + rewrite S in E. discriminate.
    + rewrite S in E. simpl. now apply (IH u1 h1).
Qed.

(** X15: command lines compose.  When the arguments [a] parse, parsing [a]
    followed by more arguments continues from what [a] gave; so a later
    [--url] replaces an earlier one, a later [-a] or [--auth] sets
    [Authorization] to the bearer token whatever was there, an argument in
    option position that is no option is an [Unknown argument] error, and an
    option left without its value is an error too. *)
Theorem command_lines_compose
    (node script : string) (a : list string) (url : option string)
    (hs : obj) :
  parse_loop a None [] = inr (url, hs) ->
  (forall b, parse_loop (a ++ b) None [] = parse_loop b url hs)
  /\ (forall value,
        value <> EmptyString ->
        parseArguments (node :: script :: a ++ ["--url"; value])
        = inr (value, hs))
  /\ (forall arg token,
        arg = "-a" \/ arg = "--auth" ->
        token <> EmptyString ->
        forall u, url = Some u -> u <> EmptyString ->
        parseArguments (node :: script :: a ++ [arg; token])
        = inr (u, set_header "Authorization" ("Bearer " ++ token) hs))
  /\ (forall arg rest,
        is_option arg = false ->
        parseArguments (node :: script :: a ++ arg :: rest)
        = inl (UnknownArgument arg))
  /\ (forall arg,
        is_option arg = true ->
        exists e, parseArguments (node :: script :: a ++ [arg]) = inl e
                  /\ e <> HostUrlMissing).
Proof.
  intros E.
  assert (C := fun b => parse_loop_app a b None [] url hs E).
  split; [exact C|]. unfold parseArguments. simpl skipn.
  split; [|split; [|split]].
  - intros value N. rewrite C. simpl.
    destruct value; [now elim N | reflexivity].
  - intros arg token [->| ->] N u -> Nu; rewrite C; simpl;
      (destruct token; [now elim N|]); simpl;
      (destruct u; [now elim Nu | reflexivity]).
  - intros arg rest O. rewrite C. unfold is_option in O.
    repeat (apply orb_false_elim in O; destruct O as [O ?]).
    simpl. rewrite O. simpl.
    repeat match goal with X : String.eqb arg _ = false |- _ =>
      rewrite X; clear X end.
    reflexivity.
  - intros arg O. rewrite C. simpl. unfold is_option in O.
    destruct (String.eqb arg "--url");
      [eexists; split; [reflexivity | discriminate]|].
    destruct (String.eqb arg "-H"); simpl;
      [eexists; split; [reflexivity | discriminate]|].
    destruct (String.eqb arg "--header"); simpl;
      [eexists; split; [reflexivity | discriminate]|].
    destruct (String.eqb arg "-a"); simpl;
      [eexists; split; [reflexivity | discriminate]|].
    destruct (String.eqb arg "--auth"); simpl;
      [eexists; split; [reflexivity | discriminate]|].
    discriminate.
Qed.

(** ** Header arguments *)

Lemma trimStart_eq (s : string) :
  trimStart s
  = match s with
    | EmptyString => EmptyString
    | String a r1 =>
        if ascii_space a then trimStart r1
        else
          match r1 with
          | EmptyString => s
          | String b r2 =>
              if space2 a b then trimStart r2
              else
                match r2 with
                | EmptyString => s
                | String c r3 => if space3 a b c then trimStart r3 else s
                end
          end
    end.
Proof. destruct s; reflexivity. Qed.

Lemma trimStart_length (s : string) :
  (String.length (trimStart s) <= String.length s)%nat.
Proof.
  remember (String.length s) as n eqn:L.
  assert (B : (String.length s <= n)%nat) by lia. clear L.
  revert s B. induction n as [|n IH]; intros s B.
  - destruct s; cbn [String.length] in *; [cbn; lia | lia].
  - rewrite trimStart_eq.
    destruct s as [|a r1]; [cbn; lia|]. cbn [String.length] in *.
    destruct (ascii_space a).
    { specialize (IH r1). lia. }
    destruct r1 as [|b r2]; [cbn; lia|]. cbn [String.length] in *.
    destruct (space2 a b).
    { specialize (IH r2). lia. }
    destruct r2 as [|c r3]; [cbn; lia|]. cbn [String.length] in *.
    destruct (space3 a b c); [|cbn [String.length]; lia].
    specialize (IH r3). lia.
Qed.

Lemma space2_colon (a : ascii) : space2 a colon = false.
Proof. unfold space2. cbn. apply andb_false_r. Qed.

Lemma space3_colon_2 (a c : ascii) : space3 a colon c = false.
Proof.
  unfold space3. cbn. rewrite ?andb_false_r. reflexivity.
Qed.

Lemma space3_colon_3 (a b : ascii) : space3 a b colon = false.
Proof.
  unfold space3. cbn. rewrite ?andb_false_r, ?orb_false_r. reflexivity.
Qed.

(** A text that starts with no white space still does when a colon and more
    text follow it. *)
Lemma trimStart_fixed_app (text more : string) :
  text <> EmptyString ->
  trimStart text = text ->
  trimStart (text ++ String colon more) = text ++ String colon more.
Proof.
  intros N T.
  destruct text as [|a r1]; [now elim N|].
  assert (Sa : ascii_space a = false).
  { destruct (ascii_space a) eqn:E; [|reflexivity].
    pose proof (trimStart_length r1) as L.
    simpl in T. rewrite E in T. rewrite T in L. simpl in L. lia. }
  destruct r1 as [|b r2].
  { simpl. rewrite Sa, space2_colon.
    destruct more as [|c r3]; [reflexivity|]. now rewrite space3_colon_2. }
  assert (Sb : space2 a b = false).
  { destruct (space2 a b) eqn:E; [|reflexivity].
    pose proof (trimStart_length r2) as L.
    simpl in T. rewrite Sa, E in T. rewrite T in L. simpl in L. lia. }
  destruct r2 as [|c r3].
  { simpl. now rewrite Sa, Sb, space3_colon_3. }
  assert (Sc : space3 a b c = false).
  { destruct (space3 a b c) eqn:E; [|reflexivity].
    pose proof (trimStart_length r3) as L.
    simpl in T. rewrite Sa, Sb, E in T. rewrite T in L. simpl in L. lia. }
  simpl. now rewrite Sa, Sb, Sc.
Qed.

Lemma cut_at_colon_app (name rest : string) :
  colon_free name = true ->
  cut_at_colon (name ++ String colon rest) = (name, Some rest).
Proof.
  induction name as [|a name IH]; simpl; [reflexivity|].
  destruct (Ascii.eqb a colon); simpl; [discriminate|].
  intros F. now rewrite (IH F).
Qed.

Lemma cut_at_colon_free (text : string) :
  colon_free text = true -> cut_at_colon text = (text, None).
Proof.
  induction text as [|a text IH]; simpl; [reflexivity|].
  destruct (Ascii.eqb a colon); simpl; [discriminate|].
  intros F. now rewrite (IH F).
Qed.

Lemma trimStart_spaces (n : nat) (t : string) :
  trimStart (spaces n ++ t) = trimStart t.
Proof. induction n as [|n IH]; simpl; [reflexivity | exact IH]. Qed.

(** X16: a header argument is cut at its first two colons.  [Name:] and any
    number of spaces before a text without colon give the name and the text;
    when another colon follows, it and everything behind it are dropped
    without an error: the header is stored with the text before that
    colon. *)
Theorem header_text_stops_at_second_colon
    (name text more : string) (n : nat) (url : option string) (hs : obj)
    (rest : list string) :
  colon_free name = true ->
  colon_free text = true ->
  name <> EmptyString ->
  text <> EmptyString ->
  trimStart text = text ->
  split_header (name ++ ":" ++ spaces n ++ text) = [name; text]
  /\ split_header (name ++ ":" ++ spaces n ++ text ++ ":" ++ more)
     = [name; text]
  /\ parse_loop ("-H" :: (name ++ ":" ++ spaces n ++ text ++ ":" ++ more)
                   :: rest) url hs
     = parse_loop rest url (set_header (trim name) (trim text) hs)
  /\ parse_loop ("-H" :: (name ++ ":" ++ spaces n ++ text) :: rest) url hs
     = parse_loop rest url (set_header (trim name) (trim text) hs).
Proof.
  intros Fn Ft Nn Nt Ts.
  assert (S1 : split_header (name ++ ":" ++ spaces n ++ text) = [name; text]).
  { unfold split_header. change (":" ++ spaces n ++ text)
      with (String colon (spaces n ++ text)).
    rewrite (cut_at_colon_app _ _ Fn), trimStart_spaces, Ts.
    now rewrite (cut_at_colon_free _ Ft). }
  assert (S2 : split_header (name ++ ":" ++ spaces n ++ text ++ ":" ++ more)
               = [name; text]).
  { unfold split_header. change (":" ++ spaces n ++ text ++ ":" ++ more)
      with (String colon (spaces n ++ text ++ String colon more)).
    rewrite (cut_at_colon_app _ _ Fn), trimStart_spaces.
    assert (T2 : trimStart (text ++ String colon more)
                 = text ++ String colon more).
    { apply trimStart_fixed_app; assumption. }
    rewrite T2. now rewrite (cut_at_colon_app _ _ Ft). }
  split; [exact S1|]. split; [exact S2|].
  assert (Ne : negb (string_is_empty name) && negb (string_is_empty text)
               = true).
  { destruct name; [now elim Nn|]. destruct text; [now elim Nt|]. reflexivity. }
  split; cbn [parse_loop String.eqb Ascii.eqb Bool.eqb orb];
    rewrite ?S1, ?S2, Ne; reflexivity.
Qed.

(** ** What a successful parse gives *)

Lemma trimStart_fixed_inv (a : ascii) (r1 : string) :
  trimStart (String a r1) = String a r1 ->
  ascii_space a = false
  /\ (forall b r2, r1 = String b r2 ->
        space2 a b = false
        /\ (forall c r3, r2 = String c r3 -> space3 a b c = false)).
Proof.
  intros T.
  assert (Sa : ascii_space a = false).
  { destruct (ascii_space a) eqn:E; [|reflexivity].
    pose proof (trimStart_length r1) as L.
    rewrite trimStart_eq, E in T. rewrite T in L.
    cbn [String.length] in L. lia. }
  split; [exact Sa|]. intros b r2 ->.
  assert (Sb : space2 a b = false).
  { destruct (space2 a b) eqn:E; [|reflexivity].
    pose proof (trimStart_length r2) as L.
    rewrite trimStart_eq, Sa, E in T. rewrite T in L.
    cbn [String.length] in L. lia. }
  split; [exact Sb|]. intros c r3 ->.
  destruct (space3 a b c) eqn:E; [|reflexivity].
  pose proof (trimStart_length r3) as L.
  rewrite trimStart_eq, Sa, Sb, E in T. rewrite T in L.
  cbn [String.length] in L. lia.
Qed.

Lemma trimStart_idempotent (s : string) :
  trimStart (trimStart s) = trimStart s.
Proof.
  remember (String.length s) as n eqn:L.
  assert (B : (String.length s <= n)%nat) by lia. clear L.
  revert s B. induction n as [|n IH]; intros s B.
  - destruct s; [reflexivity | cbn [String.length] in B; lia].
  - destruct s as [|a r1]; [reflexivity|]. cbn [String.length] in B.
    rewrite (trimStart_eq (String a r1)).
    destruct (ascii_space a) eqn:Sa; [apply IH; lia|].
    destruct r1 as [|b r2]; [now rewrite trimStart_eq, Sa|].
    cbn [String.length] in B.
    destruct (space2 a b) eqn:Sb; [apply IH; lia|].
    destruct r2 as [|c r3]; [now rewrite trimStart_eq, Sa, Sb|].
    cbn [String.length] in B.
    destruct (space3 a b c) eqn:Sc; [apply IH; lia|].
    now rewrite trimStart_eq, Sa, Sb, Sc.
Qed.

(** The piece before the first colon of a text that starts with no white
    space starts with none either. *)
Lemma cut_at_colon_trimmed (t : string) :
  trimStart t = t ->
  trimStart (fst (cut_at_colon t)) = fst (cut_at_colon t).
Proof.
  intros T. destruct t as [|a r1]; [reflexivity|].
  destruct (trimStart_fixed_inv _ _ T) as [Sa R1].
  cbn [cut_at_colon]. destruct (Ascii.eqb a colon); [reflexivity|].
  destruct r1 as [|b r2]; [cbn; now rewrite Sa|].
  destruct (R1 _ _ eq_refl) as [Sb R2].
  cbn [cut_at_colon]. destruct (Ascii.eqb b colon); [cbn; now rewrite Sa|].
  destruct r2 as [|c r3]; [cbn; now rewrite Sa, Sb|].
  pose proof (R2 _ _ eq_refl) as Sc.
  cbn [cut_at_colon]. destruct (Ascii.eqb c colon); [cbn; now rewrite Sa, Sb|].
  destruct (cut_at_colon r3) as [piece rest].
  cbn [fst]. now rewrite trimStart_eq, Sa, Sb, Sc.
Qed.

Lemma trim_nonempty (s : string) :
  trimStart s = s -> s <> EmptyString -> trim s <> EmptyString.
Proof.
  intros T N. unfold trim. rewrite T.
  destruct s as [|a r]; [now elim N|].
  cbn [trimEnd]. unfold blank. rewrite T. discriminate.
Qed.

(** The second piece of a header argument has text left when trimmed. *)
Lemma split_header_text (headerArg name text : string) :
  split_header headerArg = [name; text] ->
  text <> EmptyString -> trim text <> EmptyString.
Proof.
  unfold split_header.
  destruct (cut_at_colon headerArg) as [piece [rest|]]; [|discriminate].
  intros [= -> <-]. apply trim_nonempty.
  apply cut_at_colon_trimmed, trimStart_idempotent.
Qed.

Lemma replace_prop_Forall (P : string * value -> Prop) k v (o : obj) :
  (forall k', P (k', v)) -> Forall P o -> Forall P (replace_prop k v o).
Proof.
  intros Pv. induction 1 as [|[k' v'] o Px F IH]; simpl; [constructor|].
  destruct (String.eqb k' k); constructor; auto.
Qed.

Lemma js_set_Forall (P : string * value -> Prop) k v (o : obj) :
  (forall k', P (k', v)) -> Forall P o -> Forall P (js_set k v o).
Proof.
  intros Pv F. unfold js_set.
  destruct (has_key k o); [now apply replace_prop_Forall|].
  destruct (array_index k) as [n|].
  - destruct (insert_index_split n k v o) as [o1 [o2 [E1 E2]]].
    rewrite E2. subst o. apply Forall_app in F as [F1 F2].
    apply Forall_app. split; [exact F1|]. constructor; auto.
  - apply Forall_app. split; [exact F|]. constructor; auto.
Qed.

Lemma set_header_well_formed (name text : string) (hs : obj) :
  text <> EmptyString ->
  well_formed_headers hs -> well_formed_headers (set_header name text hs).
Proof.
  intros N [D F]. unfold set_header.
  destruct (String.eqb name "__proto__"); [now split|].
  split; [now apply js_set_keys_distinct|].
  apply js_set_Forall; [|exact F].
  intros k'. now exists text.
Qed.

(** One turn of a loop that ends well. *)
Lemma parse_loop_turn (arg value : string) (rest : list string) url hs r :
  parse_loop (arg :: value :: rest) url hs = inr r ->
  exists url' hs',
    parse_loop rest url' hs' = inr r
    /\ (well_formed_headers hs -> well_formed_headers hs')
    /\ ((arg = "--url" /\ url' = Some value) \/ url' = url).
Proof.
  cbn [parse_loop].
  destruct (String.eqb_spec arg "--url") as [->|_].
  { intros E. exists (Some value), hs. split; [exact E|]. split; auto. }
  destruct (String.eqb arg "-H" || String.eqb arg "--header").
  { destruct (split_header value) as [|name [|text [|]]] eqn:S;
      try discriminate.
    destruct (string_is_empty name); [discriminate|].
    destruct text as [|c text]; [discriminate|]. cbn [string_is_empty negb andb].
    intros E. eexists _, _. split; [exact E|]. split; [|now right].
    apply set_header_well_formed.
    now apply (split_header_text _ _ _ S). }
  destruct (String.eqb arg "-a" || String.eqb arg "--auth"); [|discriminate].
  destruct value as [|c token]; [discriminate|]. cbn [string_is_empty negb].
  intros E. eexists _, _. split; [exact E|]. split; [|now right].
  now apply set_header_well_formed.
Qed.

Lemma parse_loop_ok (a : list string) url0 hs0 url hs :
  parse_loop a url0 hs0 = inr (url, hs) ->
  (well_formed_headers hs0 -> well_formed_headers hs)
  /\ (url = url0
      \/ exists pre value post,
           a = (pre ++ "--url" :: value :: post)%list
           /\ url = Some value
           /\ Nat.even (length pre) = true).
Proof.
  revert url0 hs0. induction a as [| x | x y a IH] using list_pair_ind;
    intros url0 hs0 E.
  - simpl in E. injection E as <- <-. split; auto.
  - exfalso. simpl in E.
    destruct (String.eqb x "--url"); [discriminate|].
    destruct (String.eqb x "-H" || String.eqb x "--header"); [discriminate|].
    destruct (String.eqb x "-a" || String.eqb x "--auth"); discriminate.
  - destruct (parse_loop_turn _ _ _ _ _ _ E) as [u1 [h1 [E1 [W1 U1]]]].
    destruct (IH _ _ E1) as [W [U | [pre [value [post [-> [-> Ev] ] ] ] ] ] ].
    + split; [auto|]. subst u1. destruct U1 as [[-> ->] | ->]; [|now left].
      right. now exists [], y, a.
    + split; [auto|]. right.
      exists (x :: y :: pre), value, post. now repeat split.
Qed.

(** X17: when [parseArguments] returns, it returns a URL that is not empty and
    that is the value of a [--url] in option position; the arguments after
    the first two are even in number; and the headers have distinct names and
    texts that are not empty. *)
Theorem parsed_arguments_are_well_formed
    (argv : list string) (url : string) (customHeaders : obj) :
  parseArguments argv = inr (url, customHeaders) ->
  url <> EmptyString
  /\ Nat.even (length (skipn 2 argv)) = true
  /\ (exists pre post,
         skipn 2 argv = (pre ++ "--url" :: url :: post)%list
         /\ Nat.even (length pre) = true)
  /\ well_formed_headers customHeaders.
Proof.
  unfold parseArguments.
  destruct (parse_loop (skipn 2 argv) None []) as [e|[[u|] hs]] eqn:E;
    try discriminate.
  destruct (string_is_empty u) eqn:Ne; [discriminate|]. intros [= -> ->].
  destruct (parse_loop_ok _ _ _ _ _ E) as [W U].
  split; [intros ->; discriminate|].
  split; [exact (parse_loop_even _ _ _ _ E)|].
  split.
  { destruct U as [U | [pre [value [post [A [[= ->] Ev] ] ] ] ] ]; [discriminate|].
    now exists pre, post. }
  apply W. split; constructor.
Qed.

(** ** From the command line to [fetch] *)

(** The requests of an initialization whose configuration can be read: the
    manifest's, then those of the sections of a manifest, if one came. *)
Lemma initialize_issued (http : HttpClient) order config log b h :
  getProp config "baseUrl" = OK b ->
  getProp config "headers" = OK h ->
  exists rest,
    snd (initializeServerState http order config log)
    = (log ++ mkGET b h :: rest)%list
    /\ (rest = []
        \/ exists manifest,
             rest = flat_map
                      (fun n => section_request b h n (manifest_field manifest n))
                      section_names).
Proof.
  intros Eb Eh.
  assert (One : forall e,
            initializeServerState http order config log
            = (Throw e, (log ++ [mkGET b h])%list) ->
            exists rest,
              snd (initializeServerState http order config log)
              = (log ++ mkGET b h :: rest)%list
              /\ (rest = []
                  \/ exists manifest,
                       rest = flat_map
                                (fun n => section_request b h n
                                            (manifest_field manifest n))
                                section_names)).
  { intros e E. exists []. rewrite E. split; [reflexivity | now left]. }
  destruct (http log (mkGET b h)) as [mres|msg] eqn:Em.
  2: { apply (One (CollaboratorError msg)).
       unfold initializeServerState, bind, lift, getUrl.
       now rewrite Eb, Eh, Em. }
  destruct (ok mres) eqn:Eok.
  2: { apply (One (ManifestFetchFailed (status mres) (statusText mres))).
       unfold initializeServerState, bind, lift, getUrl, throw.
       now rewrite Eb, Eh, Em, Eok. }
  destruct (res_json mres) as [manifest|] eqn:Ej.
  2: { apply (One (CollaboratorError "Response is not JSON")).
       unfold initializeServerState, bind, lift, getUrl, json_of.
       now rewrite Eb, Eh, Em, Eok, Ej. }
  destruct (nullish manifest) eqn:En.
  { apply (One TypeError).
    unfold initializeServerState, section_promise, bind, lift, getUrl, json_of.
    rewrite Eb, Eh, Em, Eok, Ej. simpl.
    destruct manifest; try discriminate; reflexivity. }
  eexists. split.
  - apply (initialize_log http order config log b h mres manifest
             Eb Eh Em Eok Ej En).
  - right. now exists manifest.
Qed.

(** Building the server issues the requests of the initialization and no
    other. *)
Lemma toMCPServer_log (fetch : Fetch) order config log :
  snd (toMCPServer fetch order config log)
  = snd (initializeServerState (defaultHttpClient fetch) order config log).
Proof.
  unfold toMCPServer, bind, lift, ret.
  destruct (initializeServerState (defaultHttpClient fetch) order config log)
    as [[st|e] log1]; [|reflexivity].
  repeat match goal with
  | |- context [match ?r with OK _ => _ | Throw _ => _ end] =>
      lazymatch r with
      | context [match _ with _ => _ end] => fail
      | _ => destruct r
      end
  end; reflexivity.
Qed.

Lemma section_request_under (url : string) (h : value) name mv :
  name <> EmptyString ->
  Forall (fun r => exists path,
            path <> EmptyString
            /\ r = mkGET (VStr (strip_trailing_slashes url ++ "/"
                                  ++ strip_leading_slashes path)) h)
    (section_request (VStr url) h name mv).
Proof.
  intros Nn.
  unfold section_request. destruct (truthy mv) eqn:T; [|constructor].
  assert (P : exists path, section_path name mv = VStr path
                           /\ path <> EmptyString).
  { unfold section_path.
    assert (Nm : forall v : value, truthy v = true ->
              exists path,
                (if String.eqb name "resourceTemplates"
                 then (VStr "resource_templates" : value) else VStr name)
                = VStr path /\ path <> EmptyString).
    { intros v Tv.
      destruct (String.eqb name "resourceTemplates");
        [eexists; split; [reflexivity | discriminate]|].
      now exists name. }
    destruct mv as [| |b|n|s|a|o]; try (now apply (Nm _ T)).
    exists s. split; [reflexivity|]. intros ->. discriminate. }
  destruct P as [path [-> N]]. unfold combineURLs.
  assert (Tp : truthy (VStr path : value) = true)
    by (destruct path; [now elim N | reflexivity]).
  rewrite Tp. simpl. constructor; [|constructor]. now exists path.
Qed.

(** X18: [startServer] hands [toMCPServer] the URL and the headers of the command
    line.  Whatever [fetch] answers, the first call of [fetch] is for that
    URL as it was typed; at most four calls follow, each for a URL made of
    the typed one without its trailing slashes, one slash and a path that is
    not empty; and every call has the init object [{headers}] with the
    headers object of the command line, also when no header was given. *)
Theorem command_line_reaches_fetch
    (fetch : Fetch) (order : list nat) (url : string) (customHeaders : obj)
    (log : list Request) :
  exists rest,
    snd (toMCPServer fetch order (server_config url customHeaders) log)
    = (log ++ mkGET (VStr url) (VObj customHeaders) :: rest)%list
    /\ length rest <= 4
    /\ Forall (fun r => exists path,
                 path <> EmptyString
                 /\ fst (fetch_arguments r)
                    = VStr (strip_trailing_slashes url ++ "/"
                              ++ strip_leading_slashes path)) rest
    /\ Forall (fun r => snd (fetch_arguments r)
                        = VObj [("headers", VObj customHeaders)])
         (mkGET (VStr url) (VObj customHeaders) :: rest).
Proof.
  rewrite toMCPServer_log.
  destruct (initialize_issued (defaultHttpClient fetch) order
              (server_config url customHeaders) log
              (VStr url) (VObj customHeaders) eq_refl eq_refl)
    as [rest [E R]].
  exists rest. split; [exact E|].
  assert (U : Forall (fun r => exists path,
                        path <> EmptyString
                        /\ r = mkGET (VStr (strip_trailing_slashes url ++ "/"
                                              ++ strip_leading_slashes path))
                                 (VObj customHeaders)) rest
              /\ length rest <= 4).
  { destruct R as [->|[manifest ->]]; [split; [constructor | simpl; lia]|].
    unfold section_names. cbn [flat_map]. rewrite app_nil_r.
    split; [rewrite !Forall_app; repeat split; apply section_request_under; discriminate|].
    rewrite !length_app.
    pose proof (proj1 (section_request_length (VStr url) (VObj customHeaders)
                         "tools" (manifest_field manifest "tools"))).
    pose proof (proj1 (section_request_length (VStr url) (VObj customHeaders)
                         "prompts" (manifest_field manifest "prompts"))).
    pose proof (proj1 (section_request_length (VStr url) (VObj customHeaders)
                         "resources" (manifest_field manifest "resources"))).
    pose proof (proj1 (section_request_length (VStr url) (VObj customHeaders)
                         "resourceTemplates"
                         (manifest_field manifest "resourceTemplates"))).
    lia. }
  destruct U as [U L]. split; [exact L|]. split.
  - eapply Forall_impl; [|exact U].
    intros r [path [N ->]]. now exists path.
  - constructor; [reflexivity|].
    eapply Forall_impl; [|exact U].
    intros r [path [N ->]]. reflexivity.
Qed.

(** ** The default client *)

Lemma lookup_rev_distinct (k : string) (o : obj) :
  NoDup (map fst o) -> lookup k (rev o) = lookup k o.
Proof.
  induction o as [|[k' v'] o IH]; simpl; intros D; [reflexivity|].
  inversion D as [|? ? X D']; subst.
  rewrite lookup_app, (IH D'). simpl.
  destruct (String.eqb_spec k' k) as [->|N].
  - apply lookup_none_keys in X. now rewrite X.
  - now destruct (lookup k o).
Qed.

(** X19: the POST of the default client.  [fetch] gets the URL, the method, the
    [JSON.stringify] of the data as body, and headers with distinct names
    that hold every header of the caller with its value, a [Content-Type] of
    [application/json] when the caller gives none under that very name, and
    nothing else.  Without headers of the caller the [Content-Type] is the
    only header. *)
Theorem default_client_post_headers
    (url data : value) (headers : obj) :
  NoDup (map fst headers) ->
  (exists sent,
      fetch_arguments (mkPOST url data (VObj headers))
      = (url, VObj [("method", VStr "POST"); ("headers", VObj sent);
                    ("body", string_or_undefined (JSON_stringify data))])
      /\ NoDup (map fst sent)
      /\ (forall k v, lookup k headers = Some v -> lookup k sent = Some v)
      /\ (lookup "Content-Type" headers = None ->
          lookup "Content-Type" sent = Some (VStr "application/json"))
      /\ (forall k, has_key k sent = true ->
            k = "Content-Type" \/ has_key k headers = true))
  /\ fetch_arguments (mkPOST url data VUndefined)
     = (url, VObj [("method", VStr "POST");
                   ("headers",
                    VObj [("Content-Type", VStr "application/json")]);
                   ("body", string_or_undefined (JSON_stringify data))]).
Proof.
  intros D. split; [|reflexivity].
  eexists. split; [reflexivity|]. cbn [own_entries].
  split; [apply assign_keys_distinct; repeat constructor; simpl; tauto|].
  split; [|split].
  - intros k v L. now rewrite lookup_assign, (lookup_rev_distinct _ _ D), L.
  - intros L. now rewrite lookup_assign, (lookup_rev_distinct _ _ D), L.
  - intros k. unfold has_key.
    rewrite lookup_assign, (lookup_rev_distinct _ _ D).
    destruct (lookup k headers); [now right|]. cbn [lookup].
    destruct (String.eqb_spec "Content-Type" k) as [<-|N];
      [now left | discriminate].
Qed.

End Ssmcp.

(** * Concrete runs

    A small server in the style of the repository's tests: a manifest at
    [http://h], tools at [http://h/tools], resources at [http://h/res/].
    Numbers are integers, and the body of a response can be read once, as
    that of a [Response] of [fetch]. *)

Definition value_Z : Type := @value Z.

Definition json_response (status : nat) (statusText : string) (j : value_Z)
  : @Response Z :=
  {| status := status;
     statusText := statusText;
     contentType_header := Some "application/json";
     res_text := match JSON_stringify j with Some s => s | None => EmptyString end;
     res_json := Some j;
     res_bytes := [];
     single_use := true |}.

Definition text_response (status : nat) (contentType text : string)
  : @Response Z :=
  {| status := status;
     statusText := EmptyString;
     contentType_header := Some contentType;
     res_text := text;
     res_json := None;
     res_bytes := list_byte_of_string text;
     single_use := true |}.

(** Answers by URL, whatever the history. *)
Definition serve (routes : list (string * @Response Z)) : @HttpClient Z :=
  fun _ req =>
    match req_url req with
    | VStr u =>
        match find (fun r => String.eqb (fst r) u) routes with
        | Some r => Resolved (snd r)
        | None => Rejected "Unexpected request"
        end
    | _ => Rejected "Unexpected request"
    end.

Definition bearer : value_Z :=
  VObj [("Authorization", VStr "Bearer test")].

Definition config0 : value_Z :=
  VObj [("baseUrl", VStr "http://h"); ("headers", bearer)].

Definition manifest0 : value_Z :=
  VObj [("name", VStr "TestServer"); ("version", VStr "1.0");
        ("tools", VBool true); ("prompts", VStr EmptyString);
        ("resources", VStr "/res/")].

Definition tools0 : value_Z :=
  VArr [VObj [("name", VStr "calculator"); ("description", VStr "Calculates")]].

Definition resources0 : value_Z :=
  VArr [VObj [("uri", VStr "file://a.txt"); ("name", VStr "a.txt")];
        VObj [("uri", VStr "file://b.txt"); ("name", VStr "b.txt");
              ("href", VStr "b")]].

Definition server0 : @HttpClient Z :=
  serve [("http://h", json_response 200 "OK" manifest0);
         ("http://h/tools", json_response 200 "OK" tools0);
         ("http://h/res/", json_response 200 "OK" resources0);
         ("http://h/tools/calculator", text_response 200 "text/plain" "4")].

(** The state [initializeServerState] builds from [server0]. *)
Definition state0 : @obj Z :=
  [("config", config0); ("manifest", manifest0);
   ("tools", tools0); ("toolsUrl", VStr "http://h/tools");
   ("resources", resources0); ("resourcesUrl", VStr "http://h/res/")].

Example initialize_server0 :
  initializeServerState server0 [] config0 []
  = (OK state0,
     [mkGET (VStr "http://h") bearer;
      mkGET (VStr "http://h/tools") bearer;
      mkGET (VStr "http://h/res/") bearer]).
Proof. reflexivity. Qed.

(** Witness of C7. *)
Lemma combineURLs_one_separating_slash_witness :
  "tools" <> EmptyString
  /\ exists B R : string,
       combineURLs (VStr ("http://h" ++ slashes 2) : value_Z)
         (VStr (slashes 2 ++ "tools"))
       = OK (VStr (B ++ "/" ++ R))
       /\ B = "http://h" /\ R = "tools".
Proof.
  assert (N : "tools" <> EmptyString) by discriminate.
  split; [exact N|].
  destruct (proj1 (@combineURLs_one_separating_slash Z _)
              "http://h" "tools" 2 2 N)
    as [B [R [E [EB [ER _]]]]].
  exists B, R. repeat split; assumption.
Defined.

(** Witness of C9. *)
Lemma unknown_name_fails_without_network_witness :
  mcpCallTool server0 (VObj state0) "weather" (VObj []) []
  = (Throw (UnknownTool "weather"), []).
Proof.
  apply (proj1 (unknown_name_fails_without_network server0 (VObj state0)
                  "weather" (VObj []) []
                  [VObj [("name", VStr "calculator");
                         ("description", VStr "Calculates")]])).
  - reflexivity.
  - repeat constructor. eexists. split; [reflexivity | discriminate].
Defined.

(** A server that answers every request with the same response. *)
Definition always (res : @Response Z) : @HttpClient Z :=
  fun _ _ => Resolved res.

(** Counterexample to C3 as stated: the tool endpoint answers 500 with an
    HTML page.  The status is neither 401 nor 403 and is outside 200-299, and
    [mcpCallTool] throws instead of returning a content with [isError]. *)
Lemma callTool_throws_on_html_error_page :
  let res := text_response 500 "text/html" "<h1>Internal Server Error</h1>" in
  ok res = false /\ status res <> 401 /\ status res <> 403
  /\ mcpCallTool (always res) (VObj state0) "calculator" (VObj []) []
     = (Throw (UnsupportedContentType "text/html"),
        [mkPOST (VStr "http://h/tools/calculator") (VObj []) VUndefined]).
Proof. cbv zeta. repeat split; discriminate. Qed.

(** Witness of C3 as amended: a 401 on a tool call. *)
Lemma upstream_status_mapping_witness :
  fst (mcpCallTool (always (text_response 401 "text/plain" "Unauthorized access"))
         (VObj state0) "calculator" (VObj []) [])
  = Throw Unauthorized.
Proof.
  pose (res := text_response 401 "text/plain" "Unauthorized access").
  pose (req := @mkPOST Z (VStr "http://h/tools/calculator") (VObj []) VUndefined).
  destruct (upstream_status_mapping (always res) (VObj state0) "calculator"
              (VObj []) [] req res eq_refl) as [T _].
  destruct (T eq_refl) as [[A _] _].
  apply A. reflexivity.
Defined.




(** Witness of C6: a JSON number. *)
Lemma toMCPContent_cases_witness :
  toMCPContent (json_response 200 "OK" (VNum 123%Z))
  = OK [("content", VArr [TextBlock "123"])].
Proof.
  destruct (toMCPContent_cases (json_response 200 "OK" (VNum 123%Z)))
    as [_ [J _]].
  destruct (J eq_refl eq_refl (VNum 123%Z) eq_refl) as [_ [_ [_ P]]].
  exact (proj2 (P "123" (stringified_number 123%Z))).
Defined.

(** The server of [server0] with resource templates declared [true]. *)
Definition manifest_templates : value_Z :=
  VObj [("name", VStr "TestServer"); ("version", VStr "1.0");
        ("tools", VBool true); ("prompts", VStr EmptyString);
        ("resources", VStr "/res/"); ("resourceTemplates", VBool true)].

Definition server_templates : @HttpClient Z :=
  serve [("http://h", json_response 200 "OK" manifest_templates);
         ("http://h/tools", json_response 200 "OK" tools0);
         ("http://h/res/", json_response 200 "OK" resources0);
         ("http://h/resource_templates", json_response 200 "OK" (VArr []))].

(** Witness of C8: tools and resource templates declared [true], resources
    declared with a string, prompts with the empty string. *)
Lemma declared_sections_paths_witness :
  snd (initializeServerState server_templates [] config0 [])
  = [mkGET (VStr "http://h") bearer;
     mkGET (VStr "http://h/tools") bearer;
     mkGET (VStr "http://h/res/") bearer;
     mkGET (VStr "http://h/resource_templates") bearer].
Proof.
  destruct (declared_sections_paths server_templates [] config0 [] "http://h"
              bearer (json_response 200 "OK" manifest_templates)
              manifest_templates
              eq_refl eq_refl eq_refl eq_refl eq_refl)
    as [tools [prompts [resources [templates
         [L [[_ [T _]] [[P _] [[_ [_ R]] [[_ [Tm _]] _]]]]]]]]].
  rewrite L, (T eq_refl), (P eq_refl), (Tm eq_refl).
  destruct (R "/res/" eq_refl) as [_ ->]; [discriminate|].
  reflexivity.
Defined.

(** Witness of C10: the manifest of [server0] has an empty [prompts]. *)
Lemma empty_string_declares_nothing_witness :
  snd (initializeServerState server0 [] config0 [])
  = [mkGET (VStr "http://h") bearer;
     mkGET (VStr "http://h/tools") bearer;
     mkGET (VStr "http://h/res/") bearer]
  /\ has_key "prompts" state0 = false
  /\ has_key "promptsUrl" state0 = false.
Proof.
  destruct (empty_string_declares_nothing server0 [] config0 []
              (VStr "http://h") bearer (json_response 200 "OK" manifest0)
              manifest0 "prompts"
              eq_refl eq_refl eq_refl eq_refl eq_refl
              (or_intror (or_introl eq_refl)) eq_refl)
    as [_ [L S]].
  split; [exact L|].
  exact (S state0 _ initialize_server0).
Defined.

(** Counterexample to C2 as stated: arguments with a [uri] of their own.  The
    resource is found by the URI asked for, and the request carries the
    [uri] of the arguments. *)
Lemma readResource_arguments_replace_uri :
  let args : value_Z := VObj [("uri", VStr "file://b.txt"); ("page", VNum 2%Z)] in
  URLSearchParams_of (resource_query_object "file://a.txt" args)
  = OK [("uri", "file://b.txt"); ("page", "2")]
  /\ snd (mcpReadResource server0 (VObj state0) "file://a.txt" args [])
     = [mkGET (VStr "http://h/res/?uri=file%3A%2F%2Fb.txt&page=2") VUndefined]
  /\ "file://b.txt" <> "file://a.txt".
Proof. cbv zeta. repeat split. discriminate. Qed.

(** Witness of C2 as amended: a resource with an [href], and arguments. *)
Lemma readResource_request_shape_witness :
  let args : value_Z := VObj [("page", VNum 2%Z)] in
  snd (mcpReadResource server0 (VObj state0) "file://b.txt" args [])
  = [mkGET (VStr "http://h/res/b?uri=file%3A%2F%2Fb.txt&page=2") VUndefined].
Proof.
  cbv zeta.
  pose (args := VObj [("page", VNum 2%Z)] : value_Z).
  pose (a := VObj [("uri", VStr "file://a.txt"); ("name", VStr "a.txt")]
               : value_Z).
  pose (b := VObj [("uri", VStr "file://b.txt"); ("name", VStr "b.txt");
                   ("href", VStr "b")] : value_Z).
  assert (F : first_entry "uri" "file://b.txt" [a; b] b).
  { exists [a], []. repeat split.
    repeat constructor. eexists. split; [reflexivity | discriminate]. }
  assert (P : URLSearchParams_of (resource_query_object "file://b.txt" args)
              = OK [("uri", "file://b.txt"); ("page", "2")]) by reflexivity.
  destruct (readResource_request_shape server0 (VObj state0) "file://b.txt"
              args [] [a; b] b "http://h/res/"
              [("uri", "file://b.txt"); ("page", "2")]
              eq_refl F eq_refl P)
    as [[headers [Eh [Hh _]]] _].
  destruct (Hh "b" eq_refl) as [U [EU L]].
  injection Eh as <-. injection EU as <-. exact L.
Defined.

(** Witness of C1: after the initialization of [server0] with the bearer
    token, the tool call goes out without it. *)
Lemma initialized_state_sends_no_headers_witness :
  initializeServerState server0 [] config0 []
  = (OK state0,
     [mkGET (VStr "http://h") bearer;
      mkGET (VStr "http://h/tools") bearer;
      mkGET (VStr "http://h/res/") bearer])
  /\ lookup "config" state0 = Some config0
  /\ getProp config0 "headers" = OK bearer
  /\ mcpCallTool server0 (VObj state0) "calculator" (VObj []) []
     = (OK [("content", VArr [TextBlock "4"])],
        [mkPOST (VStr "http://h/tools/calculator") (VObj []) VUndefined])
  /\ forall req,
       snd (mcpCallTool server0 (VObj state0) "calculator" (VObj []) [])
       = [req] ->
       req_headers req = VUndefined.
Proof.
  split; [reflexivity|].
  destruct (initialized_state_sends_no_headers server0 [] config0 [] state0 _
              initialize_server0) as [C [_ [_ D]]].
  split; [exact C|]. split; [reflexivity|]. split; [reflexivity|].
  intros req. exact (proj1 (D "calculator" (VObj []) [] req)).
Defined.

(** ** Runs of the further properties *)

(** The state of [server0] with a prompts section. *)
Definition prompts1 : value_Z :=
  VArr [VObj [("name", VStr "greet"); ("description", VStr "Greets")]].

Definition state1 : @obj Z :=
  (state0 ++ [("prompts", prompts1);
              ("promptsUrl", VStr "http://h/prompts")])%list.

(** [fetch] answering by URL, whatever the init object and the history. *)
Definition fetch_routes (routes : list (string * @Response Z)) : @Fetch Z :=
  fun _ call =>
    match fst call with
    | VStr u =>
        match find (fun r => String.eqb (fst r) u) routes with
        | Some r => Resolved (snd r)
        | None => Rejected "Unexpected request"
        end
    | _ => Rejected "Unexpected request"
    end.

Definition fetch0 : @Fetch Z :=
  fetch_routes [("http://h", json_response 200 "OK" manifest0);
                ("http://h/tools", json_response 200 "OK" tools0);
                ("http://h/res/", json_response 200 "OK" resources0)].

(** A resource read that is answered with plain text. *)
Lemma readResource_returns_contents_witness :
  exists o l,
    fst (mcpReadResource (always (text_response 200 "text/plain" "hello"))
           (VObj state0) "file://a.txt" (VObj []) []) = OK o
    /\ lookup "contents" o = Some (VArr l).
Proof.
  destruct (readResource_returns_contents
              (always (text_response 200 "text/plain" "hello"))
              (VObj state0) "file://a.txt" (VObj []) [] _ _ eq_refl)
    as [[l L] _].
  eexists _, l. split; [reflexivity | exact L].
Defined.

(** A resource read that [fetch] answers with a JSON object without
    [contents]: the second read of the body fails. *)
Lemma readResource_on_success_status_witness :
  fst (mcpReadResource
         (always (json_response 200 "OK" (VObj [("size", VNum 3%Z)])))
         (VObj state0) "file://a.txt" (VObj []) [])
  = Throw TypeError.
Proof.
  pose (res := json_response 200 "OK" (VObj [("size", VNum 3%Z)])).
  destruct (readResource_on_success_status (always res)
              (VObj state0) "file://a.txt" (VObj []) []
              (mkGET (VStr "http://h/res/?uri=file%3A%2F%2Fa.txt") VUndefined)
              res eq_refl eq_refl eq_refl) as [_ J].
  destruct (J eq_refl) as [_ [_ N]].
  exact (proj1 (N (VObj [("size", VNum 3%Z)]) eq_refl eq_refl) eq_refl).
Defined.

(** A prompt that is answered with plain text. *)
Lemma getPrompt_returns_messages_witness :
  exists o l,
    fst (mcpGetPrompt (always (text_response 200 "text/plain" "Hello"))
           (VObj state1) "greet" (VObj [("who", VStr "you")]) []) = OK o
    /\ lookup "messages" o = Some (VArr l).
Proof.
  destruct (getPrompt_returns_messages
              (always (text_response 200 "text/plain" "Hello"))
              (VObj state1) "greet" (VObj [("who", VStr "you")]) [] _ _ eq_refl)
    as [[l L] _].
  eexists _, l. split; [reflexivity | exact L].
Defined.

(** The listed tool of [state0], called on a server that answers with an
    HTML error page: the call fails, and not as an unknown tool. *)
Lemma listed_names_are_known_witness :
  exists e,
    fst (mcpCallTool
           (always (text_response 500 "text/html" "<h1>Error</h1>"))
           (VObj state0) "calculator" (VObj []) []) = Throw e
    /\ is_unknown e = false.
Proof.
  eexists. split; [reflexivity|].
  pose (p := VObj [("name", VStr "calculator");
                   ("description", VStr "Calculates");
                   ("inputSchema", VUndefined)] : value_Z).
  apply (proj1 (listed_names_are_known
                  (always (text_response 500 "text/html" "<h1>Error</h1>"))
                  (VObj state0) [("tools", VArr [p])] [p] p "calculator"
                  (VObj []) [] _ (or_introl eq_refl)));
    reflexivity.
Defined.

(** The call of the tool of [state0], which has no [href]. *)
Lemma callTool_request_shape_witness :
  snd (mcpCallTool server0 (VObj state0) "calculator"
         (VObj [("a", VNum 2%Z)]) [])
  = [mkPOST (VStr "http://h/tools/calculator") (VObj [("a", VNum 2%Z)])
       VUndefined].
Proof.
  pose (tool := VObj [("name", VStr "calculator");
                      ("description", VStr "Calculates")] : value_Z).
  assert (F : first_entry "name" "calculator" [tool] tool).
  { exists [], []. repeat split. constructor. }
  destruct (callTool_request_shape server0 (VObj state0) "calculator"
              (VObj [("a", VNum 2%Z)]) [] [tool] tool "http://h/tools"
              eq_refl F eq_refl)
    as [headers [Eh [N _]]].
  destruct (N VUndefined eq_refl eq_refl) as [U [EU L]].
  injection Eh as <-. injection EU as <-. exact L.
Defined.

(** The prompt of [state1] with one argument. *)
Lemma getPrompt_request_shape_witness :
  snd (mcpGetPrompt server0 (VObj state1) "greet"
         (VObj [("who", VStr "you")]) [])
  = [mkGET (VStr "http://h/prompts/greet?who=you") VUndefined].
Proof.
  pose (prompt := VObj [("name", VStr "greet");
                        ("description", VStr "Greets")] : value_Z).
  assert (F : first_entry "name" "greet" [prompt] prompt).
  { exists [], []. repeat split. constructor. }
  assert (P : prompt_params (VObj [("who", VStr "you")] : value_Z)
              = OK [("who", "you")]) by reflexivity.
  destruct (getPrompt_request_shape server0 (VObj state1) "greet"
              (VObj [("who", VStr "you")]) [] [prompt] prompt VUndefined
              "http://h/prompts" "http://h/prompts/greet" [("who", "you")]
              eq_refl F eq_refl eq_refl eq_refl P)
    as [[headers [Eh L]] _].
  injection Eh as <-. exact L.
Defined.

(** A tool call that is answered 500 with a JSON object that says
    [isError: false]. *)
Lemma callTool_result_frame_witness :
  fst (mcpCallTool
         (always (json_response 500 "Internal Server Error"
                    (VObj [("isError", VBool false);
                           ("message", VStr "boom")])))
         (VObj state0) "calculator" (VObj []) [])
  = OK [("isError", VBool true); ("message", VStr "boom")].
Proof.
  pose (content := [("isError", VBool false); ("message", VStr "boom")]
                   : @obj Z).
  pose (res := json_response 500 "Internal Server Error" (VObj content)).
  destruct (callTool_result_frame (always res) (VObj state0) "calculator"
              (VObj []) []
              (mkPOST (VStr "http://h/tools/calculator") (VObj []) VUndefined)
              res content eq_refl eq_refl eq_refl) as [_ U].
  assert (Up : upstream_failure res).
  { repeat split; discriminate. }
  destruct (U Up) as [r [E [I [V [K _]]]]].
  transitivity (OK r); [exact E|]. f_equal.
  specialize (K eq_refl). specialize (V "message" ltac:(discriminate)).
  destruct r as [|[k1 v1] [|[k2 v2] [|? ?]]]; try discriminate K.
  injection K as -> ->. cbn in I, V.
  injection I as ->. injection V as ->. reflexivity.
Defined.


(** The tool of [server0], called in the state of its initialization. *)
Lemma initialized_tool_call_url_witness :
  snd (mcpCallTool server0 (VObj state0) "calculator" (VObj []) [])
  = [mkPOST (VStr "http://h/tools/calculator") (VObj []) VUndefined].
Proof.
  pose (tool := VObj [("name", VStr "calculator");
                      ("description", VStr "Calculates")] : value_Z).
  assert (F : first_entry "name" "calculator" [tool] tool).
  { exists [], []. repeat split. constructor. }
  destruct (initialized_tool_call_url server0 [] config0 []
              (VStr "http://h") bearer (json_response 200 "OK" manifest0)
              manifest0 state0 _ [tool] tool VUndefined "calculator"
              (VObj []) []
              eq_refl eq_refl eq_refl eq_refl eq_refl initialize_server0
              eq_refl eq_refl F eq_refl)
    as [toolsUrl [_ [_ B]]].
  apply (B "http://h"); [reflexivity | reflexivity | reflexivity | discriminate].
Defined.

(** The server built over [fetch0]: tools and resources, no prompts. *)
Lemma server_advertises_what_it_serves_witness :
  exists server log',
    toMCPServer fetch0 [] config0 [] = (OK server, log')
    /\ has_key "tools" (capabilities server) = true
    /\ has_key "resourceTemplates" (capabilities server) = false.
Proof.
  eexists _, _. split; [reflexivity|].
  destruct (server_advertises_what_it_serves fetch0 [] config0 [] _ _ eq_refl)
    as [st [manifest [_ [_ [_ [_ R]]]]]].
  split; [reflexivity | exact R].
Defined.

(** A command line with a second [--url]. *)
Lemma command_lines_compose_witness :
  parseArguments ["node"; "ssmcp"; "--url"; "http://h"; "-H"; "X-K: v";
                  "--url"; "http://g"]
  = inr ("http://g", [("X-K", VStr "v" : value_Z)]).
Proof.
  destruct (command_lines_compose "node" "ssmcp"
              ["--url"; "http://h"; "-H"; "X-K: v"] (Some "http://h")
              [("X-K", VStr "v" : value_Z)] eq_refl) as [_ [U _]].
  apply (U "http://g"). discriminate.
Defined.

(** A bearer token with a colon in it, given with [-H]. *)
Lemma header_text_stops_at_second_colon_witness :
  split_header "Authorization: Bearer a:b" = ["Authorization"; "Bearer a"].
Proof.
  destruct (header_text_stops_at_second_colon (number := Z)
              "Authorization" "Bearer a" "b" 1 None [] []
              eq_refl eq_refl) as [_ [S _]];
    [discriminate | discriminate | reflexivity | exact S].
Defined.

(** A command line that parses. *)
Lemma parsed_arguments_are_well_formed_witness :
  well_formed_headers
    [("X-K", VStr "v" : value_Z); ("Authorization", VStr "Bearer t")].
Proof.
  destruct (parsed_arguments_are_well_formed
              ["node"; "ssmcp"; "-H"; "X-K: v"; "--url"; "http://h";
               "-a"; "t"]
              "http://h"
              [("X-K", VStr "v" : value_Z); ("Authorization", VStr "Bearer t")]
              eq_refl) as [_ [_ [_ W]]].
  exact W.
Defined.

(** A POST with an [Authorization] header. *)
Lemma default_client_post_headers_witness :
  exists sent,
    fetch_arguments
      (mkPOST (VStr "http://h/tools/calculator") (VNum 2%Z) bearer)
    = (VStr "http://h/tools/calculator",
       VObj [("method", VStr "POST"); ("headers", VObj sent);
             ("body", VStr "2")])
    /\ lookup "Authorization" sent = Some (VStr "Bearer test")
    /\ lookup "Content-Type" sent = Some (VStr "application/json").
Proof.
  assert (D : NoDup (map fst [("Authorization", VStr "Bearer test" : value_Z)])).
  { repeat constructor. simpl. tauto. }
  destruct (default_client_post_headers (VStr "http://h/tools/calculator")
              (VNum 2%Z) _ D) as [[sent [E [_ [K [C _]]]]] _].
  exists sent. split; [exact E|].
  split; [apply K | apply C]; reflexivity.
Defined.

(** The listing of the tools of [state0]. *)
Lemma listings_hold_wire_fields_only_witness :
  exists listed,
    mcpListTools (VObj state0) = OK [("tools", VArr listed)]
    /\ Forall (fun p => getProp p "href" = OK VUndefined) listed.
Proof.
  destruct (proj1 (listings_hold_wire_fields_only (VObj state0) _) eq_refl)
    as [entries [listed [G [E [F2 Fh]]]]].
  exists listed. split; [|exact Fh].
  rewrite <- E. reflexivity.
Defined.

(** A tools section with a [null] entry. *)
Lemma listings_fail_on_null_entries_witness :
  mcpListTools (VObj [("tools", VArr [VNull])] : value_Z) = Throw TypeError.
Proof.
  apply (proj2 (proj1 (listings_fail_on_null_entries
                         (VObj [("tools", VArr [VNull])] : value_Z) "tools"
                         ["name"; "description"; "inputSchema"])
                  [VNull] eq_refl)).
  constructor. reflexivity.
Defined.

(** The initialization of [server0] issues three requests. *)
Lemma initialize_request_budget_witness :
  exists issued,
    snd (initializeServerState server0 [] config0 []) = issued
    /\ length issued <= 5.
Proof.
  destruct (initialize_request_budget server0 [] config0 [])
    as [issued [E [L _]]].
  exists issued. split; [exact E | exact L].
Defined.

(** The fetches of a server started with the headers [bearer]. *)
Lemma command_line_reaches_fetch_witness :
  exists rest,
    snd (toMCPServer fetch0 []
           (server_config "http://h" [("Authorization", VStr "Bearer test")])
           [])
    = mkGET (VStr "http://h") bearer :: rest
    /\ length rest <= 4.
Proof.
  destruct (command_line_reaches_fetch fetch0 [] "http://h"
              [("Authorization", VStr "Bearer test")] [])
    as [rest [E [L _]]].
  exists rest. split; [exact E | exact L].
Defined.

(** The content of a resource answered with an image. *)
Lemma toMCPResourceContent_shape_witness :
  lookup "blob"
    (toMCPResourceContent (text_response 200 "image/png" "PNG") "file://a.png")
  = Some (VStr "UE5H").
Proof.
  destruct (toMCPResourceContent_shape (text_response 200 "image/png" "PNG")
              "file://a.png") as [_ [_ B]].
  exact (proj1 B).
Defined.
